(** * PDFViewer: the highlight model of [src/components/pdf/PDFViewer.jsx]

    A shallow embedding of the React component's state and event handlers,
    and the properties of its highlight capture, overlay projection, page
    and zoom control, deletion and export.

    Conventions of the embedding.
    - A JavaScript number that carries a coordinate, a scale or an id is
      the rational ([Q]) it denotes; the values NaN and Infinity and the
      sign of zero are outside the model.  The scale, the zoom label and
      the id of a highlight are computed as the code computes them, in IEEE
      754 double precision: [JS.add], [JS.sub] and [JS.mul] round the exact
      result to the nearest double, ties to even ([JS.binary64]), and a
      decimal literal such as [0.2] is the double nearest to it ([JS.lit]).
      The coordinates of rectangles and the offsets of the export are kept
      as exact rationals: the properties about them compare and clamp
      them, which is exact on doubles, or evaluate the code on integers,
      where the arithmetic of doubles is exact too.  Page numbers are
      integers ([Z]).  Equality of numbers is [Qeq] ([==]).
    - A JavaScript string is a [string] whose characters are code units
      below 256.
    - An object created by the component (a highlight) carries the address
      it was allocated at ([obj]), since [Array.prototype.indexOf] compares
      objects by identity.
    - The [useState] cells are the fields of [State]; the visible effects
      (toasts, offered downloads, scroll requests) are logs in the same
      record.  The cell [error] is never written by the component and the
      refs to DOM nodes are inputs of the handlers that read them. *)

From Stdlib Require Import ZArith QArith Qminmax Lqa Lia List SetoidList String Ascii Bool.
From Stdlib Require DecimalString.
From Stdlib Require Import Qround Qpower Qabs Sorted Permutation.
From Stdlib Require Floats.SpecFloat.
Import ListNotations.

Local Open Scope Q_scope.
Local Open Scope string_scope.

(** ** JavaScript built-ins used by the component *)

Module JS.

(** [Math.min] and [Math.max] on numbers. *)
Definition Math_min (a b : Q) : Q := Qmin a b.
Definition Math_max (a b : Q) : Q := Qmax a b.

(** [a < b] on numbers. *)
Definition lt (a b : Q) : bool := negb (Qle_bool b a).

(** *** Double precision

    A finite double is [m * 2^e] with [|m| < 2^53] and [-1074 <= e]; the
    result of an arithmetic operation is the exact result rounded to the
    nearest such number, ties to the one with an even [m]. *)

(** [2^e], for any integer [e]. *)
Definition pow2 (e : Z) : Q := 2 ^ e.

(** The binade of a positive number: the [e] with [2^e <= q < 2^(e+1)]. *)
Definition binade (q : Q) : Z :=
  if Qle_bool 1 q then Z.log2 (Qfloor q) else (- Z.log2_up (Qceiling (/ q)))%Z.

(** The nearest integer, ties to even. *)
Definition roundTiesToEven (q : Q) : Z :=
  let f := Qfloor q in
  match Qcompare (q - inject_Z f) (1 # 2) with
  | Lt => f
  | Gt => (f + 1)%Z
  | Eq => if Z.even f then f else (f + 1)%Z
  end.

(** The double nearest to [q]: [q] is rounded to a multiple of the unit
    in the last place of its binade, [2^(e-52)], where the exponent [e]
    does not go below -1022 (gradual underflow).  Results beyond the
    largest double (Infinity) are outside the model. *)
Definition binary64 (q : Q) : Q :=
  let a := Qabs q in
  if Qeq_bool a 0 then 0
  else
    let e := Z.max (binade a) (-1022) in
    let ulp := pow2 (e - 52) in
    let m := inject_Z (roundTiesToEven (a / ulp)) * ulp in
    Qred (if Qle_bool 0 q then m else - m).

(** A decimal literal of the source, and [a + b], [a - b], [a * b] on
    numbers. *)
Definition lit (q : Q) : Q := binary64 q.
Definition add (a b : Q) : Q := binary64 (a + b).
Definition sub (a b : Q) : Q := binary64 (a - b).
Definition mul (a b : Q) : Q := binary64 (a * b).

(** Integer versions, for page numbers. *)
Definition Math_minZ (a b : Z) : Z := Z.min a b.
Definition Math_maxZ (a b : Z) : Z := Z.max a b.

(** [ToNumber] of a cell holding [null] or an integer: [null] is [+0]. *)
Definition ToNumberZ (v : option Z) : Z :=
  match v with
  | Some n => n
  | None => 0%Z
  end.

(** White space and line terminators stripped by [String.prototype.trim]
    (TAB, LF, VT, FF, CR, SP, NBSP among the code units below 256). *)
Definition isWhiteSpace (c : ascii) : bool :=
  let n := nat_of_ascii c in
  (Nat.eqb n 9 || Nat.eqb n 10 || Nat.eqb n 11 || Nat.eqb n 12
   || Nat.eqb n 13 || Nat.eqb n 32 || Nat.eqb n 160)%bool.

Fixpoint trimStart (s : string) : string :=
  match s with
  | EmptyString => EmptyString
  | String c r => if isWhiteSpace c then trimStart r else s
  end.

Fixpoint trimEnd (s : string) : string :=
  match s with
  | EmptyString => EmptyString
  | String c r =>
      match trimEnd r with
      | EmptyString => if isWhiteSpace c then EmptyString else String c EmptyString
      | r' => String c r'
      end
  end.

(** [s.trim()]. *)
Definition trim (s : string) : string := trimEnd (trimStart s).

(** [s.substring(0, n)] and [s.substr(i, n)] for in-range arguments. *)
Definition substring0 (n : nat) (s : string) : string := String.substring 0 n s.
Definition substr (i n : nat) (s : string) : string := String.substring i n s.

(** [s.replace(c, '')] with a one-character pattern: the first occurrence
    of [c] is removed. *)
Fixpoint replace_first (c : ascii) (s : string) : string :=
  match s with
  | EmptyString => EmptyString
  | String d r => if Ascii.eqb c d then r else String d (replace_first c r)
  end.

(** The value of a hexadecimal digit. *)
Definition hexDigit (c : ascii) : option Z :=
  let n := Z.of_nat (nat_of_ascii c) in
  if ((48 <=? n) && (n <=? 57))%Z then Some (n - 48)%Z
  else if ((97 <=? n) && (n <=? 102))%Z then Some (n - 87)%Z
  else if ((65 <=? n) && (n <=? 70))%Z then Some (n - 55)%Z
  else None.

(** The longest prefix of hexadecimal digits, accumulated; the boolean
    tells whether a digit was read. *)
Fixpoint hexPrefix (s : string) (acc : Z) (seen : bool) : Z * bool :=
  match s with
  | EmptyString => (acc, seen)
  | String c r =>
      match hexDigit c with
      | Some d => hexPrefix r (16 * acc + d)%Z true
      | None => (acc, seen)
      end
  end.

Definition strip0x (s : string) : string :=
  match s with
  | String "0" (String "x" r) => r
  | String "0" (String "X" r) => r
  | _ => s
  end.

(** [parseInt(s, 16)]: leading white space, an optional sign, an optional
    [0x], then the longest run of digits; [None] is NaN. *)
Definition parseInt16 (s : string) : option Z :=
  let s1 := trimStart s in
  let '(neg, s2) :=
    match s1 with
    | String "-" r => (true, r)
    | String "+" r => (false, r)
    | _ => (false, s1)
    end in
  let '(v, seen) := hexPrefix (strip0x s2) 0%Z false in
  if seen then Some (if neg then (- v)%Z else v) else None.

End JS.

(** ** Data model *)

(** A [DOMRect] as returned by [getBoundingClientRect], in screen pixels. *)
Record DOMRect := mkDOMRect {
  rect_x : Q;
  rect_y : Q;
  rect_width : Q;
  rect_height : Q
}.

(** The [position] object of a highlight. *)
Record Position := mkPosition {
  x : Q;
  y : Q;
  width : Q;
  height : Q
}.

(** Field-wise numeric equality of positions. *)
Definition Position_eq (p q : Position) : Prop :=
  x p == x q /\ y p == y q /\ width p == width q /\ height p == height q.

Definition Position_eqb (p q : Position) : bool :=
  (Qeq_bool (x p) (x q) && Qeq_bool (y p) (y q)
   && Qeq_bool (width p) (width q) && Qeq_bool (height p) (height q))%bool.

(** The highlight object built by [handleTextSelect]; [obj] is the identity
    of the JavaScript object. *)
Record Highlight := mkHighlight {
  obj : nat;
  id : Q;
  text : string;
  h_pageNumber : Z;
  color : string;
  position : Position
}.

Definition bytes := list Byte.byte.

(** The [File] picked in the file input. *)
Record File := mkFile {
  file_name : string;
  file_type : string;
  file_size : Z
}.

Inductive Toast :=
| toast_success (msg : string)
| toast_error (msg : string)
| toast_info (msg : string).

(** What a download link was clicked with: the original [File], or a
    [Blob] made of bytes. *)
Inductive Payload :=
| OfFile (f : File)
| OfBytes (b : bytes).

Record State := mkState {
  file : option File;
  numPages : option Z;
  pageNumber : Z;
  scale : Q;
  highlights : list Highlight;
  isSelecting : bool;
  selectedText : string;
  highlightColor : string;
  pdfBytes : option bytes;
  (* effects *)
  toasts : list Toast;
  downloads : list (string * Payload);
  scrolls : list Z;
  next_obj : nat
}.

(** The state of a freshly mounted component. *)
Definition initial : State :=
  {| file := None; numPages := None; pageNumber := 1; scale := 1.0;
     highlights := []; isSelecting := false; selectedText := "";
     highlightColor := "#FFFF00"; pdfBytes := None;
     toasts := []; downloads := []; scrolls := []; next_obj := 0 |}.

(** *** State setters *)

Definition setFile (v : option File) (s : State) : State :=
  mkState v (numPages s) (pageNumber s) (scale s) (highlights s) (isSelecting s)
    (selectedText s) (highlightColor s) (pdfBytes s) (toasts s) (downloads s)
    (scrolls s) (next_obj s).

Definition setNumPages (v : option Z) (s : State) : State :=
  mkState (file s) v (pageNumber s) (scale s) (highlights s) (isSelecting s)
    (selectedText s) (highlightColor s) (pdfBytes s) (toasts s) (downloads s)
    (scrolls s) (next_obj s).

Definition setPageNumber (f : Z -> Z) (s : State) : State :=
  mkState (file s) (numPages s) (f (pageNumber s)) (scale s) (highlights s)
    (isSelecting s) (selectedText s) (highlightColor s) (pdfBytes s) (toasts s)
    (downloads s) (scrolls s) (next_obj s).

Definition setScale (f : Q -> Q) (s : State) : State :=
  mkState (file s) (numPages s) (pageNumber s) (f (scale s)) (highlights s)
    (isSelecting s) (selectedText s) (highlightColor s) (pdfBytes s) (toasts s)
    (downloads s) (scrolls s) (next_obj s).

Definition setHighlights (f : list Highlight -> list Highlight) (s : State) : State :=
  mkState (file s) (numPages s) (pageNumber s) (scale s) (f (highlights s))
    (isSelecting s) (selectedText s) (highlightColor s) (pdfBytes s) (toasts s)
    (downloads s) (scrolls s) (next_obj s).

Definition setIsSelecting (v : bool) (s : State) : State :=
  mkState (file s) (numPages s) (pageNumber s) (scale s) (highlights s) v
    (selectedText s) (highlightColor s) (pdfBytes s) (toasts s) (downloads s)
    (scrolls s) (next_obj s).

Definition setSelectedText (v : string) (s : State) : State :=
  mkState (file s) (numPages s) (pageNumber s) (scale s) (highlights s)
    (isSelecting s) v (highlightColor s) (pdfBytes s) (toasts s) (downloads s)
    (scrolls s) (next_obj s).

Definition setHighlightColor (v : string) (s : State) : State :=
  mkState (file s) (numPages s) (pageNumber s) (scale s) (highlights s)
    (isSelecting s) (selectedText s) v (pdfBytes s) (toasts s) (downloads s)
    (scrolls s) (next_obj s).

Definition setPdfBytes (v : option bytes) (s : State) : State :=
  mkState (file s) (numPages s) (pageNumber s) (scale s) (highlights s)
    (isSelecting s) (selectedText s) (highlightColor s) v (toasts s) (downloads s)
    (scrolls s) (next_obj s).

(** [toast.success], [toast.error], [toast.info]. *)
Definition toast (t : Toast) (s : State) : State :=
  mkState (file s) (numPages s) (pageNumber s) (scale s) (highlights s)
    (isSelecting s) (selectedText s) (highlightColor s) (pdfBytes s)
    (toasts s ++ [t]) (downloads s) (scrolls s) (next_obj s).

(** A temporary link with [download = name] is clicked. *)
Definition download (name : string) (p : Payload) (s : State) : State :=
  mkState (file s) (numPages s) (pageNumber s) (scale s) (highlights s)
    (isSelecting s) (selectedText s) (highlightColor s) (pdfBytes s) (toasts s)
    (downloads s ++ [(name, p)]) (scrolls s) (next_obj s).

(** [scrollIntoView] on the anchor of a page. *)
Definition scrollTo (p : Z) (s : State) : State :=
  mkState (file s) (numPages s) (pageNumber s) (scale s) (highlights s)
    (isSelecting s) (selectedText s) (highlightColor s) (pdfBytes s) (toasts s)
    (downloads s) (scrolls s ++ [p]) (next_obj s).

(** Allocation of one object. *)
Definition alloc (s : State) : State :=
  mkState (file s) (numPages s) (pageNumber s) (scale s) (highlights s)
    (isSelecting s) (selectedText s) (highlightColor s) (pdfBytes s) (toasts s)
    (downloads s) (scrolls s) (S (next_obj s)).

(** ** Coordinate transforms *)

(** The [position] literal of [handleTextSelect] (lines 151-156): the
    selection rectangle relative to the container, its top-left corner
    clamped at 0.  The scale is not read. *)
Definition capturePosition (rect containerRect : DOMRect) : Position :=
  {| x := JS.Math_max 0 (rect_x rect - rect_x containerRect);
     y := JS.Math_max 0 (rect_y rect - rect_y containerRect);
     width := rect_width rect;
     height := rect_height rect |}.

(** The overlay style of a highlight (lines 409-412), as a rectangle in
    pixels: [left], [top], [width], [height]. *)
Definition overlayStyle (p : Position) (scale : Q) : DOMRect :=
  {| rect_x := x p * scale;
     rect_y := y p * scale;
     rect_width := width p * scale;
     rect_height := height p * scale |}.

Definition DOMRect_eqb (a b : DOMRect) : bool :=
  (Qeq_bool (rect_x a) (rect_x b) && Qeq_bool (rect_y a) (rect_y b)
   && Qeq_bool (rect_width a) (rect_width b)
   && Qeq_bool (rect_height a) (rect_height b))%bool.

Definition origin0 : DOMRect := mkDOMRect 0 0 0 0.

(** ** Event handlers *)

(** What [handleTextSelect] reads from its environment: the window
    selection, the container node, the clock (an integer number of
    milliseconds) and the random generator (a double in the half-open
    unit interval). *)
Record Selection := mkSelection {
  sel_toString : string;
  rangeCount : nat;
  range0_rect : DOMRect
}.

Record CaptureEnv := mkCaptureEnv {
  selection : Selection;
  container : option DOMRect;
  Date_now : Z;
  Math_random : Q
}.

(** [onFileChange], up to the start of the asynchronous read. *)
Definition onFileChange (selectedFile : option File) (s : State) : State :=
  match selectedFile with
  | Some f =>
      if String.eqb (file_type f) "application/pdf"
      then toast (toast_success "PDF loaded successfully") (setFile (Some f) s)
      else toast (toast_error "Please select a valid PDF file") s
  | None => toast (toast_error "Please select a valid PDF file") s
  end.

(** [reader.onload] and [reader.onerror]. *)
Definition reader_onload (result : bytes) (s : State) : State :=
  setPdfBytes (Some result) s.

Definition reader_onerror (s : State) : State :=
  toast (toast_error "Failed to read PDF file") s.

Definition onDocumentLoadSuccess (n : Z) (s : State) : State :=
  setPageNumber (fun _ => 1%Z) (setNumPages (Some n) s).

(** The [onLoadError] of [Document]: [error?.message || 'Unknown error']. *)
Definition onDocumentLoadError (message : option string) (s : State) : State :=
  let m := match message with
           | Some m => if String.eqb m "" then "Unknown error" else m
           | None => "Unknown error"
           end in
  toast (toast_error ("Failed to load PDF: " ++ m)) s.

Definition changePage (offset : Z) (s : State) : State :=
  setPageNumber
    (fun prevPageNumber =>
       let newPage := (prevPageNumber + offset)%Z in
       JS.Math_minZ (JS.Math_maxZ 1 newPage) (JS.ToNumberZ (numPages s)))
    s.

Definition previousPage : State -> State := changePage (-1).
Definition nextPage : State -> State := changePage 1.

Definition zoomIn : State -> State :=
  setScale (fun prev => JS.Math_min (JS.add prev (JS.lit 0.2)) 3.0).
Definition zoomOut : State -> State :=
  setScale (fun prev => JS.Math_max (JS.sub prev (JS.lit 0.2)) 0.5).

(** The guards of [handleTextSelect], in the order of the source; [None]
    is an early [return], [Some (text, rect, containerRect)] reaches the
    construction of the highlight. *)
Definition captureGuards (env : CaptureEnv) (s : State)
  : option (string * DOMRect * DOMRect) :=
  if negb (isSelecting s) then None
  else
    let text := JS.trim (sel_toString (selection env)) in
    if String.eqb text "" then None
    else if Nat.eqb (rangeCount (selection env)) 0 then None
    else
      let rect := range0_rect (selection env) in
      match container env with
      | None => None
      | Some containerRect =>
          if (JS.lt (rect_width rect) 5 || JS.lt (rect_height rect) 5)%bool
          then None
          else Some (text, rect, containerRect)
      end.

Definition handleTextSelect (env : CaptureEnv) (s : State) : State :=
  match captureGuards env s with
  | None => s
  | Some (text, rect, containerRect) =>
      let highlight :=
        {| obj := next_obj s;
           id := JS.add (inject_Z (Date_now env)) (Math_random env);
           text := text;
           h_pageNumber := pageNumber s;
           color := highlightColor s;
           position := capturePosition rect containerRect |} in
      toast (toast_success "Text highlighted!")
        (setSelectedText text
           (setHighlights (fun prev => (prev ++ [highlight])%list) (alloc s)))
  end.

Definition toggleHighlightMode (s : State) : State :=
  let s' := setIsSelecting (negb (isSelecting s)) s in
  if negb (isSelecting s)
  then toast (toast_info "Highlight mode enabled - select text to highlight") s'
  else toast (toast_info "Highlight mode disabled") s'.

Definition downloadPDF (s : State) : State :=
  match file s with
  | None => toast (toast_error "No PDF loaded") s
  | Some f => toast (toast_success "PDF downloaded") (download (file_name f) (OfFile f) s)
  end.

Definition removeHighlight (i : Q) (s : State) : State :=
  toast (toast_info "Highlight removed")
    (setHighlights (filter (fun h => negb (Qeq_bool (id h) i))) s).

Definition string_of_Z (n : Z) : string :=
  DecimalString.NilZero.string_of_int (Z.to_int n).

(** The [onClick] of a sidebar entry (lines 445-453); [anchor] tells
    whether [pageRefs.current] holds an element for the page. *)
Definition navigateToHighlight (highlight : Highlight) (anchor : bool) (s : State) : State :=
  let s1 := setPageNumber (fun _ => h_pageNumber highlight) s in
  let s2 := if anchor then scrollTo (h_pageNumber highlight) s1 else s1 in
  toast (toast_info ("Navigated to page " ++ string_of_Z (h_pageNumber highlight))) s2.

(** ** Export: [savePDF] over the document-editing library *)

(** A colour of pdf-lib, channels in the unit interval. *)
Definition RGB := (Q * Q * Q)%type.

(** The drawing calls a page receives, with the options the component
    passes. *)
Inductive DrawOp :=
| drawRectangle (x y width height : Q) (color : RGB) (opacity : Q)
| drawText (text : string) (x y size : Q) (color : RGB).

Record PDFPage := mkPDFPage {
  page_width : Q;
  page_height : Q;
  page_ops : list DrawOp
}.

(** An editable document: its pages, each with what was drawn on it. *)
Definition PDFDoc := list PDFPage.

(** The exceptions of the [try] block of [savePDF]. *)
Inductive ExportError :=
| LoadFailed
| PageIndexOutOfRange (index : Z)
| ColorOutOfRange
| TextNotEncodable (text : string)
| SaveFailed.

(** Computations that may throw. *)
Definition Exc (A : Type) : Type := (ExportError + A)%type.

Definition ret {A} (a : A) : Exc A := inr a.
Definition throw {A} (e : ExportError) : Exc A := inl e.
Definition bind {A B} (c : Exc A) (k : A -> Exc B) : Exc B :=
  match c with
  | inl e => inl e
  | inr a => k a
  end.

Notation "x <- c ;; k" := (bind c (fun x => k))
  (at level 61, c at next level, right associativity).

(** The parts of pdf-lib the component cannot see into: parsing the bytes,
    whether the standard font encodes a text, and serialisation. *)
Record PdfLib := mkPdfLib {
  PDFDocument_load : bytes -> option PDFDoc;
  canEncode : string -> bool;
  PDFDocument_save : PDFDoc -> option bytes
}.

(** [highlights.indexOf(highlight)]: the first index holding the same
    object, or -1. *)
Fixpoint indexOf_from (hs : list Highlight) (h : Highlight) (i : Z) : Z :=
  match hs with
  | [] => (-1)%Z
  | h' :: rest => if Nat.eqb (obj h') (obj h) then i else indexOf_from rest h (i + 1)%Z
  end.

Definition indexOf (hs : list Highlight) (h : Highlight) : Z := indexOf_from hs h 0.

(** [pdfDoc.getPage(index)] throws outside [0 .. pageCount - 1]. *)
Definition getPage (doc : PDFDoc) (index : Z) : Exc PDFPage :=
  if (index <? 0)%Z then throw (PageIndexOutOfRange index)
  else match nth_error doc (Z.to_nat index) with
       | Some p => ret p
       | None => throw (PageIndexOutOfRange index)
       end.

(** A drawing call on page [index] appends to what that page holds. *)
Fixpoint drawOn (doc : PDFDoc) (index : nat) (op : DrawOp) : PDFDoc :=
  match doc, index with
  | [], _ => []
  | p :: rest, O => mkPDFPage (page_width p) (page_height p) (page_ops p ++ [op]) :: rest
  | p :: rest, S n => p :: drawOn rest n op
  end.

(** [parseInt(hexColor.substr(i, 2), 16) / 255]; [None] is NaN. *)
Definition channel (hexColor : string) (i : nat) : option Q :=
  match JS.parseInt16 (JS.substr i 2 hexColor) with
  | Some n => Some (inject_Z n / 255)
  | None => None
  end.

(** [rgb(r, g, b)] of pdf-lib asserts that each channel is a number
    between 0 and 1. *)
Definition inUnit (c : option Q) : bool :=
  match c with
  | Some q => (Qle_bool 0 q && Qle_bool q 1)%bool
  | None => false
  end.

Definition rgb (r g b : option Q) : Exc RGB :=
  match r, g, b with
  | Some r', Some g', Some b' =>
      if (inUnit r && inUnit g && inUnit b)%bool then ret (r', g', b')
      else throw ColorOutOfRange
  | _, _, _ => throw ColorOutOfRange
  end.

Section WithPdfLib.

Variable lib : PdfLib.

(** The body of the [for ... of] loop (lines 188-213) for one highlight;
    [all] is the array the loop runs over. *)
Definition drawHighlight (all : list Highlight) (doc : PDFDoc) (highlight : Highlight)
  : Exc PDFDoc :=
  let index := (h_pageNumber highlight - 1)%Z in
  page <- getPage doc index ;;
  let height := page_height page in
  let hexColor := JS.replace_first "#" (color highlight) in
  let r := channel hexColor 0 in
  let g := channel hexColor 2 in
  let b := channel hexColor 4 in
  c <- rgb r g b ;;
  let doc1 :=
    drawOn doc (Z.to_nat index)
      (drawRectangle 50 (height - 100 - inject_Z (indexOf all highlight) * 20)
         200 15 c 0.5) in
  let label := JS.substring0 50 (text highlight) in
  if canEncode lib label
  then ret (drawOn doc1 (Z.to_nat index)
              (drawText label 55 (height - 95 - inject_Z (indexOf all highlight) * 20)
                 8 (0, 0, 0)))
  else throw (TextNotEncodable label).

(** The loop over the remaining highlights. *)
Fixpoint drawHighlights (all todo : list Highlight) (doc : PDFDoc) : Exc PDFDoc :=
  match todo with
  | [] => ret doc
  | highlight :: rest =>
      doc' <- drawHighlight all doc highlight ;;
      drawHighlights all rest doc'
  end.

(** The [try] block up to [pdfDoc.save()]: the modified bytes, or the
    exception thrown. *)
Definition exportBytes (pdfBytes : bytes) (hs : list Highlight) : Exc bytes :=
  pdfDoc <- match PDFDocument_load lib pdfBytes with
            | Some d => ret d
            | None => throw LoadFailed
            end ;;
  drawn <- drawHighlights hs hs pdfDoc ;;
  match PDFDocument_save lib drawn with
  | Some out => ret out
  | None => throw SaveFailed
  end.

Definition savePDF (s : State) : State :=
  match pdfBytes s with
  | None => toast (toast_error "No PDF loaded") s
  | Some b =>
      match exportBytes b (highlights s) with
      | inr pdfBytesModified =>
          toast (toast_success "PDF saved successfully")
            (download "edited_document.pdf" (OfBytes pdfBytesModified) s)
      | inl _ => toast (toast_error "Failed to save PDF") s
      end
  end.

(** ** The component as a transition system *)

Inductive Event :=
| EFileChange (selectedFile : option File)
| EReaderLoad (result : bytes)
| EReaderError
| EDocumentLoadSuccess (n : Z)
| EDocumentLoadError (message : option string)
| EPreviousPage
| ENextPage
| EZoomIn
| EZoomOut
| ETextSelect (env : CaptureEnv)
| EToggleHighlightMode
| EHighlightColor (c : string)
| ESavePDF
| EDownloadPDF
| ERemoveHighlight (k : nat)
| ENavigate (k : nat) (anchor : bool).

(** One event.  Removal and navigation are clicks on the [k]-th rendered
    highlight; a click on an entry that is not rendered cannot happen. *)
Definition step (s : State) (e : Event) : State :=
  match e with
  | EFileChange f => onFileChange f s
  | EReaderLoad result => reader_onload result s
  | EReaderError => reader_onerror s
  | EDocumentLoadSuccess n => onDocumentLoadSuccess n s
  | EDocumentLoadError m => onDocumentLoadError m s
  | EPreviousPage => previousPage s
  | ENextPage => nextPage s
  | EZoomIn => zoomIn s
  | EZoomOut => zoomOut s
  | ETextSelect env => handleTextSelect env s
  | EToggleHighlightMode => toggleHighlightMode s
  | EHighlightColor c => setHighlightColor c s
  | ESavePDF => savePDF s
  | EDownloadPDF => downloadPDF s
  | ERemoveHighlight k =>
      match nth_error (highlights s) k with
      | Some h => removeHighlight (id h) s
      | None => s
      end
  | ENavigate k anchor =>
      match nth_error (highlights s) k with
      | Some h => navigateToHighlight h anchor s
      | None => s
      end
  end.

Definition run (s : State) (es : list Event) : State := fold_left step es s.

(** The states the component can be in. *)
Definition reachable (s : State) : Prop := exists es, s = run initial es.

End WithPdfLib.

(** *** When the user interface can raise an event

    A disabled or unrendered control raises no event: the page buttons are
    rendered when [numPages] is truthy and disabled at the ends (lines
    293-314), the save and download buttons are disabled without a file
    (lines 350, 354), overlays and sidebar entries exist per highlight.
    The rendering layer reports a page count of at least one, and
    [Math.random] a value in the half-open unit interval. *)
Definition enabled (s : State) (e : Event) : bool :=
  match e with
  | EDocumentLoadSuccess n =>
      match file s with Some _ => (1 <=? n)%Z | None => false end
  | EDocumentLoadError _ =>
      match file s with Some _ => true | None => false end
  | EPreviousPage =>
      match numPages s with
      | Some n => negb (n =? 0)%Z && negb (pageNumber s <=? 1)%Z
      | None => false
      end
  | ENextPage =>
      match numPages s with
      | Some n => negb (n =? 0)%Z && negb (n <=? pageNumber s)%Z
      | None => false
      end
  | ETextSelect env =>
      Qle_bool 0 (Math_random env) && JS.lt (Math_random env) 1
  | ESavePDF | EDownloadPDF =>
      match file s with Some _ => true | None => false end
  | ERemoveHighlight k | ENavigate k _ =>
      match nth_error (highlights s) k with Some _ => true | None => false end
  | _ => true
  end.

(** Every event of the trace is enabled in the state it is raised in. *)
Fixpoint valid_trace (lib : PdfLib) (s : State) (es : list Event) : bool :=
  match es with
  | [] => true
  | e :: rest => enabled s e && valid_trace lib (step lib s e) rest
  end.

(** A successful load of a picked file: the callbacks in the order they
    fire ([onFileChange], [reader.onload], [onDocumentLoadSuccess]). *)
Definition loadFile (f : File) (result : bytes) (n : Z) (s : State) : State :=
  onDocumentLoadSuccess n (reader_onload result (onFileChange (Some f) s)).

(** *** Predicates of the properties *)

(** A string with nothing but white space (the empty string included). *)
Fixpoint whitespaceOnly (s : string) : bool :=
  match s with
  | EmptyString => true
  | String c r => JS.isWhiteSpace c && whitespaceOnly r
  end.

(** The shape every stored highlight has. *)
Definition highlight_ok (h : Highlight) : Prop :=
  0 <= x (position h) /\ 0 <= y (position h)
  /\ 5 <= width (position h) /\ 5 <= height (position h)
  /\ JS.trim (text h) <> "".

(** No two highlights of the list have numerically equal ids. *)
Definition ids_distinct (hs : list Highlight) : Prop :=
  NoDupA Qeq (map id hs).

(** The number [Date.now() + Math.random()] a capture computes for the
    id of its highlight. *)
Definition drawn_id (env : CaptureEnv) : Q :=
  JS.add (inject_Z (Date_now env)) (Math_random env).

(** The numbers computed by the successful creations of a session, in
    order: a mouse-up that one of the guards rejects computes none. *)
Fixpoint created_ids (lib : PdfLib) (s : State) (es : list Event) : list Q :=
  match es with
  | [] => []
  | e :: rest =>
      match e with
      | ETextSelect env =>
          match captureGuards env s with
          | Some _ => drawn_id env :: created_ids lib (step lib s e) rest
          | None => created_ids lib (step lib s e) rest
          end
      | _ => created_ids lib (step lib s e) rest
      end
  end.

(** A highlight's ordinal among the highlights of its own page:
    [highlights.filter(h => h.pageNumber === p).indexOf(highlight)]. *)
Definition pageOrdinal (hs : list Highlight) (h : Highlight) : Z :=
  indexOf (filter (fun h' => (h_pageNumber h' =? h_pageNumber h)%Z) hs) h.

(** The same highlight object with another position. *)
Definition with_position (p : Position) (h : Highlight) : Highlight :=
  mkHighlight (obj h) (id h) (text h) (h_pageNumber h) (color h) p.

(** A page number of an [n]-page document. *)
Definition inPageRange (n p : Z) : Prop := (1 <= p <= n)%Z.

(** The step outcomes of the export sequence open, draw, save. *)
Definition exportFails (lib : PdfLib) (b : bytes) (hs : list Highlight) : Prop :=
  PDFDocument_load lib b = None
  \/ (exists d e, PDFDocument_load lib b = Some d /\ drawHighlights lib hs hs d = inl e)
  \/ (exists d d', PDFDocument_load lib b = Some d /\ drawHighlights lib hs hs d = inr d'
                   /\ PDFDocument_save lib d' = None).

Definition exportYields (lib : PdfLib) (b : bytes) (hs : list Highlight) (out : bytes) : Prop :=
  exists d d', PDFDocument_load lib b = Some d /\ drawHighlights lib hs hs d = inr d'
               /\ PDFDocument_save lib d' = Some out.

(** The colour an iteration of the export loop draws with: the channels
    parsed from the highlight's colour string (black stands in where
    [rgb] throws and nothing is drawn). *)
Definition rgbOf (h : Highlight) : RGB :=
  let hexColor := JS.replace_first "#" (color h) in
  match rgb (channel hexColor 0) (channel hexColor 2) (channel hexColor 4) with
  | inr c => c
  | inl _ => (0, 0, 0)
  end.

(** The rectangle and the label of the highlight with ordinal [k], on a
    page of the given height. *)
Definition markers (k : nat) (pageHeight : Q) (h : Highlight) : list DrawOp :=
  [drawRectangle 50 (pageHeight - 100 - inject_Z (Z.of_nat k) * 20) 200 15 (rgbOf h) 0.5;
   drawText (JS.substring0 50 (text h)) 55
     (pageHeight - 95 - inject_Z (Z.of_nat k) * 20) 8 (0, 0, 0)].

(** The highlights of a list with their ordinals, counted from [start]. *)
Definition numbered (start : nat) (hs : list Highlight) : list (nat * Highlight) :=
  combine (seq start (List.length hs)) hs.

(** Whether a numbered highlight belongs to the page at index [i]. *)
Definition onPage (i : nat) (kh : nat * Highlight) : bool :=
  (h_pageNumber (snd kh) - 1 =? Z.of_nat i)%Z.

(** The markers of the highlights of page index [i], each with the
    ordinal it carries. *)
Definition pageMarkers (i : nat) (pageHeight : Q) (khs : list (nat * Highlight))
  : list DrawOp :=
  flat_map (fun kh => markers (fst kh) pageHeight (snd kh)) (filter (onPage i) khs).

(** The vertical coordinates of what was drawn, page by page. *)
Definition opY (op : DrawOp) : Q :=
  match op with
  | drawRectangle _ y _ _ _ _ => y
  | drawText _ _ y _ _ => y
  end.

Definition drawnYs (r : Exc PDFDoc) : option (list (list Q)) :=
  match r with
  | inr d => Some (map (fun p => map opY (page_ops p)) d)
  | inl _ => None
  end.

(** The store after an event is the store before, or what is left of it
    after a removal by id, or the store before with one captured highlight
    appended. *)
Inductive store_change (s : State) (e : Event) (hs' : list Highlight) : Prop :=
| store_same : hs' = highlights s -> store_change s e hs'
| store_removed (i : Q) :
    hs' = filter (fun h => negb (Qeq_bool (id h) i)) (highlights s) ->
    store_change s e hs'
| store_added env t rect containerRect :
    e = ETextSelect env ->
    captureGuards env s = Some (t, rect, containerRect) ->
    hs' = (highlights s
           ++ [mkHighlight (next_obj s) (drawn_id env) t (pageNumber s)
                 (highlightColor s) (capturePosition rect containerRect)])%list ->
    store_change s e hs'.

(** A newly rendered document fits the store when it has a page for
    every stored highlight. *)
Definition fits (s : State) (e : Event) : bool :=
  match e with
  | EDocumentLoadSuccess m => forallb (fun h => (h_pageNumber h <=? m)%Z) (highlights s)
  | _ => true
  end.

(** With a document loaded, the current page is one of its pages. *)
Definition pageInRange (s : State) : Prop :=
  match numPages s with
  | Some n => inPageRange n (pageNumber s)
  | None => True
  end.

(** A click on a sidebar entry whose highlight carries a page number
    outside the loaded document. *)
Definition navigatesOutside (s : State) (e : Event) : bool :=
  match e, numPages s with
  | ENavigate k _, Some n =>
      match nth_error (highlights s) k with
      | Some h => negb ((1 <=? h_pageNumber h)%Z && (h_pageNumber h <=? n)%Z)
      | None => false
      end
  | _, _ => false
  end.

(** No navigation of the trace leaves the document loaded when it is
    raised. *)
Fixpoint navigations_fit (lib : PdfLib) (s : State) (es : list Event) : bool :=
  match es with
  | [] => true
  | e :: rest => negb (navigatesOutside s e) && navigations_fit lib (step lib s e) rest
  end.

(** The current page and the page numbers of the stored highlights lie
    in the loaded document; before any document is rendered they are 1. *)
Definition page_inv (s : State) : Prop :=
  match numPages s with
  | None =>
      pageNumber s = 1%Z /\ Forall (fun h => h_pageNumber h = 1%Z) (highlights s)
  | Some n =>
      inPageRange n (pageNumber s)
      /\ Forall (fun h => inPageRange n (h_pageNumber h)) (highlights s)
  end.

(** ** Sample sessions *)

(** Stand-in documents: a header and one line feed per page, opened as
    that many blank pages of 600 by 800 points. *)
Definition pdfBytesOf (pages : nat) : bytes :=
  ([Byte.x25; Byte.x50; Byte.x44; Byte.x46] ++ repeat Byte.x0a pages)%list.

Definition blankPages (n : nat) : PDFDoc := repeat (mkPDFPage 600 800 []) n.

Definition sampleBytes : bytes := pdfBytesOf 2.
Definition otherBytes : bytes := pdfBytesOf 3.
Definition fiveBytes : bytes := pdfBytesOf 5.
Definition longBytes : bytes := pdfBytesOf 10.
Definition savedBytes : bytes := [Byte.x25; Byte.x50; Byte.x44; Byte.x46; Byte.x2b].

Definition samplePdf : File := mkFile "report.pdf" "application/pdf" 6.
Definition otherPdf : File := mkFile "letter.pdf" "application/pdf" 7.
Definition fivePdf : File := mkFile "slides.pdf" "application/pdf" 9.
Definition longPdf : File := mkFile "thesis.pdf" "application/pdf" 14.

Definition twoPages : PDFDoc := blankPages 2.

(** A library that opens the stand-in documents, encodes every text and
    saves. *)
Definition lib_ok : PdfLib :=
  mkPdfLib (fun b => Some (blankPages (List.length b - 4)))
    (fun _ => true) (fun _ => Some savedBytes).

(** The same library with a failing [save()]. *)
Definition lib_save_fails : PdfLib :=
  mkPdfLib (fun b => Some (blankPages (List.length b - 4)))
    (fun _ => true) (fun _ => None).

(** A selection of 40 by 12 pixels at (110, 210) in a container whose
    origin is (10, 10). *)
Definition selA : Selection := mkSelection "annual results" 1 (mkDOMRect 110 210 40 12).
Definition containerA : DOMRect := mkDOMRect 10 10 900 1200.
Definition envA : CaptureEnv := mkCaptureEnv selA (Some containerA) 1700000000000 0.5.

(** A later selection. *)
Definition envB : CaptureEnv :=
  mkCaptureEnv (mkSelection "see appendix" 1 (mkDOMRect 60 310 90 14))
    (Some containerA) 1700000004000 0.25.

(** The text of [selA] selected on a page rendered at scale 3: three
    times as far from the container origin, three times as large. *)
Definition envA3 : CaptureEnv :=
  mkCaptureEnv (mkSelection "annual results" 1 (mkDOMRect 310 610 120 36))
    (Some containerA) 1700000000000 0.5.

(** A second selection that reads the same clock and random value as
    [envA]. *)
Definition envA' : CaptureEnv :=
  mkCaptureEnv (mkSelection "see appendix" 1 (mkDOMRect 60 310 90 14))
    (Some containerA) 1700000000000 0.5.

(** A selection that reads the clock value of [envA] and the random
    value 0.5 + 2^-20 (0.50000095367431640625). *)
Definition envR : CaptureEnv :=
  mkCaptureEnv (mkSelection "see appendix" 1 (mkDOMRect 60 310 90 14))
    (Some containerA) 1700000000000 (524289 # 1048576).

(** A selection of 62 characters. *)
Definition envLong : CaptureEnv :=
  mkCaptureEnv
    (mkSelection "the quarterly figures are restated in the appendix to the note" 1
       (mkDOMRect 60 340 420 14))
    (Some containerA) 1700000009000 0.75.

(** Open a two-page file, highlight on page 1, go to page 2, highlight. *)
Definition trace_two_pages : list Event :=
  [EFileChange (Some samplePdf); EReaderLoad sampleBytes; EDocumentLoadSuccess 2;
   EToggleHighlightMode; ETextSelect envA; ENextPage; ETextSelect envB].

(** Open a file, highlight, then open another file. *)
Definition trace_reload : list Event :=
  [EFileChange (Some samplePdf); EReaderLoad sampleBytes; EDocumentLoadSuccess 2;
   EToggleHighlightMode; ETextSelect envA;
   EFileChange (Some otherPdf); EReaderLoad otherBytes; EDocumentLoadSuccess 3].

(** Open a ten-page file, highlight on page 7, open a three-page file,
    click the highlight in the sidebar. *)
Definition trace_stale_highlight : list Event :=
  [EFileChange (Some longPdf); EReaderLoad longBytes; EDocumentLoadSuccess 10;
   ENextPage; ENextPage; ENextPage; ENextPage; ENextPage; ENextPage;
   EToggleHighlightMode; ETextSelect envA;
   EFileChange (Some otherPdf); EReaderLoad otherBytes; EDocumentLoadSuccess 3;
   ENavigate 0 false].

(** Two captures that read the same clock and random value. *)
Definition trace_same_draw : list Event :=
  [EFileChange (Some samplePdf); EReaderLoad sampleBytes; EDocumentLoadSuccess 2;
   EToggleHighlightMode; ETextSelect envA; ETextSelect envA'].

(** Two captures that read the same clock value and random values
    2^-20 apart. *)
Definition trace_rounded_draw : list Event :=
  [EFileChange (Some samplePdf); EReaderLoad sampleBytes; EDocumentLoadSuccess 2;
   EToggleHighlightMode; ETextSelect envA; ETextSelect envR].

(** Open a two-page file and highlight twice on page 1, the second text
    62 characters long. *)
Definition trace_long_text : list Event :=
  [EFileChange (Some samplePdf); EReaderLoad sampleBytes; EDocumentLoadSuccess 2;
   EToggleHighlightMode; ETextSelect envA; ETextSelect envLong].

(** Open a ten-page file, highlight on page 7, open a three-page file,
    remove the highlight, turn the pages. *)
Definition trace_stale_removed : list Event :=
  [EFileChange (Some longPdf); EReaderLoad longBytes; EDocumentLoadSuccess 10;
   ENextPage; ENextPage; ENextPage; ENextPage; ENextPage; ENextPage;
   EToggleHighlightMode; ETextSelect envA;
   EFileChange (Some otherPdf); EReaderLoad otherBytes; EDocumentLoadSuccess 3;
   ERemoveHighlight 0; ENextPage; ENextPage].

(** A five-page document: page changes, captures on pages 3 and 2, a
    removal, a navigation to the highlight of page 3. *)
Definition trace_five_pages : list Event :=
  [EFileChange (Some fivePdf); EReaderLoad fiveBytes; EDocumentLoadSuccess 5;
   ENextPage; ENextPage; EToggleHighlightMode; ETextSelect envA;
   EPreviousPage; ETextSelect envB; ERemoveHighlight 1; ENavigate 0 true;
   EZoomIn; ESavePDF].

(** Zoom in ten times, from 1.0 to the upper bound 3.0, then highlight. *)
Definition trace_zoomed_capture : list Event :=
  [EFileChange (Some samplePdf); EReaderLoad sampleBytes; EDocumentLoadSuccess 2;
   EZoomIn; EZoomIn; EZoomIn; EZoomIn; EZoomIn;
   EZoomIn; EZoomIn; EZoomIn; EZoomIn; EZoomIn;
   EToggleHighlightMode; ETextSelect envA3].

(** ** What the component renders, and its mount effect *)

(** [Math.round]: the nearest integer, halves towards plus infinity. *)
Definition Math_round (q : Q) : Z := Qfloor (q + (1 # 2)).

(** The zoom label of the toolbar, [Math.round(scale * 100)] (line 322). *)
Definition zoomLabel (s : State) : Z := Math_round (JS.mul (scale s) 100).

(** The page indices rendered inside [Document] (lines 383-384):
    [Array.from({ length: numPages || 0 }, (_, idx) => idx + 1)]. *)
Definition pageIndices (s : State) : list Z :=
  map (fun idx => (Z.of_nat idx + 1)%Z) (seq 0 (Z.to_nat (JS.ToNumberZ (numPages s)))).

(** The highlights overlaid on the page [pageIdx] (lines 402-403). *)
Definition highlightsOnPage (pageIdx : Z) (s : State) : list Highlight :=
  filter (fun h => (h_pageNumber h =? pageIdx)%Z) (highlights s).

(** An overlay [div]: its key, its placement and its colour. *)
Record Overlay := mkOverlay {
  overlay_key : Q;
  overlay_style : DOMRect;
  overlay_backgroundColor : string
}.

(** The overlays of the page [pageIdx] (lines 402-421). *)
Definition overlaysOnPage (pageIdx : Z) (s : State) : list Overlay :=
  map (fun highlight =>
         mkOverlay (id highlight) (overlayStyle (position highlight) (scale s))
           (color highlight))
    (highlightsOnPage pageIdx s).

(** The entries of the sidebar (lines 437-441): rendered when there is a
    highlight, one entry per highlight of the whole store. *)
Definition sidebar (s : State) : option (nat * list Highlight) :=
  if (0 <? List.length (highlights s))%nat
  then Some (List.length (highlights s), highlights s)
  else None.

(** A page number of the pages rendered. *)
Definition onRenderedPage (s : State) (h : Highlight) : bool :=
  ((1 <=? h_pageNumber h) && (h_pageNumber h <=? JS.ToNumberZ (numPages s)))%Z.

(** The elements of the document that carry an id, for the mount effect
    (lines 43-77). *)
Record Element := mkElement {
  el_tag : string;
  el_id : string;
  el_textContent : string
}.

Definition styleId : string := "react-pdf-textlayer-styles".

Definition textLayerCss : string := "
        .react-pdf__Page__textContent {
          position: absolute;
          left: 0;
          top: 0;
          right: 0;
          bottom: 0;
          overflow: hidden;
          opacity: 0.2;
          line-height: 1;
          font-weight: bold;
          font-size: 10px;
        }
        .react-pdf__Page__textContent > span {
          color: transparent;
          position: absolute;
          white-space: pre;
          cursor: text;
          -webkit-user-select: text;
          user-select: text;
        }
        .react-pdf__Page__textContent > span::selection {
          background: rgba(0, 123, 255, 0.3);
        }
      ".

(** [document.getElementById]. *)
Definition getElementById (i : string) (document : list Element) : option Element :=
  find (fun e => String.eqb (el_id e) i) document.

(** The mount effect: the text-layer style element is appended unless an
    element with its id is in the document. *)
Definition injectTextLayerStyles (document : list Element) : list Element :=
  match getElementById styleId document with
  | Some _ => document
  | None => (document ++ [mkElement "style" styleId textLayerCss])%list
  end.

(** *** Predicates of further properties *)

(** Traces in which highlight mode is never toggled. *)
Fixpoint noToggle (es : list Event) : bool :=
  match es with
  | [] => true
  | EToggleHighlightMode :: _ => false
  | _ :: rest => noToggle rest
  end.

(** What an iteration of the export loop needs of a highlight: a page of
    the document, a colour that [rgb] accepts, a label the font encodes. *)
Definition iterationOk (lib : PdfLib) (doc : PDFDoc) (h : Highlight) : Prop :=
  (1 <= h_pageNumber h <= Z.of_nat (List.length doc))%Z
  /\ (exists c, rgb (channel (JS.replace_first "#" (color h)) 0)
                  (channel (JS.replace_first "#" (color h)) 2)
                  (channel (JS.replace_first "#" (color h)) 4) = inr c)
  /\ canEncode lib (JS.substring0 50 (text h)) = true.

(** The text drawn by an operation, if it draws text. *)
Definition opLabel (op : DrawOp) : option string :=
  match op with
  | drawText t _ _ _ _ => Some t
  | drawRectangle _ _ _ _ _ _ => None
  end.

(** The texts drawn by a sequence of operations, in drawing order. *)
Definition labelsOf (ops : list DrawOp) : list string :=
  flat_map (fun op => match opLabel op with
                      | Some t => [t]
                      | None => []
                      end) ops.

(** The highlights of a list that point at the page of index [i]. *)
Definition highlightsOfIndex (i : nat) (hs : list Highlight) : list Highlight :=
  filter (fun h => (h_pageNumber h - 1 =? Z.of_nat i)%Z) hs.

(** A PDF file picked in the file input at some point of the session. *)
Definition pickedIn (es : list Event) (f : File) : Prop :=
  In (EFileChange (Some f)) es /\ file_type f = "application/pdf".

(** Bytes returned by a save of the session that completed: the export
    of the highlights stored at that moment over bytes the reader had
    delivered. *)
Definition savedIn (lib : PdfLib) (es : list Event) (out : bytes) : Prop :=
  exists es1 es2 b,
    es = (es1 ++ ESavePDF :: es2)%list
    /\ In (EReaderLoad b) es1
    /\ pdfBytes (run lib initial es1) = Some b
    /\ exportYields lib b (highlights (run lib initial es1)) out.

(** What a session can have offered for download: a picked file as it
    was picked and under its own name, or the bytes of a completed save
    under the fixed name. *)
Definition offeredIn (lib : PdfLib) (es : list Event) (d : string * Payload) : Prop :=
  (exists f, pickedIn es f /\ d = (file_name f, OfFile f))
  \/ (exists out, savedIn lib es out /\ d = ("edited_document.pdf", OfBytes out)).

(** A digit of a colour string. *)
Definition isHexDigit (c : ascii) : bool :=
  match JS.hexDigit c with Some _ => true | None => false end.

(** The byte written by two hexadecimal digits. *)
Definition hexByte (c1 c2 : ascii) : Z :=
  match JS.hexDigit c1, JS.hexDigit c2 with
  | Some d1, Some d2 => (16 * d1 + d2)%Z
  | _, _ => 0%Z
  end.

(** The colour string [#c1c2c3c4c5c6]. *)
Definition hexColor6 (c1 c2 c3 c4 c5 c6 : ascii) : string :=
  String "#" (String c1 (String c2 (String c3 (String c4 (String c5 (String c6 "")))))).

(** The state of a freshly mounted component brought to the scale [q]. *)
Definition atScale (q : Q) : State := setScale (fun _ => q) initial.

(** Whether a number is, numerically, one of a list. *)
Definition memQ (q : Q) (l : list Q) : bool := existsb (Qeq_bool q) l.

(** The scales of a list with those one zoom step away from them. *)
Definition zoomStep (l : list Q) : list Q :=
  fold_left (fun acc q => if memQ q acc then acc else (acc ++ [q])%list)
    (flat_map (fun q => [scale (zoomIn (atScale q)); scale (zoomOut (atScale q))]) l)
    l.

(** The scales the zoom buttons reach from the initial scale, each once:
    the list stops growing well before 40 rounds. *)
Definition zoomScales : list Q := Eval vm_compute in Nat.iter 40 zoomStep [scale initial].

(** Two to the power -51: twice the largest rounding error of a double
    below 4. *)
Definition zoomRounding : Q := 1 # 2251799813685248.

(** *** Cross-check against the Standard Library's binary64

    [SpecFloat] specifies the operations of Rocq's primitive floats.
    [SF_of_Q q] divides the numerator by the denominator, so it is the
    double nearest to [q] when both are doubles (the division rounds
    once) or when the denominator is a power of two (the numerator is
    rounded, the division is exact), and [q] itself when [q] is a double;
    [Q_of_SF] is exact. *)
Definition SF_of_Q (q : Q) : SpecFloat.spec_float :=
  SpecFloat.SFdiv 53 1024
    (SpecFloat.binary_normalize 53 1024 (Qnum q) 0 false)
    (SpecFloat.binary_normalize 53 1024 (Zpos (Qden q)) 0 false).

Definition Q_of_SF (f : SpecFloat.spec_float) : option Q :=
  match f with
  | SpecFloat.S754_zero _ => Some 0
  | SpecFloat.S754_finite s m e =>
      Some (Qred (inject_Z (if s then Zneg m else Zpos m) * JS.pow2 e))
  | _ => None
  end.

(** Whether [JS.binary64] rounds [q] as [SpecFloat] does. *)
Definition roundsAsSF (q : Q) : bool :=
  match Q_of_SF (SF_of_Q q) with
  | Some r => Qeq_bool r (JS.binary64 q)
  | None => false
  end.

(** Whether [r] is what [SpecFloat]'s operation [op] gives on [a] and [b]. *)
Definition agreesSF
    (op : SpecFloat.spec_float -> SpecFloat.spec_float -> SpecFloat.spec_float)
    (a b r : Q) : bool :=
  match Q_of_SF (op (SF_of_Q a) (SF_of_Q b)) with
  | Some r' => Qeq_bool r' r
  | None => false
  end.

(** * Properties *)

(** ** Numbers and strings *)

Lemma lt_true_iff (a b : Q) : JS.lt a b = true <-> a < b.
Proof.
  unfold JS.lt. rewrite negb_true_iff, <- not_true_iff_false, Qle_bool_iff.
  split; [apply Qnot_le_lt | apply Qlt_not_le].
Qed.

Lemma lt_false_iff (a b : Q) : JS.lt a b = false <-> b <= a.
Proof.
  unfold JS.lt. rewrite negb_false_iff. apply Qle_bool_iff.
Qed.

Lemma Math_max_lower (a b : Q) : a <= JS.Math_max a b.
Proof. apply Q.le_max_l. Qed.

Lemma trimStart_whitespaceOnly (s : string) :
  whitespaceOnly s = true -> JS.trimStart s = "".
Proof.
  induction s as [|c r IH]; simpl; [reflexivity|].
  intros H. apply andb_true_iff in H as [Hc Hr]. rewrite Hc. auto.
Qed.

Lemma trim_whitespaceOnly (s : string) :
  whitespaceOnly s = true -> JS.trim s = "".
Proof.
  intros H. unfold JS.trim. now rewrite trimStart_whitespaceOnly.
Qed.

(** What [trimStart] leaves starts with a character that is kept. *)
Lemma trimStart_head (s : string) :
  JS.trimStart s = ""
  \/ exists c r, JS.trimStart s = String c r /\ JS.isWhiteSpace c = false.
Proof.
  induction s as [|c r IH]; simpl; [now left|].
  destruct (JS.isWhiteSpace c) eqn:E; [exact IH|].
  right. now exists c, r.
Qed.

Lemma trimEnd_head (c : ascii) (r : string) :
  JS.isWhiteSpace c = false -> exists r', JS.trimEnd (String c r) = String c r'.
Proof.
  intros Hc. simpl. destruct (JS.trimEnd r) as [|d t].
  - rewrite Hc. now exists "".
  - now exists (String d t).
Qed.

Lemma trimEnd_idem (s : string) : JS.trimEnd (JS.trimEnd s) = JS.trimEnd s.
Proof.
  induction s as [|c r IH]; [reflexivity|].
  simpl. destruct (JS.trimEnd r) as [|d t] eqn:E.
  - destruct (JS.isWhiteSpace c) eqn:Hc; simpl; [reflexivity|].
    now rewrite Hc.
  - change (JS.trimEnd (String c (String d t)))
      with (match JS.trimEnd (String d t) with
            | EmptyString => if JS.isWhiteSpace c then EmptyString else String c EmptyString
            | r' => String c r'
            end).
    now rewrite IH.
Qed.

(** Trimming twice is trimming once. *)
Lemma trim_idem (s : string) : JS.trim (JS.trim s) = JS.trim s.
Proof.
  unfold JS.trim.
  destruct (trimStart_head s) as [E | (c & r & E & Hc)]; rewrite E; [reflexivity|].
  destruct (trimEnd_head c r Hc) as [r' E'].
  rewrite E'. simpl JS.trimStart. rewrite Hc, <- E'. apply trimEnd_idem.
Qed.

(** ** Double precision *)

Lemma pow2_pos e : 0 < JS.pow2 e.
Proof. unfold JS.pow2. apply Qpower_0_lt. reflexivity. Qed.

Lemma pow2_Z (n : Z) : (0 <= n)%Z -> JS.pow2 n == inject_Z (2 ^ n).
Proof. intros H. unfold JS.pow2. now rewrite Zpower_Qpower. Qed.

Lemma pow2_le (a b : Z) : (a <= b)%Z -> JS.pow2 a <= JS.pow2 b.
Proof. intros H. unfold JS.pow2. apply Qpower_le_compat_l; [exact H | discriminate]. Qed.

Lemma pow2_succ (e : Z) : JS.pow2 (e + 1) == 2 * JS.pow2 e.
Proof.
  unfold JS.pow2. rewrite Qpower_plus by discriminate. rewrite Qpower_1_r. ring.
Qed.

Lemma roundTiesToEven_floor (q : Q) :
  (Qfloor q <= JS.roundTiesToEven q <= Qfloor q + 1)%Z.
Proof.
  unfold JS.roundTiesToEven.
  destruct (Qcompare _ _); [destruct (Z.even _)| |]; lia.
Qed.

Lemma roundTiesToEven_error (q : Q) :
  Qabs (inject_Z (JS.roundTiesToEven q) - q) <= 1 # 2.
Proof.
  pose proof (Qfloor_le q) as Hl. pose proof (Qlt_floor q) as Hu.
  rewrite inject_Z_plus in Hu. change (inject_Z 1) with 1 in Hu.
  apply Qabs_Qle_condition. unfold JS.roundTiesToEven.
  destruct (Qcompare (q - inject_Z (Qfloor q)) (1 # 2)) eqn:C.
  - apply Qeq_alt in C.
    destruct (Z.even _); [|rewrite inject_Z_plus; change (inject_Z 1) with 1]; lra.
  - apply Qlt_alt in C. lra.
  - apply Qgt_alt in C. rewrite inject_Z_plus. change (inject_Z 1) with 1. lra.
Qed.

Lemma roundTiesToEven_ge (q : Q) (k : Z) :
  inject_Z k <= q -> (k <= JS.roundTiesToEven q)%Z.
Proof.
  intros H. apply Qfloor_resp_le in H. rewrite Qfloor_Z in H.
  pose proof (roundTiesToEven_floor q). lia.
Qed.

Lemma roundTiesToEven_le (q : Q) (k : Z) :
  q <= inject_Z k -> (JS.roundTiesToEven q <= k)%Z.
Proof.
  intros H. pose proof (Qfloor_resp_le _ _ H) as Hf. rewrite Qfloor_Z in Hf.
  pose proof (roundTiesToEven_floor q) as Hr.
  destruct (Z.eq_dec (Qfloor q) k) as [E | N]; [|lia].
  unfold JS.roundTiesToEven. pose proof (Qfloor_le q) as Hl. rewrite E in Hl |- *.
  assert (C : Qcompare (q - inject_Z k) (1 # 2) = Lt). { apply -> Qlt_alt. lra. }
  rewrite C. lia.
Qed.

Lemma binade_spec (q : Q) :
  0 < q -> JS.pow2 (JS.binade q) <= q /\ q < JS.pow2 (JS.binade q + 1).
Proof.
  intros Hq. unfold JS.binade. destruct (Qle_bool 1 q) eqn:H1.
  - apply Qle_bool_iff in H1.
    assert (Hf : (1 <= Qfloor q)%Z).
    { apply Qfloor_resp_le in H1. exact H1. }
    destruct (Z.log2_spec (Qfloor q)) as [Lo Hi]; [lia|].
    pose proof (Z.log2_nonneg (Qfloor q)) as Hn.
    rewrite !pow2_Z by lia. split.
    + eapply Qle_trans; [|apply Qfloor_le]. now rewrite <- Zle_Qle.
    + eapply Qlt_le_trans; [apply Qlt_floor|]. rewrite <- Zle_Qle.
      unfold Z.succ in Hi. lia.
  - assert (H1' : q < 1).
    { apply Qnot_le_lt. intros H. apply Qle_bool_iff in H. congruence. }
    assert (Hinv : q * / q == 1) by (apply Qmult_inv_r; lra).
    pose proof (Qinv_lt_0_compat _ Hq) as Hipos.
    assert (Hi1 : 1 < / q) by nra.
    pose proof (Qle_ceiling (/ q)) as Hc. pose proof (Qceiling_lt (/ q)) as Hc'.
    set (N := Qceiling (/ q)) in *.
    assert (HN : (1 < N)%Z).
    { rewrite Zlt_Qlt. eapply Qlt_le_trans; [exact Hi1 | exact Hc]. }
    destruct (Z.log2_up_spec N HN) as [Lo Hi].
    pose proof (Z.log2_up_pos N HN) as Hm.
    set (m := Z.log2_up N) in *. split.
    + unfold JS.pow2. rewrite Qpower_opp. fold (JS.pow2 m). rewrite pow2_Z by lia.
      rewrite Zle_Qle in Hi.
      assert (P : 0 < inject_Z (2 ^ m)) by lra.
      apply Qle_shift_inv_r; [exact P|]. nra.
    + replace (- m + 1)%Z with (- (m - 1))%Z by lia.
      unfold JS.pow2. rewrite Qpower_opp. fold (JS.pow2 (m - 1)). rewrite pow2_Z by lia.
      replace (Z.pred m) with (m - 1)%Z in Lo by lia.
      assert (Lo' : (2 ^ (m - 1) <= N - 1)%Z) by lia.
      rewrite Zle_Qle in Lo'.
      assert (P : 0 < inject_Z (2 ^ (m - 1))).
      { rewrite <- pow2_Z by lia. apply pow2_pos. }
      apply Qlt_shift_inv_l; [exact P|]. nra.
Qed.

Lemma binade_unique (q : Q) (e : Z) :
  JS.pow2 e <= q -> q < JS.pow2 (e + 1) -> JS.binade q = e.
Proof.
  intros Lo Hi.
  assert (Hq : 0 < q) by (pose proof (pow2_pos e); lra).
  destruct (binade_spec q Hq) as [Lo' Hi'].
  destruct (Z.lt_trichotomy (JS.binade q) e) as [H | [H | H]]; [|exact H|].
  - assert (L : JS.pow2 (JS.binade q + 1) <= JS.pow2 e) by (apply pow2_le; lia). lra.
  - assert (L : JS.pow2 (e + 1) <= JS.pow2 (JS.binade q)) by (apply pow2_le; lia). lra.
Qed.

Lemma Qabs_pos_eq (q : Q) : 0 <= q -> Qabs q = q.
Proof.
  destruct q as [n d]. unfold Qle, Qabs. simpl. intros H. f_equal. apply Z.abs_eq. lia.
Qed.

(** In its binade, away from underflow, the double nearest to [q] is the
    multiple of the unit in the last place nearest to it. *)
Lemma binary64_binade (q : Q) (e : Z) :
  (-1022 <= e)%Z -> JS.pow2 e <= q -> q < JS.pow2 (e + 1) ->
  JS.binary64 q == inject_Z (JS.roundTiesToEven (q / JS.pow2 (e - 52))) * JS.pow2 (e - 52).
Proof.
  intros He Lo Hi.
  assert (Hq : 0 < q) by (pose proof (pow2_pos e); lra).
  unfold JS.binary64. rewrite Qabs_pos_eq by lra.
  assert (Z0 : Qeq_bool q 0 = false).
  { destruct (Qeq_bool q 0) eqn:E; [|reflexivity]. apply Qeq_bool_iff in E. lra. }
  assert (P0 : Qle_bool 0 q = true) by (apply Qle_bool_iff; lra).
  rewrite Z0, P0, (binade_unique q e Lo Hi), Z.max_l by lia.
  apply Qred_correct.
Qed.

(** The result is a double: its significand has 53 bits. *)
Lemma binary64_significand (q : Q) (e : Z) :
  JS.pow2 e <= q -> q < JS.pow2 (e + 1) ->
  (2 ^ 52 <= JS.roundTiesToEven (q / JS.pow2 (e - 52)) <= 2 ^ 53)%Z.
Proof.
  intros Lo Hi.
  pose proof (pow2_pos (e - 52)) as Hu.
  assert (E52 : inject_Z (2 ^ 52) * JS.pow2 (e - 52) == JS.pow2 e).
  { rewrite <- pow2_Z by lia. unfold JS.pow2.
    rewrite <- Qpower_plus by discriminate. now replace (52 + (e - 52))%Z with e by lia. }
  assert (E53 : inject_Z (2 ^ 53) * JS.pow2 (e - 52) == JS.pow2 (e + 1)).
  { rewrite <- pow2_Z by lia. unfold JS.pow2.
    rewrite <- Qpower_plus by discriminate.
    now replace (53 + (e - 52))%Z with (e + 1)%Z by lia. }
  split.
  - apply roundTiesToEven_ge. apply Qle_shift_div_l; [exact Hu|]. now rewrite E52.
  - apply roundTiesToEven_le. apply Qle_shift_div_r; [exact Hu|]. rewrite E53.
    now apply Qlt_le_weak.
Qed.

Lemma binary64_error (q : Q) (e : Z) :
  (-1022 <= e)%Z -> JS.pow2 e <= q -> q < JS.pow2 (e + 1) ->
  Qabs (JS.binary64 q - q) <= JS.pow2 (e - 53).
Proof.
  intros He Lo Hi. rewrite (binary64_binade q e He Lo Hi).
  pose proof (pow2_pos (e - 53)) as Hu.
  assert (Eu : JS.pow2 (e - 52) == 2 * JS.pow2 (e - 53)).
  { rewrite <- pow2_succ. now replace (e - 53 + 1)%Z with (e - 52)%Z by lia. }
  pose proof (roundTiesToEven_error (q / JS.pow2 (e - 52))) as Hr.
  apply Qabs_Qle_condition in Hr. apply Qabs_Qle_condition.
  set (m := inject_Z (JS.roundTiesToEven (q / JS.pow2 (e - 52)))) in *.
  assert (Eq : q == q / JS.pow2 (e - 52) * JS.pow2 (e - 52)) by (field; lra).
  set (t := q / JS.pow2 (e - 52)) in *. rewrite Eu in *. nra.
Qed.

Lemma binary64_ge (q : Q) (e k : Z) :
  (-1022 <= e)%Z -> JS.pow2 e <= q -> q < JS.pow2 (e + 1) ->
  inject_Z k * JS.pow2 (e - 52) <= q -> inject_Z k * JS.pow2 (e - 52) <= JS.binary64 q.
Proof.
  intros He Lo Hi Hk. rewrite (binary64_binade q e He Lo Hi).
  pose proof (pow2_pos (e - 52)) as Hu.
  assert (Hm : (k <= JS.roundTiesToEven (q / JS.pow2 (e - 52)))%Z).
  { apply roundTiesToEven_ge. apply Qle_shift_div_l; assumption. }
  rewrite Zle_Qle in Hm. nra.
Qed.

Lemma binary64_le (q : Q) (e k : Z) :
  (-1022 <= e)%Z -> JS.pow2 e <= q -> q < JS.pow2 (e + 1) ->
  q <= inject_Z k * JS.pow2 (e - 52) -> JS.binary64 q <= inject_Z k * JS.pow2 (e - 52).
Proof.
  intros He Lo Hi Hk. rewrite (binary64_binade q e He Lo Hi).
  pose proof (pow2_pos (e - 52)) as Hu.
  assert (Hm : (JS.roundTiesToEven (q / JS.pow2 (e - 52)) <= k)%Z).
  { apply roundTiesToEven_le. apply Qle_shift_div_r; assumption. }
  rewrite Zle_Qle in Hm. nra.
Qed.

(** Rounding reads the number, not the fraction that writes it. *)
Lemma roundTiesToEven_comp (p q : Q) :
  p == q -> JS.roundTiesToEven p = JS.roundTiesToEven q.
Proof.
  intros E. unfold JS.roundTiesToEven. rewrite (Qfloor_comp _ _ E).
  now rewrite E.
Qed.

Lemma binade_comp (p q : Q) : p == q -> JS.binade p = JS.binade q.
Proof.
  intros E. unfold JS.binade.
  rewrite (Qfloor_comp _ _ E), (Qceiling_comp (/ p) (/ q)) by now rewrite E.
  now rewrite E.
Qed.

Lemma binary64_comp (p q : Q) : p == q -> JS.binary64 p = JS.binary64 q.
Proof.
  intros E. unfold JS.binary64.
  assert (Ea : Qabs p == Qabs q) by now rewrite E.
  assert (E0 : Qeq_bool (Qabs p) 0 = Qeq_bool (Qabs q) 0) by now rewrite Ea.
  assert (Es : Qle_bool 0 p = Qle_bool 0 q) by now rewrite E.
  rewrite E0, Es, (binade_comp _ _ Ea).
  destruct (Qeq_bool (Qabs q) 0); [reflexivity|].
  rewrite (roundTiesToEven_comp
             (Qabs p / JS.pow2 (Z.max (JS.binade (Qabs q)) (-1022) - 52))
             (Qabs q / JS.pow2 (Z.max (JS.binade (Qabs q)) (-1022) - 52)))
    by now rewrite Ea.
  reflexivity.
Qed.

(** The rounding error of a double between a quarter and 4 is at most
    two to the power -52. *)
Lemma binary64_error_below_4 (q : Q) :
  1 # 4 <= q -> q < 4 -> Qabs (JS.binary64 q - q) <= 1 # 4503599627370496.
Proof.
  intros Lo Hi.
  assert (E : forall e : Z, (-2 <= e <= 1)%Z ->
                JS.pow2 e <= q -> q < JS.pow2 (e + 1) ->
                Qabs (JS.binary64 q - q) <= 1 # 4503599627370496).
  { intros e He L H.
    eapply Qle_trans; [apply (binary64_error q e); [lia | exact L | exact H]|].
    apply (Qle_trans _ (JS.pow2 (1 - 53))); [apply pow2_le; lia | vm_compute; discriminate]. }
  destruct (Qlt_le_dec q (1 # 2)) as [H1 | H1];
    [apply (E (-2)%Z); [lia | exact Lo | exact H1]|].
  destruct (Qlt_le_dec q 1) as [H2 | H2];
    [apply (E (-1)%Z); [lia | exact H1 | exact H2]|].
  destruct (Qlt_le_dec q 2) as [H3 | H3];
    [apply (E 0%Z); [lia | exact H2 | exact H3]|].
  apply (E 1%Z); [lia | exact H3 | exact Hi].
Qed.

(** The literal [0.2] is the double 0x1.999999999999ap-3, a little above
    a fifth. *)
Lemma lit_02 : JS.lit 0.2 = 3602879701896397 # 18014398509481984.
Proof. vm_compute. reflexivity. Qed.

(** The model's sums, differences and products are those of the Standard
    Library's binary64 on the values the properties below compute with:
    the zoom steps and the zoom label at every scale the buttons reach,
    and an id.  So are its roundings of decimal literals, of thirds, of
    the ties 1 + 2^-53 and 1 + 3 * 2^-53, of negative and of large and
    small numbers. *)
Example binary64_agrees_with_SpecFloat :
  forallb (fun q =>
             agreesSF (SpecFloat.SFadd 53 1024) q 0.2 (JS.add q (JS.lit 0.2))
             && agreesSF (SpecFloat.SFsub 53 1024) q 0.2 (JS.sub q (JS.lit 0.2))
             && agreesSF (SpecFloat.SFmul 53 1024) q 100 (JS.mul q 100))
    zoomScales = true
  /\ agreesSF (SpecFloat.SFadd 53 1024) 1700000000000 0.5000009536743164
       (JS.add 1700000000000 0.5000009536743164) = true
  /\ forallb roundsAsSF
       [0.1; 0.2; 0.3; 0.7; 1.4; 1.6; 1.8; 2.8; 2.9; 1 # 3; 2 # 3; -1 # 3; -0.2;
        9007199254740993 # 9007199254740992; 9007199254740995 # 9007199254740992;
        123456789 # 1000; 1 # 1000000007; 9007199254740991 # 3] = true.
Proof. repeat split; vm_compute; reflexivity. Qed.

(** ** State setters do what their names say *)

Lemma highlights_toast t s : highlights (toast t s) = highlights s.
Proof. reflexivity. Qed.

Lemma handleTextSelect_rejected env s :
  captureGuards env s = None -> handleTextSelect env s = s.
Proof. unfold handleTextSelect. now intros ->. Qed.

(** What a capture that passes the guards stores. *)
Lemma handleTextSelect_accepted env s t rect containerRect :
  captureGuards env s = Some (t, rect, containerRect) ->
  highlights (handleTextSelect env s)
  = (highlights s
     ++ [mkHighlight (next_obj s) (drawn_id env) t (pageNumber s) (highlightColor s)
           (capturePosition rect containerRect)])%list.
Proof. unfold handleTextSelect. now intros ->. Qed.

(** What the guards let through. *)
Lemma captureGuards_Some env s t rect containerRect :
  captureGuards env s = Some (t, rect, containerRect) ->
  isSelecting s = true
  /\ t = JS.trim (sel_toString (selection env)) /\ t <> ""
  /\ rangeCount (selection env) <> 0%nat
  /\ rect = range0_rect (selection env)
  /\ container env = Some containerRect
  /\ 5 <= rect_width rect /\ 5 <= rect_height rect.
Proof.
  unfold captureGuards.
  destruct (isSelecting s); simpl; [|discriminate].
  destruct (String.eqb _ "") eqn:Et; [discriminate|].
  destruct (Nat.eqb _ 0) eqn:Er; [discriminate|].
  destruct (container env) as [c|]; [|discriminate].
  destruct (JS.lt (rect_width _) 5) eqn:Ew; [discriminate|].
  destruct (JS.lt (rect_height _) 5) eqn:Eh; [discriminate|].
  simpl. intros H. injection H as <- <- <-.
  apply String.eqb_neq in Et. apply Nat.eqb_neq in Er.
  apply lt_false_iff in Ew, Eh. auto 10.
Qed.

(** ** Selection capture: rejection *)

(** C9.  A selection whose bounding rectangle is narrower or lower than
    5 pixels produces no highlight, whatever its text; neither does a
    selection made while highlight mode is off, one whose text is empty or
    white space only, or one without a range.  In each case
    [handleTextSelect] returns the state it was given, so the highlight
    store (and everything else) is unchanged. *)
Theorem C9_capture_rejected (env : CaptureEnv) (s : State) :
  rect_width (range0_rect (selection env)) < 5
  \/ rect_height (range0_rect (selection env)) < 5
  \/ isSelecting s = false
  \/ whitespaceOnly (sel_toString (selection env)) = true
  \/ rangeCount (selection env) = 0%nat ->
  handleTextSelect env s = s /\ highlights (handleTextSelect env s) = highlights s.
Proof.
  intros H.
  assert (G : captureGuards env s = None).
  { unfold captureGuards.
    destruct (isSelecting s) eqn:Esel; simpl; [|reflexivity].
    destruct (String.eqb _ "") eqn:Et; [reflexivity|].
    destruct (Nat.eqb _ 0) eqn:Er; [reflexivity|].
    destruct (container env) as [c|]; [|reflexivity].
    destruct H as [Hw | [Hh | [Hs | [Ht | Hr]]]].
    - apply lt_true_iff in Hw. now rewrite Hw.
    - apply lt_true_iff in Hh. rewrite Hh. now rewrite orb_true_r.
    - discriminate.
    - rewrite (trim_whitespaceOnly _ Ht) in Et. discriminate.
    - rewrite Hr in Er. discriminate. }
  rewrite (handleTextSelect_rejected _ _ G). auto.
Qed.

(** A selection 4 pixels wide in highlight mode, with text and a range. *)
Lemma C9_capture_rejected_witness :
  let env := mkCaptureEnv
               (mkSelection "some words" 1 (mkDOMRect 110 210 4 12))
               (Some (mkDOMRect 10 10 800 600)) 1700000000000 0.5 in
  let s := setIsSelecting true initial in
  handleTextSelect env s = s /\ highlights (handleTextSelect env s) = highlights s.
Proof.
  intros env s. apply (C9_capture_rejected env s).
  left. reflexivity.
Defined.

(** ** What an event does to the highlight store *)

Lemma savePDF_highlights lib s : highlights (savePDF lib s) = highlights s.
Proof.
  unfold savePDF. destruct (pdfBytes s); [|reflexivity].
  now destruct (exportBytes lib _ _).
Qed.

Lemma step_store_change lib s e : store_change s e (highlights (step lib s e)).
Proof.
  destruct e; simpl;
    try (apply store_same; reflexivity).
  - apply store_same. unfold onFileChange.
    destruct selectedFile as [f|]; [|reflexivity].
    now destruct (String.eqb _ _).
  - destruct (captureGuards env s) as [[[t rect] c]|] eqn:G.
    + eapply store_added; [reflexivity | exact G |].
      now apply handleTextSelect_accepted.
    + apply store_same. now rewrite handleTextSelect_rejected.
  - apply store_same. unfold toggleHighlightMode. now destruct (isSelecting s).
  - apply store_same. apply savePDF_highlights.
  - apply store_same. unfold downloadPDF. now destruct (file s).
  - destruct (nth_error (highlights s) k) as [h|].
    + now apply store_removed with (i := id h).
    + now apply store_same.
  - apply store_same. destruct (nth_error (highlights s) k) as [h|]; [|reflexivity].
    unfold navigateToHighlight. now destruct anchor.
Qed.

(** ** The shape of stored highlights *)

Lemma captured_highlight_ok env s t rect containerRect o i p c :
  captureGuards env s = Some (t, rect, containerRect) ->
  highlight_ok (mkHighlight o i t p c (capturePosition rect containerRect)).
Proof.
  intros G. apply captureGuards_Some in G
    as (_ & Ht & Hne & _ & _ & _ & Hw & Hh).
  unfold highlight_ok; simpl. repeat split.
  - apply Math_max_lower.
  - apply Math_max_lower.
  - exact Hw.
  - exact Hh.
  - subst t. now rewrite trim_idem.
Qed.

Lemma step_highlight_ok lib s e :
  Forall highlight_ok (highlights s) -> Forall highlight_ok (highlights (step lib s e)).
Proof.
  intros H. destruct (step_store_change lib s e) as [-> | i -> | env t rect c _ G ->].
  - exact H.
  - rewrite Forall_forall in *. intros h Hin.
    apply filter_In in Hin. now apply H.
  - apply Forall_app. split; [exact H|].
    constructor; [|constructor]. eapply captured_highlight_ok; eauto.
Qed.

Lemma run_highlight_ok lib es : forall s,
  Forall highlight_ok (highlights s) -> Forall highlight_ok (highlights (run lib s es)).
Proof.
  induction es as [|e es IH]; intros s H; simpl; [exact H|].
  apply IH. now apply step_highlight_ok.
Qed.

(** Stated on the reachable states. *)
Lemma reachable_highlight_ok lib s :
  reachable lib s -> Forall highlight_ok (highlights s).
Proof.
  intros [es ->]. apply run_highlight_ok. constructor.
Qed.

(** C10.  Every highlight of every state the component reaches has
    [position.x >= 0], [position.y >= 0], [position.width >= 5],
    [position.height >= 5] and a text that is not empty after trimming;
    and the store after a removal holds only records of the store before
    it, unmodified. *)
Theorem C10_stored_highlights_ok (lib : PdfLib) (es : list Event) :
  Forall highlight_ok (highlights (run lib initial es))
  /\ forall i, incl (highlights (removeHighlight i (run lib initial es)))
                    (highlights (run lib initial es)).
Proof.
  split.
  - apply run_highlight_ok. constructor.
  - intros i h Hin. simpl in Hin. now apply filter_In in Hin.
Qed.

(** ** Zoom *)

Lemma scale_zoomIn s :
  scale (zoomIn s) = JS.Math_min (JS.add (scale s) (JS.lit 0.2)) 3.0.
Proof. reflexivity. Qed.

Lemma scale_zoomOut s :
  scale (zoomOut s) = JS.Math_max (JS.sub (scale s) (JS.lit 0.2)) 0.5.
Proof. reflexivity. Qed.

(** The rounding error of the sum and of the difference a zoom step
    computes. *)
Lemma zoom_sum_error (q : Q) :
  0.5 <= q <= 3.0 ->
  - (1 # 4503599627370496) <= JS.add q (JS.lit 0.2) - (q + JS.lit 0.2)
  /\ JS.add q (JS.lit 0.2) - (q + JS.lit 0.2) <= 1 # 4503599627370496.
Proof.
  intros [Hl Hu]. apply Qabs_Qle_condition. unfold JS.add.
  apply binary64_error_below_4; rewrite lit_02; lra.
Qed.

Lemma zoom_difference_error (q : Q) :
  0.5 <= q <= 3.0 ->
  - (1 # 4503599627370496) <= JS.sub q (JS.lit 0.2) - (q - JS.lit 0.2)
  /\ JS.sub q (JS.lit 0.2) - (q - JS.lit 0.2) <= 1 # 4503599627370496.
Proof.
  intros [Hl Hu]. apply Qabs_Qle_condition. unfold JS.sub.
  apply binary64_error_below_4; rewrite lit_02; lra.
Qed.

(** The zoom range is closed under both steps. *)
Lemma zoomIn_range s :
  0.5 <= scale s <= 3.0 -> 0.5 <= scale (zoomIn s) <= 3.0.
Proof.
  intros H. pose proof (zoom_sum_error _ H) as [E1 E2]. destruct H as [Hl Hu].
  rewrite scale_zoomIn. unfold JS.Math_min. rewrite lit_02 in *. split.
  - apply Q.min_glb; lra.
  - apply Q.le_min_r.
Qed.

Lemma zoomOut_range s :
  0.5 <= scale s <= 3.0 -> 0.5 <= scale (zoomOut s) <= 3.0.
Proof.
  intros H. pose proof (zoom_difference_error _ H) as [E1 E2]. destruct H as [Hl Hu].
  rewrite scale_zoomOut. unfold JS.Math_max. rewrite lit_02 in *. split.
  - apply Q.le_max_r.
  - apply Q.max_lub; lra.
Qed.

Lemma iter_zoomIn_range n s :
  0.5 <= scale s <= 3.0 -> 0.5 <= scale (Nat.iter n zoomIn s) <= 3.0.
Proof.
  intros H. induction n as [|n IH]; simpl; [exact H|].
  now apply zoomIn_range.
Qed.

Lemma iter_zoomOut_range n s :
  0.5 <= scale s <= 3.0 -> 0.5 <= scale (Nat.iter n zoomOut s) <= 3.0.
Proof.
  intros H. induction n as [|n IH]; simpl; [exact H|].
  now apply zoomOut_range.
Qed.

(** A sum that reaches 3 rounds to at least 3, and a difference that
    stays below a half rounds to at most a half: both bounds are doubles. *)
Lemma zoom_sum_reaches_3 (q : Q) :
  q <= 3.0 -> 3.0 <= q + 0.2 -> 3.0 <= JS.add q (JS.lit 0.2).
Proof.
  intros Hu H3. unfold JS.add.
  assert (G : inject_Z 6755399441055744 * JS.pow2 (1 - 52)
              <= JS.binary64 (q + JS.lit 0.2)).
  { apply binary64_ge; [lia | | |]; rewrite lit_02.
    - change (2 <= q + (3602879701896397 # 18014398509481984)). lra.
    - change (q + (3602879701896397 # 18014398509481984) < 4). lra.
    - change (6755399441055744 # 2251799813685248
              <= q + (3602879701896397 # 18014398509481984)). lra. }
  change (6755399441055744 # 2251799813685248
          <= JS.binary64 (q + JS.lit 0.2)) in G. lra.
Qed.

Lemma zoom_difference_stays_half (q : Q) :
  0.5 <= q -> q - 0.2 <= 0.5 -> JS.sub q (JS.lit 0.2) <= 0.5.
Proof.
  intros Hl H5. unfold JS.sub.
  assert (G : JS.binary64 (q - JS.lit 0.2)
              <= inject_Z 9007199254740992 * JS.pow2 (-2 - 52)).
  { apply binary64_le; [lia | | |]; rewrite lit_02.
    - change (1 # 4 <= q - (3602879701896397 # 18014398509481984)). lra.
    - change (q - (3602879701896397 # 18014398509481984) < 1 # 2). lra.
    - change (q - (3602879701896397 # 18014398509481984)
              <= 9007199254740992 # 18014398509481984). lra. }
  change (JS.binary64 (q - JS.lit 0.2)
          <= 9007199254740992 # 18014398509481984) in G. lra.
Qed.

(** C8 (as the code has it).  From a scale in [0.5, 3.0], [zoomIn]
    yields the smaller of 3.0 and the sum [scale + 0.2], and [zoomOut] the
    larger of 0.5 and the difference [scale - 0.2], the sum and the
    difference computed in double precision.  So a step whose exact result
    reaches or crosses a bound stops exactly at the bound; any other step
    changes the scale by 0.2 up to the rounding of one double operation,
    within two to the power -51 of the exact result; and no number of
    repeated steps leaves [0.5, 3.0]. *)
Theorem C8_zoom_steps_and_clamp (s : State) :
  0.5 <= scale s <= 3.0 ->
  scale (zoomIn s) == Qmin (JS.add (scale s) (JS.lit 0.2)) 3.0
  /\ scale (zoomOut s) == Qmax (JS.sub (scale s) (JS.lit 0.2)) 0.5
  /\ (scale s + 0.2 <= 3.0 ->
      Qabs (scale (zoomIn s) - (scale s + 0.2)) <= zoomRounding)
  /\ (3.0 <= scale s + 0.2 -> scale (zoomIn s) == 3.0)
  /\ (0.5 <= scale s - 0.2 ->
      Qabs (scale (zoomOut s) - (scale s - 0.2)) <= zoomRounding)
  /\ (scale s - 0.2 <= 0.5 -> scale (zoomOut s) == 0.5)
  /\ (forall n, 0.5 <= scale (Nat.iter n zoomIn s) <= 3.0)
  /\ (forall n, 0.5 <= scale (Nat.iter n zoomOut s) <= 3.0).
Proof.
  intros H.
  pose proof (zoom_sum_error _ H) as [A1 A2].
  pose proof (zoom_difference_error _ H) as [S1 S2].
  destruct H as [Hl Hu].
  rewrite scale_zoomIn, scale_zoomOut. unfold JS.Math_min, JS.Math_max, zoomRounding.
  split; [reflexivity|]. split; [reflexivity|].
  pose proof (zoom_sum_reaches_3 (scale s) Hu) as Up.
  pose proof (zoom_difference_stays_half (scale s) Hl) as Down.
  rewrite lit_02 in *.
  set (up := JS.add (scale s) (3602879701896397 # 18014398509481984)) in *.
  set (down := JS.sub (scale s) (3602879701896397 # 18014398509481984)) in *.
  split; [|split; [|split; [|split; [|split]]]].
  - intros Hs. apply Qabs_Qle_condition.
    destruct (Q.min_spec up 3.0) as [[L E] | [L E]]; rewrite E; split; lra.
  - intros Hs. apply Q.min_r. now apply Up.
  - intros Hs. apply Qabs_Qle_condition.
    destruct (Q.max_spec down 0.5) as [[L E] | [L E]]; rewrite E; split; lra.
  - intros Hs. apply Q.max_r. now apply Down.
  - intros n. apply iter_zoomIn_range. now split.
  - intros n. apply iter_zoomOut_range. now split.
Qed.

(** From the initial scale 1.0 a step up gives the double 1.2 and a step
    down the double 0.8, each within the rounding of 1.0 + 0.2 and
    1.0 - 0.2; after nine steps up the scale is 2.8000000000000003 and a
    tenth step stops at 3.0; after two steps down it is
    0.6000000000000001 and a third step stops at 0.5. *)
Lemma C8_zoom_steps_and_clamp_witness :
  let up9 := Nat.iter 9 zoomIn initial in
  let down2 := Nat.iter 2 zoomOut initial in
  scale (zoomIn initial) == JS.lit 1.2
  /\ scale (zoomOut initial) == JS.lit 0.8
  /\ Qabs (scale (zoomIn initial) - (1.0 + 0.2)) <= zoomRounding
  /\ Qabs (scale (zoomOut initial) - (1.0 - 0.2)) <= zoomRounding
  /\ scale up9 == 6305039478318695 # 2251799813685248
  /\ scale (zoomIn up9) == 3.0
  /\ scale down2 == 5404319552844596 # 9007199254740992
  /\ scale (zoomOut down2) == 0.5
  /\ (forall n, 0.5 <= scale (Nat.iter n zoomIn initial) <= 3.0)
  /\ (forall n, 0.5 <= scale (Nat.iter n zoomOut initial) <= 3.0).
Proof.
  intros up9 down2.
  assert (R1 : 0.5 <= scale initial <= 3.0) by (simpl; lra).
  assert (R2 : 0.5 <= scale up9 <= 3.0)
    by (split; apply Qle_bool_imp_le; vm_compute; reflexivity).
  assert (R3 : 0.5 <= scale down2 <= 3.0)
    by (split; apply Qle_bool_imp_le; vm_compute; reflexivity).
  destruct (C8_zoom_steps_and_clamp initial R1)
    as (_ & _ & In1 & _ & Out1 & _ & Up & Down).
  destruct (C8_zoom_steps_and_clamp up9 R2) as (_ & _ & _ & In2 & _).
  destruct (C8_zoom_steps_and_clamp down2 R3) as (_ & _ & _ & _ & _ & Out3 & _).
  split; [vm_compute; reflexivity|].
  split; [vm_compute; reflexivity|].
  split; [apply In1; simpl; lra|].
  split; [apply Out1; simpl; lra|].
  split; [vm_compute; reflexivity|].
  split; [apply In2; apply Qle_bool_imp_le; vm_compute; reflexivity|].
  split; [vm_compute; reflexivity|].
  split; [apply Out3; apply Qle_bool_imp_le; vm_compute; reflexivity|].
  split; assumption.
Defined.

(** C8, as claimed, fails: the step is not exactly 0.2.  After two steps
    up from 1.0 the scale is the double 1.4; a third step, which crosses
    no bound, gives 7205759403792793 / 2^52 (printed 1.5999999999999999),
    which is neither the scale plus 0.2 nor the double 1.6, and the
    difference of the two scales is not 0.2 whether taken exactly or in
    double precision (where it is 0.19999999999999996). *)
Lemma C8_counterexample :
  let s := run lib_ok initial [EZoomIn; EZoomIn] in
  scale s == JS.lit 1.4
  /\ 0.5 <= scale s <= 3.0
  /\ scale s + 0.2 < 3.0
  /\ scale (zoomIn s) == 7205759403792793 # 4503599627370496
  /\ ~ scale (zoomIn s) == scale s + 0.2
  /\ ~ scale (zoomIn s) - scale s == 0.2
  /\ ~ scale (zoomIn s) == JS.lit 1.6
  /\ JS.sub (scale (zoomIn s)) (scale s) == 3602879701896396 # 18014398509481984
  /\ ~ JS.sub (scale (zoomIn s)) (scale s) == JS.lit 0.2.
Proof.
  intros s.
  assert (B : (Qeq_bool (scale s) (JS.lit 1.4)
               && Qle_bool 0.5 (scale s) && Qle_bool (scale s) 3.0
               && negb (Qle_bool 3.0 (scale s + 0.2))
               && Qeq_bool (scale (zoomIn s)) (7205759403792793 # 4503599627370496)
               && negb (Qeq_bool (scale (zoomIn s)) (scale s + 0.2))
               && negb (Qeq_bool (scale (zoomIn s) - scale s) 0.2)
               && negb (Qeq_bool (scale (zoomIn s)) (JS.lit 1.6))
               && Qeq_bool (JS.sub (scale (zoomIn s)) (scale s))
                    (3602879701896396 # 18014398509481984)
               && negb (Qeq_bool (JS.sub (scale (zoomIn s)) (scale s)) (JS.lit 0.2)))%bool
              = true) by (vm_compute; reflexivity).
  apply andb_true_iff in B as [B B10]. apply andb_true_iff in B as [B B9].
  apply andb_true_iff in B as [B B8]. apply andb_true_iff in B as [B B7].
  apply andb_true_iff in B as [B B6]. apply andb_true_iff in B as [B B5].
  apply andb_true_iff in B as [B B4]. apply andb_true_iff in B as [B B3].
  apply andb_true_iff in B as [B1 B2].
  apply negb_true_iff in B4, B6, B7, B8, B10.
  split; [exact (proj1 (Qeq_bool_iff _ _) B1)|].
  split; [split; [exact (proj1 (Qle_bool_iff _ _) B2) | exact (proj1 (Qle_bool_iff _ _) B3)]|].
  split; [apply Qnot_le_lt; intros L; apply Qle_bool_iff in L; congruence|].
  split; [exact (proj1 (Qeq_bool_iff _ _) B5)|].
  split; [exact (Qeq_bool_neq _ _ B6)|].
  split; [exact (Qeq_bool_neq _ _ B7)|].
  split; [exact (Qeq_bool_neq _ _ B8)|].
  split; [exact (proj1 (Qeq_bool_iff _ _) B9) | exact (Qeq_bool_neq _ _ B10)].
Qed.

(** Ten steps up from 1.0 reach 3.0 and an eleventh stays there; three
    steps down from 1.0 reach 0.5 and a fourth stays there. *)
Example zoom_from_1 :
  scale (Nat.iter 10 zoomIn initial) == 3.0
  /\ scale (Nat.iter 11 zoomIn initial) == 3.0
  /\ scale (Nat.iter 3 zoomOut initial) == 0.5
  /\ scale (Nat.iter 4 zoomOut initial) == 0.5.
Proof. repeat split; vm_compute; reflexivity. Qed.

(** ** Export: all or nothing *)

(** The export either throws or yields the saved bytes, according to the
    outcomes of its three stages. *)
Lemma exportBytes_inl lib b hs :
  exportFails lib b hs <-> exists e, exportBytes lib b hs = inl e.
Proof.
  unfold exportFails, exportBytes. split.
  - intros [H | [(d & e & Hl & Hd) | (d & d' & Hl & Hd & Hs)]].
    + rewrite H. now exists LoadFailed.
    + rewrite Hl. simpl. rewrite Hd. now exists e.
    + rewrite Hl. simpl. rewrite Hd. simpl. rewrite Hs. now exists SaveFailed.
  - intros [e H].
    destruct (PDFDocument_load lib b) as [d|]; [|now left].
    right. simpl in H.
    destruct (drawHighlights lib hs hs d) as [e'|d'] eqn:Hd.
    + left. now exists d, e'.
    + right. exists d, d'. simpl in H.
      destruct (PDFDocument_save lib d'); [discriminate | auto].
Qed.

Lemma exportBytes_inr lib b hs out :
  exportYields lib b hs out <-> exportBytes lib b hs = inr out.
Proof.
  unfold exportYields, exportBytes. split.
  - intros (d & d' & Hl & Hd & Hs). rewrite Hl. simpl. rewrite Hd. simpl.
    now rewrite Hs.
  - intros H.
    destruct (PDFDocument_load lib b) as [d|]; [|discriminate].
    simpl in H.
    destruct (drawHighlights lib hs hs d) as [e'|d'] eqn:Hd; [discriminate|].
    simpl in H.
    destruct (PDFDocument_save lib d') as [o|] eqn:Hs; [|discriminate].
    injection H as <-. now exists d, d'.
Qed.

(** C7.  With a document loaded, if opening the bytes, drawing a
    highlight or saving fails, [savePDF] does nothing but raise the error
    toast 'Failed to save PDF': no download is offered and the highlights,
    the file and its bytes are those of the state before.  Otherwise all
    three stages succeeded and exactly one download is offered, made of
    the bytes the save returned for the fully drawn document. *)
Theorem C7_export_all_or_nothing (lib : PdfLib) (s : State) (b : bytes) :
  pdfBytes s = Some b ->
  (exportFails lib b (highlights s) ->
     savePDF lib s = toast (toast_error "Failed to save PDF") s
     /\ downloads (savePDF lib s) = downloads s
     /\ highlights (savePDF lib s) = highlights s
     /\ file (savePDF lib s) = file s
     /\ pdfBytes (savePDF lib s) = pdfBytes s)
  /\ (~ exportFails lib b (highlights s) ->
      exists out, exportYields lib b (highlights s) out
        /\ downloads (savePDF lib s)
           = (downloads s ++ [("edited_document.pdf", OfBytes out)])%list
        /\ highlights (savePDF lib s) = highlights s).
Proof.
  intros Hb. split.
  - intros Hf. apply exportBytes_inl in Hf as [e He].
    unfold savePDF. rewrite Hb, He. auto.
  - intros Hn. unfold savePDF. rewrite Hb.
    destruct (exportBytes lib b (highlights s)) as [e|out] eqn:He.
    + exfalso. apply Hn. apply exportBytes_inl. now exists e.
    + exists out. split; [now apply exportBytes_inr | auto].
Qed.

(** A highlight on a loaded file, saved with a library whose [save()]
    fails and with one whose stages all succeed. *)
Lemma C7_export_all_or_nothing_witness :
  let s := run lib_ok initial
             [EFileChange (Some samplePdf); EReaderLoad sampleBytes;
              EDocumentLoadSuccess 2; EToggleHighlightMode; ETextSelect envA] in
  pdfBytes s = Some sampleBytes
  /\ List.length (highlights s) = 1%nat
  /\ savePDF lib_save_fails s = toast (toast_error "Failed to save PDF") s
  /\ downloads (savePDF lib_save_fails s) = downloads s
  /\ highlights (savePDF lib_save_fails s) = highlights s
  /\ exists out, exportYields lib_ok sampleBytes (highlights s) out
       /\ downloads (savePDF lib_ok s)
          = (downloads s ++ [("edited_document.pdf", OfBytes out)])%list.
Proof.
  intros s.
  assert (Hb : pdfBytes s = Some sampleBytes) by (vm_compute; reflexivity).
  destruct (C7_export_all_or_nothing lib_save_fails s sampleBytes Hb) as [Hfail _].
  destruct (C7_export_all_or_nothing lib_ok s sampleBytes Hb) as [_ Hok].
  assert (F : exportFails lib_save_fails sampleBytes (highlights s)).
  { apply exportBytes_inl. exists SaveFailed. vm_compute. reflexivity. }
  assert (N : ~ exportFails lib_ok sampleBytes (highlights s)).
  { intros H. apply exportBytes_inl in H as [e He]. vm_compute in He. discriminate. }
  destruct (Hfail F) as (H1 & H2 & H3 & _).
  destruct (Hok N) as (out & Y & D & _).
  split; [exact Hb|]. split; [vm_compute; reflexivity|].
  split; [exact H1|]. split; [exact H2|]. split; [exact H3|].
  exists out. split; assumption.
Defined.

(** ** Export: where the marker of a highlight is drawn *)

Lemma indexOf_from_nth (hs : list Highlight) : forall k h i,
  NoDup (map obj hs) -> nth_error hs k = Some h ->
  indexOf_from hs h i = (i + Z.of_nat k)%Z.
Proof.
  induction hs as [|h' rest IH]; intros k h i Hnd Hk.
  - destruct k; discriminate.
  - simpl in Hnd. inversion Hnd as [|o l Hnotin Hnd']; subst.
    destruct k as [|k]; simpl in Hk.
    + injection Hk as ->. simpl. rewrite Nat.eqb_refl. lia.
    + simpl. destruct (Nat.eqb (obj h') (obj h)) eqn:E.
      * exfalso. apply Nat.eqb_eq in E. apply Hnotin. rewrite E.
        apply in_map. eapply nth_error_In; eauto.
      * rewrite (IH k h (i + 1)%Z Hnd' Hk). lia.
Qed.

(** Among distinct objects, [indexOf] is the position in the array. *)
Lemma indexOf_nth (hs : list Highlight) (k : nat) (h : Highlight) :
  NoDup (map obj hs) -> nth_error hs k = Some h -> indexOf hs h = Z.of_nat k.
Proof.
  intros Hnd Hk. unfold indexOf. now rewrite (indexOf_from_nth hs k h 0 Hnd Hk).
Qed.

Lemma nth_error_drawOn (doc : PDFDoc) : forall i op p,
  nth_error doc i = Some p ->
  nth_error (drawOn doc i op) i
  = Some (mkPDFPage (page_width p) (page_height p) (page_ops p ++ [op])).
Proof.
  induction doc as [|q rest IH]; intros i op p H.
  - destruct i; discriminate.
  - destruct i as [|i]; simpl in *.
    + now injection H as ->.
    + now apply IH.
Qed.

Lemma getPage_inr (doc : PDFDoc) (index : Z) (p : PDFPage) :
  getPage doc index = inr p <->
  (0 <= index)%Z /\ nth_error doc (Z.to_nat index) = Some p.
Proof.
  unfold getPage. destruct (index <? 0)%Z eqn:E.
  - apply Z.ltb_lt in E. split; [discriminate | lia].
  - apply Z.ltb_ge in E. destruct (nth_error doc (Z.to_nat index)) as [q|].
    + split.
      * intros H. injection H as ->. auto.
      * intros [_ H]. injection H as ->. reflexivity.
    + split; [discriminate | intros [_ H]; discriminate].
Qed.

Lemma NoDup_snoc {A} (l : list A) (a : A) :
  NoDup l -> ~ In a l -> NoDup (l ++ [a]).
Proof.
  induction l as [|b l IH]; simpl; intros Hnd Hnotin.
  - constructor; [intros [] | constructor].
  - inversion Hnd as [|c l' Hb Hnd']; subst. constructor.
    + rewrite in_app_iff. simpl. intros [H | [H | []]]; [now apply Hb | subst; auto].
    + apply IH; auto.
Qed.

(** The objects of the store are distinct: each was allocated once. *)
Lemma step_objs lib s e :
  NoDup (map obj (highlights s)) /\ Forall (fun h => (obj h < next_obj s)%nat) (highlights s) ->
  NoDup (map obj (highlights (step lib s e)))
  /\ Forall (fun h => (obj h < next_obj (step lib s e))%nat) (highlights (step lib s e)).
Proof.
  intros [Hnd Hlt].
  assert (Hmono : (next_obj s <= next_obj (step lib s e))%nat).
  { destruct e; simpl; try apply Nat.le_refl.
    - unfold onFileChange. destruct selectedFile; [|apply Nat.le_refl].
      destruct (String.eqb _ _); apply Nat.le_refl.
    - unfold handleTextSelect. destruct (captureGuards env s) as [[[t r] c]|]; simpl; lia.
    - unfold toggleHighlightMode. destruct (isSelecting s); apply Nat.le_refl.
    - unfold savePDF. destruct (pdfBytes s); [|apply Nat.le_refl].
      destruct (exportBytes lib _ _); apply Nat.le_refl.
    - unfold downloadPDF. destruct (file s); apply Nat.le_refl.
    - destruct (nth_error _ k); apply Nat.le_refl.
    - destruct (nth_error _ k); [|apply Nat.le_refl].
      unfold navigateToHighlight. destruct anchor; apply Nat.le_refl. }
  destruct (step_store_change lib s e) as [E | i E | env t rect c He G E].
  - rewrite E. split; [exact Hnd|].
    eapply Forall_impl; [|exact Hlt]. simpl. intros; lia.
  - rewrite E. split.
    + clear E Hlt Hmono. induction (highlights s) as [|h rest IH]; simpl; [constructor|].
      inversion Hnd as [|o l Hnotin Hnd']; subst.
      destruct (negb (Qeq_bool (id h) i)); simpl; [|now apply IH].
      constructor; [|now apply IH].
      intros Hin. apply Hnotin. apply in_map_iff in Hin as (h0 & <- & Hin).
      apply in_map. now apply filter_In in Hin.
    + rewrite Forall_forall in *. intros h Hin. apply filter_In in Hin as [Hin _].
      specialize (Hlt h Hin). lia.
  - subst e. rewrite E. simpl in Hmono |- *.
    assert (Hn : next_obj (handleTextSelect env s) = S (next_obj s)).
    { unfold handleTextSelect. now rewrite G. }
    rewrite Hn. split.
    + rewrite map_app. simpl.
      apply NoDup_snoc.
      * exact Hnd.
      * intros Hin. apply in_map_iff in Hin as (h0 & Ho & Hin).
        rewrite Forall_forall in Hlt. specialize (Hlt h0 Hin). lia.
    + apply Forall_app. split.
      * eapply Forall_impl; [|exact Hlt]. simpl. intros; lia.
      * constructor; [simpl; lia | constructor].
Qed.

Lemma run_objs lib es : forall s,
  NoDup (map obj (highlights s)) /\ Forall (fun h => (obj h < next_obj s)%nat) (highlights s) ->
  NoDup (map obj (highlights (run lib s es))).
Proof.
  induction es as [|e es IH]; intros s H; simpl; [apply H|].
  apply IH. now apply step_objs.
Qed.

(** In every reachable state the highlights are distinct objects. *)
Lemma reachable_objs_distinct lib es :
  NoDup (map obj (highlights (run lib initial es))).
Proof.
  apply run_objs. simpl. split; constructor.
Qed.

(** The loop body reads the object identity, the text, the page number
    and the colour of a highlight, never its position. *)
Lemma indexOf_with_position all h p :
  indexOf all (with_position p h) = indexOf all h.
Proof.
  unfold indexOf. generalize 0%Z.
  induction all as [|h' rest IH]; intros i; simpl; [reflexivity|].
  now rewrite IH.
Qed.

Lemma drawHighlight_ignores_position lib all doc h p :
  drawHighlight lib all doc (with_position p h) = drawHighlight lib all doc h.
Proof.
  unfold drawHighlight. now rewrite indexOf_with_position.
Qed.

(** A loop iteration completes exactly when the page of the highlight
    exists, its colour parses to channels in the unit interval and the
    font encodes its label. *)
Lemma drawHighlight_completes lib all doc h :
  (exists doc', drawHighlight lib all doc h = inr doc')
  <-> (exists page, getPage doc (h_pageNumber h - 1) = inr page)
      /\ (exists c, rgb (channel (JS.replace_first "#" (color h)) 0)
                       (channel (JS.replace_first "#" (color h)) 2)
                       (channel (JS.replace_first "#" (color h)) 4) = inr c)
      /\ canEncode lib (JS.substring0 50 (text h)) = true.
Proof.
  unfold drawHighlight.
  destruct (getPage doc (h_pageNumber h - 1)) as [e|page]; simpl.
  - split; [intros [d H]; discriminate | intros ([pg H] & _); discriminate].
  - destruct (rgb _ _ _) as [e|c]; simpl.
    + split; [intros [d H]; discriminate | intros (_ & [c H] & _); discriminate].
    + destruct (canEncode lib _).
      * split; [intros _ | intros _; eexists; reflexivity].
        split; [now exists page|]. split; [now exists c | reflexivity].
      * split; [intros [d H]; discriminate | intros (_ & _ & H); discriminate].
Qed.

Lemma nth_error_drawOn_other (doc : PDFDoc) : forall i j op,
  i <> j -> nth_error (drawOn doc j op) i = nth_error doc i.
Proof.
  induction doc as [|q rest IH]; intros i j op Hij.
  - now destruct j.
  - destruct j as [|j]; destruct i as [|i]; simpl; try reflexivity.
    + now contradiction Hij.
    + apply IH. intros E. apply Hij. now rewrite E.
Qed.

(** What one completed iteration leaves on every page. *)
Lemma drawHighlight_pages lib all doc h doc1 :
  drawHighlight lib all doc h = inr doc1 ->
  (0 <= h_pageNumber h - 1)%Z
  /\ forall i page, nth_error doc i = Some page ->
       nth_error doc1 i
       = Some (if Nat.eqb i (Z.to_nat (h_pageNumber h - 1))
               then mkPDFPage (page_width page) (page_height page)
                      (page_ops page
                       ++ [drawRectangle 50
                             (page_height page - 100 - inject_Z (indexOf all h) * 20)
                             200 15 (rgbOf h) 0.5;
                           drawText (JS.substring0 50 (text h)) 55
                             (page_height page - 95 - inject_Z (indexOf all h) * 20)
                             8 (0, 0, 0)])
               else page).
Proof.
  unfold drawHighlight, rgbOf. intros Hd.
  destruct (getPage doc (h_pageNumber h - 1)) as [e|pg] eqn:Hp; [discriminate|].
  simpl in Hd.
  destruct (rgb _ _ _) as [e|c]; [discriminate|]. simpl in Hd.
  destruct (canEncode lib _); [|discriminate].
  injection Hd as <-.
  apply getPage_inr in Hp as [H0 Hn]. split; [exact H0|].
  intros i page Hi.
  destruct (Nat.eqb i (Z.to_nat (h_pageNumber h - 1))) eqn:E.
  - apply Nat.eqb_eq in E. subst i.
    rewrite Hi in Hn. injection Hn as <-.
    erewrite nth_error_drawOn.
    2:{ apply nth_error_drawOn. exact Hi. }
    simpl. now rewrite <- app_assoc.
  - apply Nat.eqb_neq in E.
    now rewrite !nth_error_drawOn_other.
Qed.

(** What the completed loop leaves on every page, when the highlights
    still to draw carry the ordinals [start], [start + 1], ... *)
Lemma drawHighlights_pages lib all : forall todo start doc doc',
  (forall j h, nth_error todo j = Some h -> indexOf all h = Z.of_nat (start + j)) ->
  drawHighlights lib all todo doc = inr doc' ->
  forall i page, nth_error doc i = Some page ->
    nth_error doc' i
    = Some (mkPDFPage (page_width page) (page_height page)
              (page_ops page ++ pageMarkers i (page_height page) (numbered start todo))).
Proof.
  induction todo as [|h rest IH]; intros start doc doc' Hidx Hd i page Hi.
  - simpl in Hd. injection Hd as <-. unfold pageMarkers. simpl.
    rewrite app_nil_r. now destruct page.
  - simpl in Hd.
    destruct (drawHighlight lib all doc h) as [e|doc1] eqn:H1; [discriminate|].
    simpl in Hd.
    destruct (drawHighlight_pages _ _ _ _ _ H1) as [H0 Hpages].
    specialize (Hpages i page Hi).
    assert (Hk : indexOf all h = Z.of_nat start).
    { rewrite (Hidx 0%nat h eq_refl). now rewrite Nat.add_0_r. }
    assert (Hrest : forall j h', nth_error rest j = Some h' ->
                                 indexOf all h' = Z.of_nat (S start + j)).
    { intros j h' Hj. rewrite (Hidx (S j) h' Hj). f_equal. lia. }
    rewrite (IH (S start) doc1 doc' Hrest Hd i _ Hpages).
    unfold pageMarkers, numbered. simpl. unfold onPage at 2. simpl.
    destruct (Nat.eqb i (Z.to_nat (h_pageNumber h - 1))) eqn:E.
    + apply Nat.eqb_eq in E.
      assert (Ez : (h_pageNumber h - 1 =? Z.of_nat i)%Z = true)
        by (apply Z.eqb_eq; lia).
      rewrite Ez. simpl. rewrite Hk. now rewrite <- app_assoc.
    + apply Nat.eqb_neq in E.
      assert (Ez : (h_pageNumber h - 1 =? Z.of_nat i)%Z = false)
        by (apply Z.eqb_neq; lia).
      now rewrite Ez.
Qed.

Lemma markers_with_position k pageHeight h p :
  markers k pageHeight (with_position p h) = markers k pageHeight h.
Proof. reflexivity. Qed.

Lemma numbered_In (hs : list Highlight) : forall start k h,
  nth_error hs k = Some h -> In ((start + k)%nat, h) (numbered start hs).
Proof.
  unfold numbered.
  induction hs as [|h' rest IH]; intros start k h Hk.
  - destruct k; discriminate.
  - destruct k as [|k]; simpl in *.
    + injection Hk as ->. left. now rewrite Nat.add_0_r.
    + right. replace (start + S k)%nat with (S start + k)%nat by lia.
      now apply IH.
Qed.

(** C3 (as the code has it).  When the export loop completes, every page
    holds what it held before followed by the markers of the highlights
    of that page, in store order, and the markers of the highlight at
    index [k] of the whole list are a rectangle at
    [y = height - 100 - 20 k] and a label at [y = height - 95 - 20 k],
    where [height] is the height of its page: the offset is 20 times the
    ordinal in the whole list.  The stored position plays no part: the
    markers of a highlight are the same with any other position in its
    place. *)
Theorem C3_export_offset_global_ordinal
    (lib : PdfLib) (hs : list Highlight) (doc doc' : PDFDoc) :
  NoDup (map obj hs) ->
  drawHighlights lib hs hs doc = inr doc' ->
  (forall i page, nth_error doc i = Some page ->
     nth_error doc' i
     = Some (mkPDFPage (page_width page) (page_height page)
               (page_ops page ++ pageMarkers i (page_height page) (numbered 0 hs))))
  /\ (forall k h page, nth_error hs k = Some h ->
        getPage doc (h_pageNumber h - 1) = inr page ->
        exists page',
          getPage doc' (h_pageNumber h - 1) = inr page'
          /\ page_height page' = page_height page
          /\ In (drawRectangle 50 (page_height page - 100 - inject_Z (Z.of_nat k) * 20)
                   200 15 (rgbOf h) 0.5) (page_ops page')
          /\ In (drawText (JS.substring0 50 (text h)) 55
                   (page_height page - 95 - inject_Z (Z.of_nat k) * 20) 8 (0, 0, 0))
                (page_ops page'))
  /\ (forall k pageHeight h p,
        markers k pageHeight (with_position p h) = markers k pageHeight h).
Proof.
  intros Hnd Hd.
  assert (Hall : forall i page, nth_error doc i = Some page ->
            nth_error doc' i
            = Some (mkPDFPage (page_width page) (page_height page)
                      (page_ops page ++ pageMarkers i (page_height page) (numbered 0 hs)))).
  { apply (drawHighlights_pages lib hs hs 0 doc doc'); [|exact Hd].
    intros j h Hj. now apply indexOf_nth. }
  split; [exact Hall|]. split; [|intros; apply markers_with_position].
  intros k h page Hk Hp.
  apply getPage_inr in Hp as [H0 Hn].
  specialize (Hall _ _ Hn).
  eexists. split; [apply getPage_inr; split; [exact H0 | exact Hall]|].
  split; [reflexivity|]. simpl.
  assert (Hin : incl (markers k (page_height page) h)
                  (pageMarkers (Z.to_nat (h_pageNumber h - 1)) (page_height page)
                     (numbered 0 hs))).
  { intros op Hop. unfold pageMarkers. apply in_flat_map.
    exists (k, h). split; [|exact Hop].
    apply filter_In. split; [exact (numbered_In hs 0 k h Hk)|].
    unfold onPage. simpl. apply Z.eqb_eq. lia. }
  split; apply in_or_app; right; apply Hin; simpl; auto.
Qed.

(** The export of the two-page session: the first page receives the
    markers of ordinal 0, the second those of ordinal 1. *)
Lemma C3_export_offset_global_ordinal_witness :
  let hs := highlights (run lib_ok initial trace_two_pages) in
  exists doc',
    drawHighlights lib_ok hs hs twoPages = inr doc'
    /\ map (fun kh => (fst kh, h_pageNumber (snd kh))) (numbered 0 hs)
       = [(0%nat, 1%Z); (1%nat, 2%Z)]
    /\ forall i page, nth_error twoPages i = Some page ->
         nth_error doc' i
         = Some (mkPDFPage (page_width page) (page_height page)
                   (page_ops page ++ pageMarkers i (page_height page) (numbered 0 hs))).
Proof.
  intros hs.
  destruct (drawHighlights lib_ok hs hs twoPages) as [e|doc'] eqn:Hd.
  { vm_compute in Hd. discriminate. }
  exists doc'. split; [reflexivity|]. split; [reflexivity|].
  apply (C3_export_offset_global_ordinal lib_ok hs twoPages doc').
  - vm_compute. repeat constructor; simpl; intuition discriminate.
  - exact Hd.
Defined.

(** C3, as claimed, fails on the two-page session.  Its two highlights
    are each the first of their page (ordinal 0 in the per-page list) and
    the pages are equally high, yet the first is drawn at 700 and 705 and
    the second at 680 and 685: the second is placed by its index 1 in the
    whole list, not by its ordinal 0 within its page. *)
Lemma C3_counterexample :
  let hs := highlights (run lib_ok initial trace_two_pages) in
  valid_trace lib_ok initial trace_two_pages = true
  /\ map h_pageNumber hs = [1%Z; 2%Z]
  /\ map (pageOrdinal hs) hs = [0%Z; 0%Z]
  /\ map (indexOf hs) hs = [0%Z; 1%Z]
  /\ drawnYs (drawHighlights lib_ok hs hs twoPages) = Some [[700; 705]; [680; 685]]
  /\ ~ (680 == 800 - 100 - inject_Z 0 * 20).
Proof.
  intros hs. repeat split; try (vm_compute; reflexivity).
  vm_compute. discriminate.
Qed.

(** ** Highlight ids *)

Lemma InA_ids (d : Q) (hs : list Highlight) :
  InA Qeq d (map id hs) <-> exists h, In h hs /\ id h == d.
Proof.
  rewrite InA_alt. split.
  - intros (y & Hy & Hin). apply in_map_iff in Hin as (h & <- & Hin).
    exists h. split; [exact Hin | now symmetry].
  - intros (h & Hin & Hh). exists (id h). split; [now symmetry | now apply in_map].
Qed.

Lemma NoDupA_mid_notin (l l' : list Q) (a : Q) :
  NoDupA Qeq (l ++ a :: l') -> ~ InA Qeq a l.
Proof.
  induction l as [|b l IH]; simpl; intros Hnd Hin.
  - inversion Hin.
  - inversion Hnd as [|c m Hb Hnd']; subst.
    inversion Hin as [c m E | c m Hin']; subst.
    + apply Hb. rewrite InA_app_iff. right. left. now symmetry.
    + now apply IH.
Qed.

Lemma NoDupA_snoc (l : list Q) (a : Q) :
  NoDupA Qeq l -> ~ InA Qeq a l -> NoDupA Qeq (l ++ [a]).
Proof.
  induction l as [|b l IH]; simpl; intros Hnd Hnotin.
  - constructor; [intros H; inversion H | constructor].
  - inversion Hnd as [|c m Hb Hnd']; subst. constructor.
    + rewrite InA_app_iff. intros [H | H]; [now apply Hb|].
      inversion H as [c m E | c m H']; subst; [|inversion H'].
      apply Hnotin. left. now symmetry.
    + apply IH; [exact Hnd'|]. intros H. apply Hnotin. now right.
Qed.

(** Removal keeps the ids of the store distinct. *)
Lemma ids_distinct_filter (f : Highlight -> bool) (hs : list Highlight) :
  ids_distinct hs -> ids_distinct (filter f hs).
Proof.
  unfold ids_distinct. induction hs as [|h rest IH]; simpl; intros Hnd; [constructor|].
  inversion Hnd as [|c m Hh Hnd']; subst.
  destruct (f h); simpl; [|now apply IH].
  constructor; [|now apply IH].
  intros Hin. apply Hh. apply InA_ids in Hin as (h0 & Hin & E).
  apply InA_ids. exists h0. split; [|exact E]. now apply filter_In in Hin.
Qed.

(** What an event does to the numbers computed by the creations still
    to come and to the store: it is no creation, and keeps the store or
    removes from it by id; or it is a mouse-up that passes the guards,
    and its number heads the list as its highlight ends the store. *)
Lemma created_ids_step lib s e es :
  (created_ids lib s (e :: es) = created_ids lib (step lib s e) es
   /\ (highlights (step lib s e) = highlights s
       \/ exists i, highlights (step lib s e)
                    = filter (fun h => negb (Qeq_bool (id h) i)) (highlights s)))
  \/ (exists env t rect containerRect,
        e = ETextSelect env
        /\ captureGuards env s = Some (t, rect, containerRect)
        /\ created_ids lib s (e :: es) = drawn_id env :: created_ids lib (step lib s e) es
        /\ highlights (step lib s e)
           = (highlights s
              ++ [mkHighlight (next_obj s) (drawn_id env) t (pageNumber s)
                    (highlightColor s) (capturePosition rect containerRect)])%list).
Proof.
  assert (Hother : (forall env, e <> ETextSelect env) ->
            highlights (step lib s e) = highlights s
            \/ exists i, highlights (step lib s e)
                         = filter (fun h => negb (Qeq_bool (id h) i)) (highlights s)).
  { intros Hne. destruct (step_store_change lib s e) as [E | i E | env t rect c He G E].
    - now left.
    - right. now exists i.
    - now contradiction (Hne env). }
  destruct e; try (left; split; [reflexivity | apply Hother; discriminate]).
  clear Hother. simpl.
  destruct (captureGuards env s) as [[[t rect] c]|] eqn:G.
  - right. exists env, t, rect, c.
    split; [reflexivity|]. split; [exact G|]. split; [reflexivity|].
    now apply handleTextSelect_accepted.
  - left. split; [reflexivity|]. left. now rewrite handleTextSelect_rejected.
Qed.

(** The ids of the store are among the numbers computed so far, and are
    distinct as long as those numbers are. *)
Lemma run_ids_distinct lib es : forall s ds,
  NoDupA Qeq (ds ++ created_ids lib s es) ->
  ids_distinct (highlights s) ->
  (forall h, In h (highlights s) -> InA Qeq (id h) ds) ->
  ids_distinct (highlights (run lib s es))
  /\ (forall h, In h (highlights (run lib s es)) ->
        InA Qeq (id h) (ds ++ created_ids lib s es)).
Proof.
  induction es as [|e es IH]; intros s ds Hnd Hs Hin.
  - simpl. split; [exact Hs|]. intros h Hh. rewrite app_nil_r. now apply Hin.
  - change (run lib s (e :: es)) with (run lib (step lib s e) es).
    destruct (created_ids_step lib s e es)
      as [[Ec [E | [i E]]] | (env & t & rect & c & He & G & Ec & E)];
      rewrite Ec in *.
    + apply IH; [exact Hnd | now rewrite E | now rewrite E].
    + apply IH; [exact Hnd | rewrite E; now apply ids_distinct_filter |].
      rewrite E. intros h Hh. apply filter_In in Hh as [Hh _]. now apply Hin.
    + assert (Hfresh : ~ InA Qeq (drawn_id env) (map id (highlights s))).
      { intros H. apply InA_ids in H as (h & Hh & Eh).
        apply (NoDupA_mid_notin _ _ _ Hnd).
        rewrite <- Eh. now apply Hin. }
      replace (ds ++ drawn_id env :: created_ids lib (step lib s e) es)%list
        with ((ds ++ [drawn_id env]) ++ created_ids lib (step lib s e) es)%list in *
        by now rewrite <- app_assoc.
      apply IH.
      * exact Hnd.
      * rewrite E. unfold ids_distinct. rewrite map_app. simpl.
        now apply NoDupA_snoc.
      * rewrite E. intros h Hh. apply in_app_iff in Hh as [Hh | [<- | []]].
        -- rewrite InA_app_iff. left. now apply Hin.
        -- rewrite InA_app_iff. right. now left.
Qed.

(** C5 (as the code has it).  Whatever events are interleaved, captures,
    removals or others, every id in the store is the number
    [Date.now() + Math.random()] that one of the successful creations of
    the session computed, as a double, and the ids of the stored
    highlights are pairwise distinct provided those numbers are pairwise
    distinct. *)
Theorem C5_ids_distinct_if_draws_distinct (lib : PdfLib) (es : list Event) :
  NoDupA Qeq (created_ids lib initial es) ->
  ids_distinct (highlights (run lib initial es))
  /\ (forall h, In h (highlights (run lib initial es)) ->
        InA Qeq (id h) (created_ids lib initial es)).
Proof.
  intros Hnd. apply (run_ids_distinct lib es initial []).
  - exact Hnd.
  - constructor.
  - intros h [].
Qed.

(** The two-page session: two captures, at different times. *)
Lemma C5_ids_distinct_if_draws_distinct_witness :
  List.length (highlights (run lib_ok initial trace_two_pages)) = 2%nat
  /\ ids_distinct (highlights (run lib_ok initial trace_two_pages)).
Proof.
  split; [vm_compute; reflexivity|].
  apply (C5_ids_distinct_if_draws_distinct lib_ok trace_two_pages).
  assert (E : created_ids lib_ok initial trace_two_pages
              = [3400000000001 # 2; 6800000016001 # 4]) by (vm_compute; reflexivity).
  rewrite E. constructor; [|constructor; [|constructor]].
  - intros H. inversion H as [a l E' | a l H']; subst.
    + vm_compute in E'. discriminate.
    + inversion H'.
  - intros H. inversion H.
Defined.

(** C5, as claimed, fails: two captures that read the same clock value and
    the same random value are two successful creations and give two
    highlights, distinct objects, with one id; removing the first of them
    then removes both. *)
Lemma C5_counterexample :
  let s := run lib_ok initial trace_same_draw in
  valid_trace lib_ok initial trace_same_draw = true
  /\ List.length (created_ids lib_ok initial trace_same_draw) = 2%nat
  /\ map obj (highlights s) = [0%nat; 1%nat]
  /\ map id (highlights s) = [3400000000001 # 2; 3400000000001 # 2]
  /\ highlights (step lib_ok s (ERemoveHighlight 0)) = []
  /\ ~ ids_distinct (highlights s).
Proof.
  intros s.
  assert (E : map id (highlights s) = [3400000000001 # 2; 3400000000001 # 2])
    by (vm_compute; reflexivity).
  repeat split; try (vm_compute; reflexivity).
  unfold ids_distinct. rewrite E.
  intros H. inversion H as [|a l Ha Hnd]; subst.
  apply Ha. left. reflexivity.
Qed.

(** Nor do distinct random values suffice: next to 1.7e12 the doubles are
    2^-12 apart, so the sum rounds the random value to a multiple of
    2^-12.  The same clock value with the random values 0.5 and
    0.5 + 2^-20 gives one id. *)
Example ids_collide_by_rounding :
  let s := run lib_ok initial trace_rounded_draw in
  valid_trace lib_ok initial trace_rounded_draw = true
  /\ ~ Math_random envA == Math_random envR
  /\ drawn_id envA == drawn_id envR
  /\ map id (highlights s) = [3400000000001 # 2; 3400000000001 # 2]
  /\ ~ ids_distinct (highlights s).
Proof.
  intros s.
  assert (E : map id (highlights s) = [3400000000001 # 2; 3400000000001 # 2])
    by (vm_compute; reflexivity).
  split; [vm_compute; reflexivity|].
  split; [vm_compute; discriminate|].
  split; [vm_compute; reflexivity|].
  split; [exact E|].
  unfold ids_distinct. rewrite E.
  intros H. inversion H as [|a l Ha Hnd]; subst.
  apply Ha. left. reflexivity.
Qed.

(** ** Loading a file *)

(** C2 (as the code has it).  After a PDF file is picked, read and
    rendered, the current page is 1 whatever it was before and the page
    count, the file and its bytes are those of the new document; the
    highlight collection is the one of the state before the load, with
    every highlight it held. *)
Theorem C2_load_resets_page_keeps_highlights
    (f : File) (result : bytes) (n : Z) (s : State) :
  file_type f = "application/pdf" ->
  pageNumber (loadFile f result n s) = 1%Z
  /\ highlights (loadFile f result n s) = highlights s
  /\ numPages (loadFile f result n s) = Some n
  /\ file (loadFile f result n s) = Some f
  /\ pdfBytes (loadFile f result n s) = Some result.
Proof.
  intros Ht. unfold loadFile, onFileChange. rewrite Ht. simpl. auto.
Qed.

(** A second file loaded over a session on page 2 with two highlights. *)
Lemma C2_load_resets_page_keeps_highlights_witness :
  let s := run lib_ok initial trace_two_pages in
  pageNumber s = 2%Z
  /\ pageNumber (loadFile otherPdf otherBytes 3 s) = 1%Z
  /\ highlights (loadFile otherPdf otherBytes 3 s) = highlights s
  /\ numPages (loadFile otherPdf otherBytes 3 s) = Some 3%Z
  /\ file (loadFile otherPdf otherBytes 3 s) = Some otherPdf
  /\ pdfBytes (loadFile otherPdf otherBytes 3 s) = Some otherBytes.
Proof.
  intros s. split; [reflexivity|].
  apply (C2_load_resets_page_keeps_highlights otherPdf otherBytes 3 s).
  reflexivity.
Defined.

(** C2, as claimed, fails: a highlight made on the first document is
    still in the collection after the second document is loaded. *)
Lemma C2_counterexample :
  let s := run lib_ok initial trace_reload in
  valid_trace lib_ok initial trace_reload = true
  /\ file s = Some otherPdf
  /\ numPages s = Some 3%Z
  /\ pageNumber s = 1%Z
  /\ List.length (highlights s) = 1%nat
  /\ ~ (List.length (highlights s) = 0%nat /\ pageNumber s = 1%Z).
Proof.
  intros s. repeat split; try reflexivity.
  intros [H _]. vm_compute in H. discriminate.
Qed.

(** ** The current page *)

Lemma pageNumber_changePage offset s :
  pageNumber (changePage offset s)
  = Z.min (Z.max 1 (pageNumber s + offset)) (JS.ToNumberZ (numPages s)).
Proof. reflexivity. Qed.

Lemma changePage_in_range offset s n :
  numPages s = Some n -> (1 <= n)%Z -> inPageRange n (pageNumber (changePage offset s)).
Proof.
  intros Hn H1. rewrite pageNumber_changePage, Hn. simpl. unfold inPageRange. lia.
Qed.

(** [page_inv] reads three cells of the state. *)
Lemma page_inv_cells s s' :
  numPages s' = numPages s -> pageNumber s' = pageNumber s ->
  highlights s' = highlights s -> page_inv s -> page_inv s'.
Proof. unfold page_inv. now intros -> -> ->. Qed.

(** A capture or a removal keeps the invariant: a captured highlight
    carries the current page. *)
Lemma page_inv_store s s' :
  numPages s' = numPages s -> pageNumber s' = pageNumber s ->
  (forall h, In h (highlights s') ->
     In h (highlights s) \/ h_pageNumber h = pageNumber s) ->
  page_inv s -> page_inv s'.
Proof.
  unfold page_inv. intros -> -> Hin.
  destruct (numPages s) as [n|]; intros [Hp Hh]; (split; [exact Hp|]);
    rewrite Forall_forall in *; intros h Hh';
    (destruct (Hin h Hh') as [H | H]; [now apply Hh | now rewrite H]).
Qed.

Lemma step_page_inv lib s e :
  enabled s e = true -> fits s e = true -> page_inv s -> page_inv (step lib s e).
Proof.
  intros Hen Hfit Hinv.
  destruct e; simpl in *;
    try (apply (page_inv_cells s); [reflexivity | reflexivity | reflexivity | exact Hinv]).
  - (* onFileChange *)
    apply (page_inv_cells s); try exact Hinv;
      unfold onFileChange; destruct selectedFile as [f|]; try reflexivity;
      destruct (String.eqb _ _); reflexivity.
  - (* onDocumentLoadSuccess *)
    destruct (file s); [|discriminate]. apply Z.leb_le in Hen.
    unfold page_inv in *. simpl. split; [unfold inPageRange; lia|].
    rewrite forallb_forall in Hfit. rewrite Forall_forall. intros h Hh.
    specialize (Hfit h Hh). apply Z.leb_le in Hfit.
    assert (H1 : (1 <= h_pageNumber h)%Z).
    { destruct (numPages s); destruct Hinv as [_ Hall];
        rewrite Forall_forall in Hall; specialize (Hall h Hh);
        unfold inPageRange in *; lia. }
    unfold inPageRange. lia.
  - (* previousPage *)
    unfold page_inv in *. simpl.
    destruct (numPages s) as [n|] eqn:Hn; [|discriminate].
    destruct Hinv as [Hp Hh]. split; [|exact Hh].
    unfold inPageRange, JS.Math_minZ, JS.Math_maxZ, JS.ToNumberZ in *. lia.
  - (* nextPage *)
    unfold page_inv in *. simpl.
    destruct (numPages s) as [n|] eqn:Hn; [|discriminate].
    destruct Hinv as [Hp Hh]. split; [|exact Hh].
    unfold inPageRange, JS.Math_minZ, JS.Math_maxZ, JS.ToNumberZ in *. lia.
  - (* handleTextSelect *)
    destruct (captureGuards env s) as [[[t rect] c]|] eqn:G.
    + apply (page_inv_store s); try exact Hinv;
        try (unfold handleTextSelect; rewrite G; reflexivity).
      intros h Hh. rewrite (handleTextSelect_accepted _ _ _ _ _ G) in Hh.
      apply in_app_iff in Hh as [Hh | [<- | []]]; [now left | now right].
    + now rewrite handleTextSelect_rejected.
  - (* toggleHighlightMode *)
    apply (page_inv_cells s); try exact Hinv;
      unfold toggleHighlightMode; destruct (isSelecting s); reflexivity.
  - (* savePDF *)
    apply (page_inv_cells s); try exact Hinv;
      unfold savePDF; destruct (pdfBytes s); try reflexivity;
      destruct (exportBytes lib _ _); reflexivity.
  - (* downloadPDF *)
    apply (page_inv_cells s); try exact Hinv;
      unfold downloadPDF; destruct (file s); reflexivity.
  - (* removeHighlight *)
    destruct (nth_error (highlights s) k) as [h|]; [|exact Hinv].
    apply (page_inv_store s); try exact Hinv; try reflexivity.
    intros h' Hh. left. simpl in Hh. now apply filter_In in Hh.
  - (* navigation to a highlight *)
    destruct (nth_error (highlights s) k) as [h|] eqn:Hk; [|exact Hinv].
    apply nth_error_In in Hk.
    assert (E : page_inv (setPageNumber (fun _ => h_pageNumber h) s)).
    { unfold page_inv in *. simpl.
      destruct (numPages s); destruct Hinv as [Hp Hh]; (split; [|exact Hh]);
        rewrite Forall_forall in Hh; now apply Hh. }
    revert E. apply page_inv_cells;
      unfold navigateToHighlight; destruct anchor; reflexivity.
Qed.

(** *** The page range along a session *)

Lemma step_numPages lib s e :
  numPages (step lib s e) = numPages s
  \/ exists m, e = EDocumentLoadSuccess m /\ numPages (step lib s e) = Some m.
Proof.
  destruct e; simpl; try (now left).
  - left. unfold onFileChange. destruct selectedFile as [f|]; [|reflexivity].
    now destruct (String.eqb _ _).
  - right. now exists n.
  - left. unfold handleTextSelect. now destruct (captureGuards env s) as [[[t r] c]|].
  - left. unfold toggleHighlightMode. now destruct (isSelecting s).
  - left. unfold savePDF. destruct (pdfBytes s); [|reflexivity].
    now destruct (exportBytes lib _ _).
  - left. unfold downloadPDF. now destruct (file s).
  - left. now destruct (nth_error (highlights s) k).
  - left. destruct (nth_error (highlights s) k); [|reflexivity].
    unfold navigateToHighlight. now destruct anchor.
Qed.

(** The rendering layer reports at least one page, so a known page count
    is at least one. *)
Lemma run_numPages_pos lib es : forall s,
  valid_trace lib s es = true ->
  (forall n, numPages s = Some n -> (1 <= n)%Z) ->
  forall n, numPages (run lib s es) = Some n -> (1 <= n)%Z.
Proof.
  induction es as [|e es IH]; intros s Hv Hs n Hn; simpl in *; [now apply Hs|].
  apply andb_true_iff in Hv as [He Hv].
  apply (IH (step lib s e)); [exact Hv | | exact Hn].
  intros m Hm. destruct (step_numPages lib s e) as [E | (m' & -> & E)].
  - apply Hs. now rewrite <- E.
  - rewrite E in Hm. injection Hm as <-. simpl in He.
    destruct (file s); [now apply Z.leb_le | discriminate].
Qed.

(** [pageInRange] reads two cells of the state. *)
Lemma pageInRange_cells s s' :
  numPages s' = numPages s -> pageNumber s' = pageNumber s ->
  pageInRange s -> pageInRange s'.
Proof. unfold pageInRange. now intros -> ->. Qed.

(** An event the user interface can raise keeps the current page in the
    document, unless it is a navigation to a highlight outside it. *)
Lemma step_pageInRange lib s e :
  enabled s e = true -> navigatesOutside s e = false ->
  pageInRange s -> pageInRange (step lib s e).
Proof.
  intros Hen Hnav Hinv.
  destruct e; simpl in Hen |- *;
    try (apply (pageInRange_cells s); [reflexivity | reflexivity | exact Hinv]).
  - (* onFileChange *)
    apply (pageInRange_cells s); try exact Hinv;
      unfold onFileChange; destruct selectedFile as [f|]; try reflexivity;
      destruct (String.eqb _ _); reflexivity.
  - (* onDocumentLoadSuccess *)
    destruct (file s); [|discriminate]. apply Z.leb_le in Hen.
    unfold pageInRange, inPageRange. simpl. lia.
  - (* previousPage *)
    unfold pageInRange in *. simpl.
    destruct (numPages s) as [n|] eqn:Hn; [|discriminate].
    unfold inPageRange, JS.Math_minZ, JS.Math_maxZ, JS.ToNumberZ in *. lia.
  - (* nextPage *)
    unfold pageInRange in *. simpl.
    destruct (numPages s) as [n|] eqn:Hn; [|discriminate].
    unfold inPageRange, JS.Math_minZ, JS.Math_maxZ, JS.ToNumberZ in *. lia.
  - (* handleTextSelect *)
    apply (pageInRange_cells s); try exact Hinv;
      unfold handleTextSelect; now destruct (captureGuards env s) as [[[t r] c]|].
  - (* toggleHighlightMode *)
    apply (pageInRange_cells s); try exact Hinv;
      unfold toggleHighlightMode; destruct (isSelecting s); reflexivity.
  - (* savePDF *)
    apply (pageInRange_cells s); try exact Hinv;
      unfold savePDF; destruct (pdfBytes s); try reflexivity;
      destruct (exportBytes lib _ _); reflexivity.
  - (* downloadPDF *)
    apply (pageInRange_cells s); try exact Hinv;
      unfold downloadPDF; destruct (file s); reflexivity.
  - (* removeHighlight *)
    destruct (nth_error (highlights s) k) as [h|]; [|exact Hinv].
    apply (pageInRange_cells s); try exact Hinv; reflexivity.
  - (* navigation to a highlight *)
    unfold navigatesOutside in Hnav.
    destruct (nth_error (highlights s) k) as [h|] eqn:Hk; [|exact Hinv].
    assert (E : pageInRange (setPageNumber (fun _ => h_pageNumber h) s)).
    { unfold pageInRange in *. simpl.
      destruct (numPages s) as [n|]; [|exact I].
      apply negb_false_iff, andb_true_iff in Hnav as [H1 H2].
      apply Z.leb_le in H1, H2. now split. }
    revert E. apply pageInRange_cells;
      unfold navigateToHighlight; destruct anchor; reflexivity.
Qed.

Lemma run_pageInRange lib es : forall s,
  valid_trace lib s es = true -> navigations_fit lib s es = true ->
  pageInRange s -> pageInRange (run lib s es).
Proof.
  induction es as [|e es IH]; intros s Hv Hf Hinv; simpl; [exact Hinv|].
  simpl in Hv, Hf. apply andb_true_iff in Hv as [He Hv].
  apply andb_true_iff in Hf as [Hfe Hf]. apply negb_true_iff in Hfe.
  apply IH; [exact Hv | exact Hf |]. now apply step_pageInRange.
Qed.

(** A prefix of a session is a session. *)
Lemma valid_trace_firstn lib es : forall s k,
  valid_trace lib s es = true -> valid_trace lib s (firstn k es) = true.
Proof.
  induction es as [|e es IH]; intros s k Hv; [now destruct k|].
  destruct k as [|k]; [reflexivity|]. simpl in *.
  apply andb_true_iff in Hv as [He Hv]. rewrite He. simpl. now apply IH.
Qed.

Lemma navigations_fit_firstn lib es : forall s k,
  navigations_fit lib s es = true -> navigations_fit lib s (firstn k es) = true.
Proof.
  induction es as [|e es IH]; intros s k Hv; [now destruct k|].
  destruct k as [|k]; [reflexivity|]. simpl in *.
  apply andb_true_iff in Hv as [He Hv]. rewrite He. simpl. now apply IH.
Qed.

(** A navigation to a highlight outside the document puts the current
    page outside it. *)
Lemma navigatesOutside_leaves lib s e :
  navigatesOutside s e = true -> ~ pageInRange (step lib s e).
Proof.
  unfold navigatesOutside. destruct e; try discriminate.
  destruct (numPages s) as [n|] eqn:Hn; [|discriminate].
  simpl. destruct (nth_error (highlights s) k) as [h|]; [|discriminate].
  intros Hout Hin. apply negb_true_iff in Hout.
  assert (E : pageInRange (setPageNumber (fun _ => h_pageNumber h) s)).
  { revert Hin. apply pageInRange_cells;
      unfold navigateToHighlight; destruct anchor; reflexivity. }
  unfold pageInRange in E. simpl in E. rewrite Hn in E. destruct E as [H1 H2].
  apply Z.leb_le in H1, H2. rewrite H1, H2 in Hout. discriminate.
Qed.

Lemma prefixes_in_range_fit lib es : forall s,
  (forall k, pageInRange (run lib s (firstn k es))) ->
  navigations_fit lib s es = true.
Proof.
  induction es as [|e es IH]; intros s H; [reflexivity|]. simpl.
  apply andb_true_iff. split.
  - destruct (navigatesOutside s e) eqn:N; [|reflexivity]. exfalso.
    apply (navigatesOutside_leaves lib s e N). exact (H 1%nat).
  - apply IH. intros k. exact (H (S k)).
Qed.

(** C6 (as the code has it).  Take any session of events the user
    interface can raise, and let a document of [n] pages be loaded in the
    state it reaches.  Then [n] is at least one and
    - a page change by any offset never fails and lands on the target
      [pageNumber + offset] clamped into [1, n];
    - navigating to a highlight sets the current page to the page number
      of that highlight, whatever it is, and keeps the page count;
    - a newly rendered document sets the current page to 1;
    - the current page has been in the loaded document after every
      event of the session exactly when no navigation of the session went
      to a highlight whose page number was outside the document loaded at
      that moment; in particular the current page is then in [1, n]. *)
Theorem C6_current_page_range (lib : PdfLib) (es : list Event) (n : Z) :
  valid_trace lib initial es = true ->
  numPages (run lib initial es) = Some n ->
  (1 <= n)%Z
  /\ (forall offset,
        inPageRange n (pageNumber (changePage offset (run lib initial es)))
        /\ pageNumber (changePage offset (run lib initial es))
           = Z.min (Z.max 1 (pageNumber (run lib initial es) + offset)) n)
  /\ (forall h anchor,
        pageNumber (navigateToHighlight h anchor (run lib initial es)) = h_pageNumber h
        /\ numPages (navigateToHighlight h anchor (run lib initial es)) = Some n)
  /\ (forall m, pageNumber (onDocumentLoadSuccess m (run lib initial es)) = 1%Z)
  /\ ((forall k, pageInRange (run lib initial (firstn k es)))
      <-> navigations_fit lib initial es = true)
  /\ (navigations_fit lib initial es = true ->
      inPageRange n (pageNumber (run lib initial es))).
Proof.
  intros Hv Hn.
  assert (H1 : (1 <= n)%Z).
  { apply (run_numPages_pos lib es initial Hv); [discriminate | exact Hn]. }
  assert (Hfit : navigations_fit lib initial es = true ->
                 forall k, pageInRange (run lib initial (firstn k es))).
  { intros Hf k. apply run_pageInRange.
    - now apply valid_trace_firstn.
    - now apply navigations_fit_firstn.
    - exact I. }
  split; [exact H1|]. split; [|split; [|split; [|split]]].
  - intros offset. split; [now apply changePage_in_range|].
    now rewrite pageNumber_changePage, Hn.
  - intros h anchor. unfold navigateToHighlight. now destruct anchor.
  - reflexivity.
  - split; [apply prefixes_in_range_fit | exact Hfit].
  - intros Hf. specialize (Hfit Hf (List.length es)).
    rewrite firstn_all in Hfit. unfold pageInRange in Hfit. now rewrite Hn in Hfit.
Qed.

(** The five-page session ends on page 3, where the clamp sends a target
    of 99 to page 5 and a target of 0 to page 1.  And the session that
    removes the highlight of page 7 after a three-page document is loaded
    over a ten-page one never leaves the loaded document. *)
Lemma C6_current_page_range_witness :
  let s := run lib_ok initial trace_five_pages in
  pageNumber s = 3%Z
  /\ inPageRange 5 (pageNumber s)
  /\ pageNumber (changePage (99 - 3) s) = 5%Z
  /\ pageNumber (changePage (0 - 3) s) = 1%Z
  /\ (forall offset, inPageRange 5 (pageNumber (changePage offset s)))
  /\ (forall k, pageInRange (run lib_ok initial (firstn k trace_stale_removed)))
  /\ inPageRange 3 (pageNumber (run lib_ok initial trace_stale_removed)).
Proof.
  intros s.
  assert (Hv : valid_trace lib_ok initial trace_five_pages = true)
    by (vm_compute; reflexivity).
  assert (Hn : numPages (run lib_ok initial trace_five_pages) = Some 5%Z)
    by (vm_compute; reflexivity).
  assert (Hf : navigations_fit lib_ok initial trace_five_pages = true)
    by (vm_compute; reflexivity).
  assert (Hv' : valid_trace lib_ok initial trace_stale_removed = true)
    by (vm_compute; reflexivity).
  assert (Hn' : numPages (run lib_ok initial trace_stale_removed) = Some 3%Z)
    by (vm_compute; reflexivity).
  assert (Hf' : navigations_fit lib_ok initial trace_stale_removed = true)
    by (vm_compute; reflexivity).
  destruct (C6_current_page_range lib_ok trace_five_pages 5 Hv Hn)
    as (_ & Hc & _ & _ & _ & Hp).
  destruct (C6_current_page_range lib_ok trace_stale_removed 3 Hv' Hn')
    as (_ & _ & _ & _ & Hiff & Hp').
  split; [vm_compute; reflexivity|]. split; [exact (Hp Hf)|].
  split; [vm_compute; reflexivity|]. split; [vm_compute; reflexivity|].
  split; [intros offset; apply Hc|].
  split; [apply Hiff; exact Hf' | exact (Hp' Hf')].
Defined.

(** The clamp on a five-page document: from page 1, a target of 99
    gives page 5 and a target of 0 gives page 1. *)
Example page_clamp_5 :
  let s := run lib_ok initial
             [EFileChange (Some fivePdf); EReaderLoad fiveBytes;
              EDocumentLoadSuccess 5] in
  pageNumber s = 1%Z
  /\ pageNumber (changePage 98 s) = 5%Z
  /\ pageNumber (changePage (-1) s) = 1%Z.
Proof. repeat split. Qed.

(** C6, as claimed, fails: a highlight made on page 7 of a ten-page
    document is kept when a three-page document is loaded, and a click on
    it in the sidebar, a navigation outside the loaded document, sets the
    current page to 7. *)
Lemma C6_counterexample :
  let s := run lib_ok initial trace_stale_highlight in
  valid_trace lib_ok initial trace_stale_highlight = true
  /\ navigations_fit lib_ok initial trace_stale_highlight = false
  /\ file s = Some otherPdf
  /\ numPages s = Some 3%Z
  /\ pageNumber s = 7%Z
  /\ ~ inPageRange 3 (pageNumber s).
Proof.
  intros s. repeat split; try (vm_compute; reflexivity).
  vm_compute. intros [_ H]. apply H. reflexivity.
Qed.

(** ** Capture and overlay at a scale *)

(** The overlay multiplies each field of a stored position by the scale. *)
Lemma overlayStyle_scales (p : Position) (scale : Q) :
  rect_x (overlayStyle p scale) == x p * scale
  /\ rect_y (overlayStyle p scale) == y p * scale
  /\ rect_width (overlayStyle p scale) == width p * scale
  /\ rect_height (overlayStyle p scale) == height p * scale.
Proof. simpl. repeat split; reflexivity. Qed.

(** The captured position is the selection rectangle relative to the
    container, in the pixels it was measured in, for a selection that is
    not left of or above the container. *)
Lemma capturePosition_relative (rect containerRect : DOMRect) :
  rect_x containerRect <= rect_x rect ->
  rect_y containerRect <= rect_y rect ->
  Position_eq (capturePosition rect containerRect)
    (mkPosition (rect_x rect - rect_x containerRect) (rect_y rect - rect_y containerRect)
       (rect_width rect) (rect_height rect)).
Proof.
  intros Hx Hy. unfold Position_eq, capturePosition, JS.Math_max; simpl.
  repeat split; try reflexivity; apply Q.max_r; lra.
Qed.

(** The scale of the state plays no part in what a capture stores. *)
Lemma handleTextSelect_ignores_scale env s q :
  highlights (handleTextSelect env (setScale (fun _ => q) s))
  = highlights (handleTextSelect env s).
Proof.
  unfold handleTextSelect.
  change (captureGuards env (setScale (fun _ => q) s)) with (captureGuards env s).
  now destruct (captureGuards env s) as [[[t rect] c]|].
Qed.

(** Capturing what the overlay shows, with the container at the origin,
    gives the position multiplied by the scale. *)
Lemma capture_of_overlay (r : Position) (scale : Q) :
  0 <= x r -> 0 <= y r -> 0 <= scale ->
  Position_eq (capturePosition (overlayStyle r scale) origin0)
    (mkPosition (x r * scale) (y r * scale) (width r * scale) (height r * scale)).
Proof.
  intros Hx Hy Hs. unfold Position_eq, capturePosition, JS.Math_max; simpl.
  repeat split; try reflexivity; (rewrite Q.max_r; [ring | nra]).
Qed.

(** At scale 1 the round trip through the overlay is the identity. *)
Lemma capture_of_overlay_scale_1 (r : Position) :
  0 <= x r -> 0 <= y r ->
  Position_eq (capturePosition (overlayStyle r 1) origin0) r.
Proof.
  intros Hx Hy. unfold Position_eq, capturePosition, JS.Math_max; simpl.
  repeat split; try ring; rewrite Q.max_r; lra.
Qed.

(** The scenario of a capture at scale 1 and its overlay at scale 2. *)
Example capture_then_overlay :
  let p := capturePosition (range0_rect selA) containerA in
  Position_eqb p (mkPosition 100 200 40 12) = true
  /\ DOMRect_eqb (overlayStyle p 2) (mkDOMRect 200 400 80 24) = true.
Proof. split; reflexivity. Qed.

Lemma Position_eqb_iff (p q : Position) : Position_eqb p q = true <-> Position_eq p q.
Proof.
  unfold Position_eqb, Position_eq.
  rewrite !andb_true_iff, !Qeq_bool_iff. tauto.
Qed.

(** C1 (the code at scale 3).  On a page rendered at scale 3, the
    selection that covers the 40 by 12 page-space rectangle at (100, 200)
    measures 120 by 36 pixels at (300, 600) from the container.  The
    capture stores that pixel rectangle as it is, not divided by the
    scale, and the overlay, which multiplies the stored position by the
    scale, then shows it at (900, 1800), 360 by 108, away from the
    selection. *)
Theorem C1_capture_at_scale_3 :
  let s := run lib_ok initial trace_zoomed_capture in
  valid_trace lib_ok initial trace_zoomed_capture = true
  /\ scale s == 3
  /\ map (fun h => Position_eqb (position h) (mkPosition 300 600 120 36)) (highlights s)
     = [true]
  /\ map (fun h => Position_eqb (position h) (mkPosition 100 200 40 12)) (highlights s)
     = [false]
  /\ map (fun h => DOMRect_eqb (overlayStyle (position h) (scale s))
                     (mkDOMRect 900 1800 360 108)) (highlights s)
     = [true].
Proof.
  intros s. repeat split; vm_compute; reflexivity.
Qed.

(** C4 (the code at scale 3).  The overlay multiplies the four fields
    of the page-space rectangle (100, 200, 40, 12) by 3; capturing that
    screen rectangle at the same scale, container at the origin, gives
    (300, 600, 120, 36) and not the rectangle started from. *)
Theorem C4_round_trip_at_scale_3 :
  let r := mkPosition 100 200 40 12 in
  DOMRect_eqb (overlayStyle r 3) (mkDOMRect 300 600 120 36) = true
  /\ Position_eqb (capturePosition (overlayStyle r 3) origin0)
       (mkPosition 300 600 120 36) = true
  /\ Position_eqb (capturePosition (overlayStyle r 3) origin0) r = false
  /\ ~ Position_eq (capturePosition (overlayStyle r 3) origin0) r.
Proof.
  intros r. split; [reflexivity|]. split; [reflexivity|]. split; [reflexivity|].
  rewrite <- Position_eqb_iff. vm_compute. discriminate.
Qed.

(** * Further properties of the component *)

(** ** Selection capture: acceptance *)

Lemma captureGuards_accepts env s containerRect :
  isSelecting s = true ->
  JS.trim (sel_toString (selection env)) <> "" ->
  rangeCount (selection env) <> 0%nat ->
  container env = Some containerRect ->
  5 <= rect_width (range0_rect (selection env)) ->
  5 <= rect_height (range0_rect (selection env)) ->
  captureGuards env s
  = Some (JS.trim (sel_toString (selection env)), range0_rect (selection env),
          containerRect).
Proof.
  intros Hs Ht Hr Hc Hw Hh. unfold captureGuards. rewrite Hs, Hc. simpl.
  apply String.eqb_neq in Ht. rewrite Ht.
  apply Nat.eqb_neq in Hr. rewrite Hr.
  apply lt_false_iff in Hw, Hh. now rewrite Hw, Hh.
Qed.

Lemma length_snoc {A} (l : list A) (a : A) : List.length (l ++ [a]) = S (List.length l).
Proof. rewrite length_app. simpl. lia. Qed.

(** X1.  A mouse-up adds a highlight exactly when highlight mode is on,
    the trimmed selection text is not empty, the selection has a range,
    the container is mounted and the selection rectangle is at least 5 by
    5 pixels.  It then appends one highlight at the end of the store,
    made of the trimmed text, the current page, the current colour and
    the container-relative rectangle, records the text as the selected
    text and raises one toast; the page, the scale, the mode, the colour,
    the file and the downloads are as before. *)
Theorem capture_exactly_when (env : CaptureEnv) (s : State) :
  (List.length (highlights (handleTextSelect env s)) = S (List.length (highlights s))
   <-> isSelecting s = true
       /\ JS.trim (sel_toString (selection env)) <> ""
       /\ rangeCount (selection env) <> 0%nat
       /\ container env <> None
       /\ 5 <= rect_width (range0_rect (selection env))
       /\ 5 <= rect_height (range0_rect (selection env)))
  /\ (forall containerRect,
        container env = Some containerRect ->
        List.length (highlights (handleTextSelect env s)) = S (List.length (highlights s)) ->
        highlights (handleTextSelect env s)
        = (highlights s
           ++ [mkHighlight (next_obj s)
                 (JS.add (inject_Z (Date_now env)) (Math_random env))
                 (JS.trim (sel_toString (selection env))) (pageNumber s)
                 (highlightColor s)
                 (capturePosition (range0_rect (selection env)) containerRect)])%list
        /\ selectedText (handleTextSelect env s) = JS.trim (sel_toString (selection env))
        /\ toasts (handleTextSelect env s)
           = (toasts s ++ [toast_success "Text highlighted!"])%list
        /\ pageNumber (handleTextSelect env s) = pageNumber s
        /\ scale (handleTextSelect env s) = scale s
        /\ isSelecting (handleTextSelect env s) = isSelecting s
        /\ highlightColor (handleTextSelect env s) = highlightColor s
        /\ file (handleTextSelect env s) = file s
        /\ downloads (handleTextSelect env s) = downloads s).
Proof.
  assert (Hiff : List.length (highlights (handleTextSelect env s))
                 = S (List.length (highlights s))
                 <-> exists t rect c, captureGuards env s = Some (t, rect, c)).
  { destruct (captureGuards env s) as [[[t rect] c]|] eqn:G.
    - rewrite (handleTextSelect_accepted _ _ _ _ _ G), length_snoc.
      split; [intros _; now exists t, rect, c | reflexivity].
    - rewrite (handleTextSelect_rejected _ _ G).
      split; [lia | intros (t & rect & c & H); discriminate]. }
  split.
  - rewrite Hiff. split.
    + intros (t & rect & c & G).
      apply captureGuards_Some in G as (Hs & Ht & Hne & Hr & Hrect & Hc & Hw & Hh).
      subst t rect. rewrite Hc. repeat split; auto. discriminate.
    + intros (Hs & Ht & Hr & Hc & Hw & Hh).
      destruct (container env) as [c|] eqn:Ec; [|now contradiction Hc].
      eexists _, _, c. now apply captureGuards_accepts.
  - intros c Hc Hlen. apply Hiff in Hlen as (t & rect & c' & G).
    pose proof (captureGuards_Some _ _ _ _ _ G)
      as (Hs & Ht & Hne & Hr & Hrect & Hc' & Hw & Hh).
    rewrite Hc in Hc'. injection Hc' as <-. subst t rect.
    unfold handleTextSelect. rewrite G. simpl. auto 10.
Qed.

(** The selection [selA] in highlight mode. *)
Lemma capture_exactly_when_witness :
  let s := setIsSelecting true initial in
  List.length (highlights (handleTextSelect envA s)) = 1%nat
  /\ highlights (handleTextSelect envA s)
     = [mkHighlight 0 (JS.add (inject_Z 1700000000000) 0.5) "annual results" 1 "#FFFF00"
          (capturePosition (mkDOMRect 110 210 40 12) containerA)]
  /\ selectedText (handleTextSelect envA s) = "annual results".
Proof.
  intros s.
  destruct (capture_exactly_when envA s) as [Hiff Hacc].
  assert (Hlen : List.length (highlights (handleTextSelect envA s))
                 = S (List.length (highlights s))).
  { apply Hiff. vm_compute. repeat split; discriminate. }
  destruct (Hacc containerA eq_refl Hlen) as (Hh & Ht & _).
  split; [exact Hlen|]. split; [exact Hh | exact Ht].
Defined.

(** ** Removal of a highlight *)

Lemma filter_id_absent (i : Q) (hs : list Highlight) :
  (forall h, In h hs -> ~ id h == i) ->
  filter (fun h => negb (Qeq_bool (id h) i)) hs = hs.
Proof.
  induction hs as [|h rest IH]; intros Habs; simpl; [reflexivity|].
  destruct (Qeq_bool (id h) i) eqn:E; simpl.
  - exfalso. apply (Habs h); [now left | now apply Qeq_bool_iff].
  - f_equal. apply IH. intros h' Hin. apply Habs. now right.
Qed.

Lemma filter_id_gone (i : Q) (hs : list Highlight) :
  forall h, In h (filter (fun h => negb (Qeq_bool (id h) i)) hs) -> ~ id h == i.
Proof.
  intros h Hin E. apply filter_In in Hin as [_ Hb].
  apply Qeq_bool_iff in E. rewrite E in Hb. discriminate.
Qed.

(** X2.  [removeHighlight] with an id no stored highlight has leaves the
    store as it is, and still raises the toast 'Highlight removed'.  After
    a removal no highlight with the removed id is left, so removing the
    same id again changes nothing in the store; what is left keeps the
    order it had. *)
Theorem removeHighlight_absent_and_twice (i : Q) (s : State) :
  ((forall h, In h (highlights s) -> ~ id h == i) ->
     highlights (removeHighlight i s) = highlights s
     /\ toasts (removeHighlight i s) = (toasts s ++ [toast_info "Highlight removed"])%list)
  /\ (forall h, In h (highlights (removeHighlight i s)) -> In h (highlights s) /\ ~ id h == i)
  /\ highlights (removeHighlight i (removeHighlight i s)) = highlights (removeHighlight i s)
  /\ (forall h, In h (highlights s) -> ~ id h == i -> In h (highlights (removeHighlight i s))).
Proof.
  split; [|split; [|split]].
  - intros Habs. simpl. split; [now apply filter_id_absent | reflexivity].
  - intros h Hin. split.
    + simpl in Hin. now apply filter_In in Hin.
    + now apply (filter_id_gone i (highlights s)).
  - change (highlights (removeHighlight i (removeHighlight i s)))
      with (filter (fun h => negb (Qeq_bool (id h) i)) (highlights (removeHighlight i s))).
    apply filter_id_absent. intros h Hin.
    now apply (filter_id_gone i (highlights s)).
  - intros h Hin Hne. simpl. apply filter_In. split; [exact Hin|].
    apply negb_true_iff. apply not_true_iff_false. intros E.
    apply Hne. now apply Qeq_bool_iff.
Qed.

(** Removing, from the two-page session, an id that was never issued. *)
Lemma removeHighlight_absent_and_twice_witness :
  let s := run lib_ok initial trace_two_pages in
  List.length (highlights s) = 2%nat
  /\ highlights (removeHighlight 42 s) = highlights s
  /\ toasts (removeHighlight 42 s) = (toasts s ++ [toast_info "Highlight removed"])%list.
Proof.
  intros s. split; [vm_compute; reflexivity|].
  destruct (removeHighlight_absent_and_twice 42 s) as [Habs _].
  apply Habs. intros h Hin E.
  assert (B : forallb (fun h => negb (Qeq_bool (id h) 42)) (highlights s) = true)
    by (vm_compute; reflexivity).
  rewrite forallb_forall in B. specialize (B h Hin).
  apply Qeq_bool_iff in E. rewrite E in B. discriminate.
Defined.

Lemma filter_id_nth (hs : list Highlight) : forall k h,
  ids_distinct hs -> nth_error hs k = Some h ->
  filter (fun h' => negb (Qeq_bool (id h') (id h))) hs
  = (firstn k hs ++ skipn (S k) hs)%list.
Proof.
  unfold ids_distinct.
  induction hs as [|h0 rest IH]; intros k h Hnd Hk.
  - destruct k; discriminate.
  - simpl in Hnd. inversion Hnd as [|a l Hnotin Hnd']; subst.
    destruct k as [|k]; simpl in Hk.
    + injection Hk as ->. simpl.
      assert (E : Qeq_bool (id h) (id h) = true) by (apply Qeq_bool_iff; reflexivity).
      rewrite E. simpl. apply filter_id_absent.
      intros h' Hin Eq. apply Hnotin. apply InA_ids. exists h'. now split.
    + simpl. destruct (Qeq_bool (id h0) (id h)) eqn:E; simpl.
      * exfalso. apply Hnotin. apply InA_ids. exists h. split.
        -- eapply nth_error_In; eauto.
        -- symmetry. now apply Qeq_bool_iff.
      * f_equal. now apply IH.
Qed.

(** X3.  While the ids of the store are pairwise distinct, a click on
    the [k]-th highlight removes that highlight and no other: the store
    becomes the highlights before it followed by the highlights after it,
    in the same order, one shorter. *)
Theorem remove_click_removes_one (lib : PdfLib) (s : State) (k : nat) (h : Highlight) :
  ids_distinct (highlights s) ->
  nth_error (highlights s) k = Some h ->
  highlights (step lib s (ERemoveHighlight k))
  = (firstn k (highlights s) ++ skipn (S k) (highlights s))%list
  /\ S (List.length (highlights (step lib s (ERemoveHighlight k))))
     = List.length (highlights s).
Proof.
  intros Hnd Hk. simpl. rewrite Hk. simpl.
  rewrite (filter_id_nth _ k h Hnd Hk). split; [reflexivity|].
  rewrite length_app, length_firstn, length_skipn.
  assert (k < List.length (highlights s))%nat by (apply nth_error_Some; congruence).
  lia.
Qed.

(** The first of the two highlights of the two-page session is removed. *)
Lemma remove_click_removes_one_witness :
  let s := run lib_ok initial trace_two_pages in
  map obj (highlights s) = [0%nat; 1%nat]
  /\ map obj (highlights (step lib_ok s (ERemoveHighlight 0))) = [1%nat]
  /\ S (List.length (highlights (step lib_ok s (ERemoveHighlight 0))))
     = List.length (highlights s).
Proof.
  intros s. split; [vm_compute; reflexivity|].
  destruct (nth_error (highlights s) 0) as [h|] eqn:Hk;
    [|vm_compute in Hk; discriminate].
  assert (Hnd : ids_distinct (highlights s)).
  { unfold ids_distinct. remember (map id (highlights s)) as ids eqn:M.
    vm_compute in M. subst ids. constructor; [|constructor; [|constructor]].
    - intros H. inversion H as [a l E | a l H']; subst.
      + vm_compute in E. discriminate.
      + inversion H'.
    - intros H. inversion H. }
  destruct (remove_click_removes_one lib_ok s 0 h Hnd Hk) as [Heq Hlen].
  split; [vm_compute; reflexivity | exact Hlen].
Defined.

(** ** Overlays and sidebar *)

Lemma filter_split_perm {A} (a b c : A -> bool) (l : list A) :
  (forall x, c x = (a x || b x)%bool) ->
  (forall x, (a x && b x)%bool = false) ->
  Permutation (filter a l ++ filter b l) (filter c l).
Proof.
  intros Hc Hab. induction l as [|x l IH]; simpl; [constructor|].
  rewrite Hc. specialize (Hab x).
  destruct (a x), (b x); simpl in *; try discriminate.
  - now constructor.
  - apply Permutation_sym. apply Permutation_cons_app.
    now apply Permutation_sym.
  - exact IH.
Qed.

(** The highlights of the pages 1 to [n], page after page, are the
    highlights whose page number is between 1 and [n], each once. *)
Lemma pages_partition (hs : list Highlight) (n : nat) :
  Permutation
    (flat_map (fun p => filter (fun h => (h_pageNumber h =? p)%Z) hs)
       (map (fun idx => (Z.of_nat idx + 1)%Z) (seq 0 n)))
    (filter (fun h => ((1 <=? h_pageNumber h) && (h_pageNumber h <=? Z.of_nat n))%Z) hs).
Proof.
  induction n as [|n IH].
  - simpl. rewrite (filter_ext _ (fun _ => false)).
    + induction hs; simpl; auto.
    + intros h. destruct (1 <=? h_pageNumber h)%Z eqn:E1; simpl; [|reflexivity].
      apply Z.leb_le in E1. apply Z.leb_gt. lia.
  - rewrite seq_S, map_app, flat_map_app. simpl. rewrite app_nil_r.
    eapply Permutation_trans; [apply Permutation_app_tail; exact IH|].
    apply filter_split_perm.
    + intros h.
      destruct (1 <=? h_pageNumber h)%Z eqn:E1;
        destruct (h_pageNumber h <=? Z.of_nat n)%Z eqn:E2;
        destruct (h_pageNumber h =? Z.of_nat n + 1)%Z eqn:E3;
        destruct (h_pageNumber h <=? Z.of_nat (S n))%Z eqn:E4; simpl; try reflexivity;
        rewrite ?Z.leb_le, ?Z.leb_gt, ?Z.eqb_eq, ?Z.eqb_neq in *; lia.
    + intros h.
      destruct (1 <=? h_pageNumber h)%Z eqn:E1;
        destruct (h_pageNumber h <=? Z.of_nat n)%Z eqn:E2;
        destruct (h_pageNumber h =? Z.of_nat n + 1)%Z eqn:E3; simpl; try reflexivity;
        rewrite ?Z.leb_le, ?Z.leb_gt, ?Z.eqb_eq, ?Z.eqb_neq in *; lia.
Qed.

(** X4.  Over the page list the component hands to [Document] when it
    holds a file (the pages 1 to [numPages || 0]), the per-page overlay
    lists hold every highlight whose page number is one of those pages
    exactly once, and no other highlight; within a page they come in
    store order.  A highlight whose page number is not in the page list
    (one kept from a longer document) is overlaid on no page, while the
    sidebar still lists it: the sidebar lists the whole store. *)
Theorem overlays_partition_store (s : State) :
  Permutation (flat_map (fun p => highlightsOnPage p s) (pageIndices s))
    (filter (onRenderedPage s) (highlights s))
  /\ (forall p, overlaysOnPage p s
               = map (fun h => mkOverlay (id h) (overlayStyle (position h) (scale s)) (color h))
                   (filter (fun h => (h_pageNumber h =? p)%Z) (highlights s)))
  /\ (forall h p, onRenderedPage s h = false -> In p (pageIndices s) ->
                  ~ In h (highlightsOnPage p s))
  /\ (forall h, In h (highlights s) ->
                exists n, sidebar s = Some (n, highlights s) /\ n = List.length (highlights s)).
Proof.
  split; [|split; [|split]].
  - unfold highlightsOnPage, pageIndices.
    eapply Permutation_trans; [apply pages_partition|].
    rewrite (filter_ext _ (onRenderedPage s)); [reflexivity|].
    intros h. unfold onRenderedPage.
    destruct (1 <=? h_pageNumber h)%Z eqn:E1; simpl; [|reflexivity].
    apply Z.leb_le in E1.
    destruct (h_pageNumber h <=? JS.ToNumberZ (numPages s))%Z eqn:E2.
    + apply Z.leb_le in E2. apply Z.leb_le. lia.
    + apply Z.leb_gt in E2. apply Z.leb_gt. lia.
  - reflexivity.
  - intros h p Hout Hp Hin. unfold highlightsOnPage in Hin.
    apply filter_In in Hin as [_ Hpage]. apply Z.eqb_eq in Hpage.
    unfold pageIndices in Hp. apply in_map_iff in Hp as (idx & <- & Hidx).
    apply in_seq in Hidx. unfold onRenderedPage in Hout.
    apply andb_false_iff in Hout as [H | H]; apply Z.leb_gt in H; lia.
  - intros h Hin. unfold sidebar.
    destruct (highlights s) as [|h0 rest]; [destruct Hin|].
    simpl. eexists. split; reflexivity.
Qed.

(** After the three-page document replaced the ten-page one, the
    highlight of page 7 is in the sidebar and on none of the three
    pages. *)
Lemma overlays_partition_store_witness :
  let s := run lib_ok initial trace_stale_highlight in
  pageIndices s = [1%Z; 2%Z; 3%Z]
  /\ map h_pageNumber (highlights s) = [7%Z]
  /\ (forall h p, In h (highlights s) -> In p (pageIndices s) ->
                  ~ In h (highlightsOnPage p s))
  /\ sidebar s = Some (1%nat, highlights s).
Proof.
  intros s. split; [vm_compute; reflexivity|]. split; [vm_compute; reflexivity|].
  destruct (overlays_partition_store s) as (_ & _ & Hout & Hside).
  split.
  - intros h p Hh Hp. apply Hout; [|exact Hp].
    assert (B : forallb (fun h => negb (onRenderedPage s h)) (highlights s) = true)
      by (vm_compute; reflexivity).
    rewrite forallb_forall in B. specialize (B h Hh).
    now apply negb_true_iff in B.
  - vm_compute. reflexivity.
Defined.

(** ** The scale in every state *)

(** Only the zoom buttons write the scale. *)
Lemma step_scale lib s e :
  e <> EZoomIn -> e <> EZoomOut -> scale (step lib s e) = scale s.
Proof.
  intros Hin Hout. destruct e; simpl; try reflexivity; try congruence.
  - unfold onFileChange. destruct selectedFile as [f|]; [|reflexivity].
    now destruct (String.eqb _ _).
  - unfold handleTextSelect. now destruct (captureGuards env s) as [[[t r] c]|].
  - unfold toggleHighlightMode. now destruct (isSelecting s).
  - unfold savePDF. destruct (pdfBytes s); [|reflexivity].
    now destruct (exportBytes lib _ _).
  - unfold downloadPDF. now destruct (file s).
  - now destruct (nth_error (highlights s) k).
  - destruct (nth_error (highlights s) k); [|reflexivity].
    unfold navigateToHighlight. now destruct anchor.
Qed.

Lemma Qeq_refl_eq (p q : Q) : p = q -> p == q.
Proof. now intros ->. Qed.

(** A zoom step and the label read the number the scale is. *)
Lemma zoomIn_comp (s : State) (q : Q) :
  scale s == q -> scale (zoomIn s) = scale (zoomIn (atScale q)).
Proof.
  intros E. rewrite !scale_zoomIn. unfold JS.add.
  now rewrite (binary64_comp (scale s + JS.lit 0.2) (scale (atScale q) + JS.lit 0.2))
    by (simpl; now rewrite E).
Qed.

Lemma zoomOut_comp (s : State) (q : Q) :
  scale s == q -> scale (zoomOut s) = scale (zoomOut (atScale q)).
Proof.
  intros E. rewrite !scale_zoomOut. unfold JS.sub.
  now rewrite (binary64_comp (scale s - JS.lit 0.2) (scale (atScale q) - JS.lit 0.2))
    by (simpl; now rewrite E).
Qed.

Lemma zoomLabel_comp (s : State) (q : Q) :
  scale s == q -> zoomLabel s = zoomLabel (atScale q).
Proof.
  intros E. unfold zoomLabel, JS.mul.
  now rewrite (binary64_comp (scale s * 100) (scale (atScale q) * 100))
    by (simpl; now rewrite E).
Qed.

Lemma memQ_InA (q : Q) (l : list Q) : memQ q l = true <-> InA Qeq q l.
Proof.
  unfold memQ. rewrite existsb_exists, InA_alt.
  split; intros (x & H1 & H2); exists x.
  - split; [now apply Qeq_bool_iff | exact H1].
  - split; [exact H2 | now apply Qeq_bool_iff].
Qed.

(** A zoom step from one of the listed scales gives a listed scale. *)
Lemma zoomScales_closed (q : Q) :
  In q zoomScales ->
  InA Qeq (scale (zoomIn (atScale q))) zoomScales
  /\ InA Qeq (scale (zoomOut (atScale q))) zoomScales.
Proof.
  assert (B : forallb (fun q => memQ (scale (zoomIn (atScale q))) zoomScales
                                && memQ (scale (zoomOut (atScale q))) zoomScales)
                zoomScales = true) by (vm_compute; reflexivity).
  rewrite forallb_forall in B. intros Hq. specialize (B q Hq).
  apply andb_true_iff in B as [B1 B2]. split; now apply memQ_InA.
Qed.

Lemma step_zoomScales lib s e :
  InA Qeq (scale s) zoomScales -> InA Qeq (scale (step lib s e)) zoomScales.
Proof.
  intros H. pose proof H as H'. apply InA_alt in H' as (q & E & Hq).
  assert (Din : {e = EZoomIn} + {e <> EZoomIn})
    by (destruct e; (now left) || (right; discriminate)).
  assert (Dout : {e = EZoomOut} + {e <> EZoomOut})
    by (destruct e; (now left) || (right; discriminate)).
  destruct Din as [-> | Hin]; [|destruct Dout as [-> | Hout]].
  - change (step lib s EZoomIn) with (zoomIn s).
    rewrite (zoomIn_comp s q E). exact (proj1 (zoomScales_closed _ Hq)).
  - change (step lib s EZoomOut) with (zoomOut s).
    rewrite (zoomOut_comp s q E). exact (proj2 (zoomScales_closed _ Hq)).
  - now rewrite step_scale.
Qed.

(** Whatever the session, the scale is one of the listed scales. *)
Lemma run_zoomScales lib es : forall s,
  InA Qeq (scale s) zoomScales -> InA Qeq (scale (run lib s es)) zoomScales.
Proof.
  induction es as [|e es IH]; intros s H; simpl; [exact H|].
  apply IH. now apply step_zoomScales.
Qed.

Lemma reachable_zoomScales lib es : InA Qeq (scale (run lib initial es)) zoomScales.
Proof. apply run_zoomScales. apply memQ_InA. vm_compute. reflexivity. Qed.

(** So what a computation finds of every listed scale holds of the state
    brought to any scale a session reaches. *)
Lemma reachable_scale_check (P : State -> bool) lib es :
  forallb (fun q => P (atScale q)) zoomScales = true ->
  exists q, scale (run lib initial es) == q /\ P (atScale q) = true.
Proof.
  intros B. rewrite forallb_forall in B.
  destruct (proj1 (InA_alt _ _ _) (reachable_zoomScales lib es)) as (q & E & Hq).
  exists q. split; [exact E | now apply B].
Qed.

(** X5.  Whatever the session, the scale is one of 38 doubles between
    0.5 and 3.0, each within two to the power -50 of a tenth [k / 10]
    with [k] from 5 to 30; the zoom label of the toolbar shows [10 k]
    percent, a multiple of 10 from 50 to 300, and a zoom step moves the
    label by 20 points, held at 300 and at 50. *)
Theorem scale_label_in_every_state (lib : PdfLib) (es : list Event) :
  let s := run lib initial es in
  InA Qeq (scale s) zoomScales
  /\ List.length zoomScales = 38%nat
  /\ 0.5 <= scale s <= 3.0
  /\ (exists k, (5 <= k <= 30)%Z
        /\ zoomLabel s = (10 * k)%Z
        /\ Qabs (scale s - inject_Z k / 10) <= 1 # 1125899906842624)
  /\ zoomLabel (zoomIn s) = Z.min (zoomLabel s + 20) 300
  /\ zoomLabel (zoomOut s) = Z.max (zoomLabel s - 20) 50.
Proof.
  intros s.
  pose (P := fun t : State =>
    (Qle_bool 0.5 (scale t) && Qle_bool (scale t) 3.0
     && (zoomLabel t mod 10 =? 0)%Z && (50 <=? zoomLabel t)%Z
     && (zoomLabel t <=? 300)%Z
     && Qle_bool (Qabs (scale t - inject_Z (zoomLabel t / 10) / 10))
          (1 # 1125899906842624)
     && (zoomLabel (zoomIn t) =? Z.min (zoomLabel t + 20) 300)%Z
     && (zoomLabel (zoomOut t) =? Z.max (zoomLabel t - 20) 50)%Z)%bool).
  destruct (reachable_scale_check P lib es) as (q & E & B);
    [vm_compute; reflexivity|].
  fold s in E. unfold P in B.
  assert (Li : zoomLabel (zoomIn s) = zoomLabel (zoomIn (atScale q)))
    by (unfold zoomLabel; now rewrite (zoomIn_comp s q E)).
  assert (Lo : zoomLabel (zoomOut s) = zoomLabel (zoomOut (atScale q)))
    by (unfold zoomLabel; now rewrite (zoomOut_comp s q E)).
  rewrite <- Li, <- Lo, <- (zoomLabel_comp s q E) in B.
  change (scale (atScale q)) with q in B.
  apply andb_true_iff in B as [B B8]. apply andb_true_iff in B as [B B7].
  apply andb_true_iff in B as [B B6]. apply andb_true_iff in B as [B B5].
  apply andb_true_iff in B as [B B4]. apply andb_true_iff in B as [B B3].
  apply andb_true_iff in B as [B1 B2].
  apply Qle_bool_iff in B1, B2, B6. rewrite <- E in B1, B2, B6.
  apply Z.eqb_eq in B3, B7, B8. apply Z.leb_le in B4, B5.
  split; [apply reachable_zoomScales|].
  split; [vm_compute; reflexivity|].
  split; [now split|].
  split; [|now split].
  exists (zoomLabel s / 10)%Z.
  pose proof (Z.div_mod (zoomLabel s) 10 ltac:(lia)) as D.
  split; [lia|]. split; [lia | exact B6].
Qed.

(** The scale is not always the double nearest to a tenth, and the
    rounding of the label is needed: after four steps up from 1.0 the
    scale is 8106479329266892 / 2^52 (printed 1.7999999999999998), a
    hundred times the scale is the double 179.99999999999997, and the
    label shows 180. *)
Example zoom_label_rounds :
  let s := run lib_ok initial [EZoomIn; EZoomIn; EZoomIn; EZoomIn] in
  scale s == 8106479329266892 # 4503599627370496
  /\ ~ scale s == JS.lit 1.8
  /\ JS.mul (scale s) 100 == 6333186975989759 # 35184372088832
  /\ zoomLabel s = 180%Z.
Proof.
  intros s.
  split; [vm_compute; reflexivity|]. split; [vm_compute; discriminate|].
  split; vm_compute; reflexivity.
Qed.

(** ** Zoom steps back and forth *)

(** X6.  Whatever the session, a zoom out undoes a zoom in, giving back
    the very same double, exactly when the scale is at most 2.8, and a
    zoom in undoes a zoom out exactly when the scale is at least 0.7: a
    step that was cut at a bound is not taken back by the opposite step,
    and on the scales the buttons reach the roundings of the sum and of
    the difference cancel.  They do not on every double of the range:
    from 0.5 + 2^-53, a zoom in and out ends at 0.5 + 2^-52. *)
Theorem zoom_round_trip (lib : PdfLib) (es : list Event) :
  let s := run lib initial es in
  (scale (zoomOut (zoomIn s)) == scale s <-> scale s <= JS.lit 2.8)
  /\ (scale (zoomIn (zoomOut s)) == scale s <-> JS.lit 0.7 <= scale s)
  /\ scale (zoomOut (zoomIn (atScale (4503599627370497 # 9007199254740992))))
     == 4503599627370498 # 9007199254740992.
Proof.
  intros s.
  pose (P := fun t : State =>
    (Bool.eqb (Qeq_bool (scale (zoomOut (zoomIn t))) (scale t))
       (Qle_bool (scale t) (JS.lit 2.8))
     && Bool.eqb (Qeq_bool (scale (zoomIn (zoomOut t))) (scale t))
          (Qle_bool (JS.lit 0.7) (scale t)))%bool).
  destruct (reachable_scale_check P lib es) as (q & E & B);
    [vm_compute; reflexivity|].
  fold s in E. unfold P in B.
  assert (E1 : scale (zoomOut (zoomIn s)) = scale (zoomOut (zoomIn (atScale q)))).
  { apply (eq_trans (zoomOut_comp (zoomIn s) (scale (zoomIn (atScale q)))
                       (Qeq_refl_eq _ _ (zoomIn_comp s q E)))). reflexivity. }
  assert (E2 : scale (zoomIn (zoomOut s)) = scale (zoomIn (zoomOut (atScale q)))).
  { apply (eq_trans (zoomIn_comp (zoomOut s) (scale (zoomOut (atScale q)))
                       (Qeq_refl_eq _ _ (zoomOut_comp s q E)))). reflexivity. }
  rewrite <- E1, <- E2 in B. change (scale (atScale q)) with q in B.
  apply andb_true_iff in B as [B1 B2]. apply eqb_prop in B1, B2.
  split; [|split].
  - rewrite E. now rewrite <- Qeq_bool_iff, <- Qle_bool_iff, B1.
  - rewrite E. now rewrite <- Qeq_bool_iff, <- Qle_bool_iff, B2.
  - vm_compute. reflexivity.
Qed.

(** From 1.0 both round trips come back; after ten steps up the scale is
    3.0, and a zoom in and out ends at the double 2.8. *)
Example zoom_round_trip_from_1 :
  scale (zoomOut (zoomIn initial)) == scale initial
  /\ scale (zoomIn (zoomOut initial)) == scale initial
  /\ scale (zoomOut (zoomIn (Nat.iter 10 zoomIn initial))) == JS.lit 2.8.
Proof. repeat split; vm_compute; reflexivity. Qed.

(** ** Highlight mode *)

Lemma step_isSelecting lib s e :
  e <> EToggleHighlightMode -> isSelecting (step lib s e) = isSelecting s.
Proof.
  intros Hne. destruct e; simpl; try reflexivity; try congruence.
  - unfold onFileChange. destruct selectedFile as [f|]; [|reflexivity].
    now destruct (String.eqb _ _).
  - unfold handleTextSelect. now destruct (captureGuards env s) as [[[t r] c]|].
  - unfold savePDF. destruct (pdfBytes s); [|reflexivity].
    now destruct (exportBytes lib _ _).
  - unfold downloadPDF. now destruct (file s).
  - now destruct (nth_error (highlights s) k).
  - destruct (nth_error (highlights s) k); [|reflexivity].
    unfold navigateToHighlight. now destruct anchor.
Qed.

Lemma run_mode_off lib es : forall s,
  noToggle es = true -> isSelecting s = false -> highlights s = [] ->
  isSelecting (run lib s es) = false /\ highlights (run lib s es) = [].
Proof.
  induction es as [|e es IH]; intros s Hno Hs Hh; simpl; [now split|].
  assert (Hne : e <> EToggleHighlightMode) by (intros ->; discriminate).
  apply IH.
  - destruct e; try exact Hno. now contradiction Hne.
  - now rewrite step_isSelecting.
  - destruct (step_store_change lib s e) as [E | i E | env t rect c He G E].
    + now rewrite E.
    + rewrite E, Hh. reflexivity.
    + apply captureGuards_Some in G as (Hsel & _). congruence.
Qed.

(** X7.  Toggling highlight mode twice restores the mode and changes
    nothing else than the toasts, which gain the two notices in the order
    the mode went through; and in a session in which the mode is never
    toggled, the mode stays off and no highlight is ever stored,
    whatever is selected. *)
Theorem highlight_mode_gate (lib : PdfLib) (s : State) (es : list Event) :
  toggleHighlightMode (toggleHighlightMode s)
  = (if isSelecting s
     then toast (toast_info "Highlight mode enabled - select text to highlight")
            (toast (toast_info "Highlight mode disabled") s)
     else toast (toast_info "Highlight mode disabled")
            (toast (toast_info "Highlight mode enabled - select text to highlight") s))
  /\ (noToggle es = true ->
      isSelecting (run lib initial es) = false /\ highlights (run lib initial es) = []).
Proof.
  split.
  - unfold toggleHighlightMode. destruct s as [f n p sc hs sel st col b ts ds scr no].
    destruct sel; reflexivity.
  - intros Hno. now apply run_mode_off.
Qed.

(** A session with a file, page changes, zooms and two selections but no
    toggle. *)
Lemma highlight_mode_gate_witness :
  let es := [EFileChange (Some samplePdf); EReaderLoad sampleBytes;
             EDocumentLoadSuccess 2; ETextSelect envA; ENextPage; EZoomIn;
             ETextSelect envB; ESavePDF] in
  highlights (run lib_ok initial es) = []
  /\ isSelecting (run lib_ok initial es) = false.
Proof.
  intros es.
  destruct (highlight_mode_gate lib_ok initial es) as [_ H].
  assert (Hno : noToggle es = true) by (vm_compute; reflexivity).
  destruct (H Hno) as [Hs Hh]. split; [exact Hh | exact Hs].
Defined.

(** ** Picking a file *)

Lemma step_file lib s e :
  file (step lib s e) = file s
  \/ exists f, e = EFileChange (Some f) /\ file_type f = "application/pdf"
               /\ file (step lib s e) = Some f.
Proof.
  destruct e; simpl; try (now left).
  - unfold onFileChange. destruct selectedFile as [f|]; [|now left].
    destruct (String.eqb (file_type f) "application/pdf") eqn:E; [|now left].
    right. exists f. apply String.eqb_eq in E. auto.
  - left. unfold handleTextSelect. now destruct (captureGuards env s) as [[[t r] c]|].
  - left. unfold toggleHighlightMode. now destruct (isSelecting s).
  - left. unfold savePDF. destruct (pdfBytes s); [|reflexivity].
    now destruct (exportBytes lib _ _).
  - left. unfold downloadPDF. destruct (file s) eqn:E; simpl; now rewrite E.
  - left. now destruct (nth_error (highlights s) k).
  - left. destruct (nth_error (highlights s) k); [|reflexivity].
    unfold navigateToHighlight. now destruct anchor.
Qed.

Lemma run_file_is_pdf lib es : forall s,
  (forall f, file s = Some f -> file_type f = "application/pdf") ->
  forall f, file (run lib s es) = Some f -> file_type f = "application/pdf".
Proof.
  induction es as [|e es IH]; intros s H; simpl; [exact H|].
  apply IH. intros f Hf.
  destruct (step_file lib s e) as [E | (f' & _ & Ht & E)].
  - apply H. now rewrite <- E.
  - rewrite E in Hf. now injection Hf as <-.
Qed.

Lemma savePDF_downloads_cells lib s s' :
  pdfBytes s' = pdfBytes s -> highlights s' = highlights s ->
  downloads s' = downloads s ->
  downloads (savePDF lib s') = downloads (savePDF lib s).
Proof.
  intros Hb Hh Hd. unfold savePDF. rewrite Hb, Hh.
  destruct (pdfBytes s) as [b|]; [|exact Hd].
  destruct (exportBytes lib b (highlights s)); simpl; now rewrite Hd.
Qed.

(** X8.  The file held by the component is always a PDF: a selection
    that is empty or of another type changes nothing but for the error
    toast 'Please select a valid PDF file'.  A PDF that is picked replaces
    the file at once and raises 'PDF loaded successfully' before anything
    is read: the bytes, the page count, the current page and the
    highlights are still those of the state before, so a save made then
    offers what it would have offered before the pick. *)
Theorem file_pick (lib : PdfLib) (es : list Event) (selectedFile : option File) (s : State) :
  (forall f, file (run lib initial es) = Some f -> file_type f = "application/pdf")
  /\ ((selectedFile = None
       \/ exists f, selectedFile = Some f /\ file_type f <> "application/pdf") ->
      onFileChange selectedFile s = toast (toast_error "Please select a valid PDF file") s)
  /\ (forall f, selectedFile = Some f -> file_type f = "application/pdf" ->
        onFileChange selectedFile s
        = toast (toast_success "PDF loaded successfully") (setFile (Some f) s))
  /\ pdfBytes (onFileChange selectedFile s) = pdfBytes s
  /\ numPages (onFileChange selectedFile s) = numPages s
  /\ pageNumber (onFileChange selectedFile s) = pageNumber s
  /\ highlights (onFileChange selectedFile s) = highlights s
  /\ downloads (savePDF lib (onFileChange selectedFile s)) = downloads (savePDF lib s).
Proof.
  assert (Cells : pdfBytes (onFileChange selectedFile s) = pdfBytes s
                  /\ numPages (onFileChange selectedFile s) = numPages s
                  /\ pageNumber (onFileChange selectedFile s) = pageNumber s
                  /\ highlights (onFileChange selectedFile s) = highlights s
                  /\ downloads (onFileChange selectedFile s) = downloads s).
  { unfold onFileChange. destruct selectedFile as [f|]; [|now repeat split].
    destruct (String.eqb _ _); now repeat split. }
  destruct Cells as (Cb & Cn & Cp & Ch & Cd).
  split; [|split; [|split]].
  - apply run_file_is_pdf. intros f H. discriminate.
  - intros [-> | (f & -> & Ht)]; [reflexivity|].
    unfold onFileChange. apply String.eqb_neq in Ht. now rewrite Ht.
  - intros f -> Ht. unfold onFileChange. now rewrite Ht.
  - repeat split; try assumption. now apply savePDF_downloads_cells.
Qed.

(** An image picked over the two-page session. *)
Lemma file_pick_witness :
  let s := run lib_ok initial trace_two_pages in
  let png := mkFile "scan.png" "image/png" 2048 in
  onFileChange (Some png) s = toast (toast_error "Please select a valid PDF file") s
  /\ file (onFileChange (Some png) s) = Some samplePdf
  /\ onFileChange (Some otherPdf) s
     = toast (toast_success "PDF loaded successfully") (setFile (Some otherPdf) s).
Proof.
  intros s png.
  destruct (file_pick lib_ok [] (Some png) s) as (_ & Hrej & _).
  destruct (file_pick lib_ok [] (Some otherPdf) s) as (_ & _ & Hacc & _).
  assert (R : onFileChange (Some png) s
              = toast (toast_error "Please select a valid PDF file") s).
  { apply Hrej. right. exists png. split; [reflexivity | discriminate]. }
  split; [exact R|]. split; [vm_compute; reflexivity|].
  apply (Hacc otherPdf); reflexivity.
Defined.

(** ** Export: when it completes *)

Lemma length_drawOn (doc : PDFDoc) : forall i op,
  List.length (drawOn doc i op) = List.length doc.
Proof.
  induction doc as [|p rest IH]; intros i op; [now destruct i|].
  destruct i; simpl; [reflexivity | now rewrite IH].
Qed.

Lemma getPage_exists (doc : PDFDoc) (index : Z) :
  (exists page, getPage doc index = inr page)
  <-> (0 <= index < Z.of_nat (List.length doc))%Z.
Proof.
  split.
  - intros [page H]. apply getPage_inr in H as [H0 Hn]. split; [exact H0|].
    assert (Z.to_nat index < List.length doc)%nat by (apply nth_error_Some; congruence).
    lia.
  - intros [H0 Hlt].
    destruct (nth_error doc (Z.to_nat index)) as [page|] eqn:E.
    + exists page. apply getPage_inr. now split.
    + apply nth_error_None in E. lia.
Qed.

Lemma drawHighlight_length lib all doc h doc1 :
  drawHighlight lib all doc h = inr doc1 -> List.length doc1 = List.length doc.
Proof.
  unfold drawHighlight. intros Hd.
  destruct (getPage doc (h_pageNumber h - 1)) as [e|pg]; [discriminate|]. simpl in Hd.
  destruct (rgb _ _ _) as [e|c]; [discriminate|]. simpl in Hd.
  destruct (canEncode lib _); [|discriminate].
  injection Hd as <-. now rewrite !length_drawOn.
Qed.

Lemma drawHighlight_iterationOk lib all doc h :
  (exists doc1, drawHighlight lib all doc h = inr doc1) <-> iterationOk lib doc h.
Proof.
  rewrite drawHighlight_completes, getPage_exists. unfold iterationOk.
  split; intros (Hp & Hc & He); (split; [lia | now split]).
Qed.

(** The export loop completes exactly when each highlight passes. *)
Lemma drawHighlights_completes lib all : forall todo doc,
  (exists doc', drawHighlights lib all todo doc = inr doc')
  <-> Forall (iterationOk lib doc) todo.
Proof.
  induction todo as [|h rest IH]; intros doc; simpl.
  - split; [constructor | intros _; now exists doc].
  - split.
    + intros [doc' Hd].
      destruct (drawHighlight lib all doc h) as [e|doc1] eqn:H1; [discriminate|].
      simpl in Hd. constructor.
      * apply (drawHighlight_iterationOk lib all). now exists doc1.
      * assert (Hr : Forall (iterationOk lib doc1) rest) by (apply IH; now exists doc').
        apply drawHighlight_length in H1.
        eapply Forall_impl; [|exact Hr]. unfold iterationOk. now rewrite H1.
    + intros Hall. inversion Hall as [|h' l Hh Hrest]; subst.
      apply (drawHighlight_iterationOk lib all) in Hh as [doc1 H1].
      rewrite H1. simpl. apply IH.
      apply drawHighlight_length in H1.
      eapply Forall_impl; [|exact Hrest]. unfold iterationOk. now rewrite H1.
Qed.

(** X9.  The drawing loop of the export completes exactly when every
    highlight of the store has its page in the opened document, a colour
    whose three channels parse to values between 0 and 1, and a label the
    font encodes.  One highlight whose page the document lacks, such as a
    highlight kept from a longer document, makes the whole save fail: the
    error toast is raised and nothing is offered, whatever the other
    highlights are. *)
Theorem export_completes_iff (lib : PdfLib) (hs : list Highlight) (doc : PDFDoc) :
  ((exists doc', drawHighlights lib hs hs doc = inr doc')
   <-> Forall (iterationOk lib doc) hs)
  /\ (forall s b h,
        highlights s = hs -> pdfBytes s = Some b ->
        PDFDocument_load lib b = Some doc ->
        In h hs -> ~ (1 <= h_pageNumber h <= Z.of_nat (List.length doc))%Z ->
        savePDF lib s = toast (toast_error "Failed to save PDF") s).
Proof.
  split; [apply drawHighlights_completes|].
  intros s b h Hh Hb Hl Hin Hout.
  unfold savePDF, exportBytes. rewrite Hb, Hl, Hh. simpl.
  destruct (drawHighlights lib hs hs doc) as [e|doc'] eqn:Hd; [reflexivity|].
  exfalso.
  assert (Hall : Forall (iterationOk lib doc) hs)
    by (apply (proj1 (drawHighlights_completes lib hs hs doc)); now exists doc').
  rewrite Forall_forall in Hall. destruct (Hall h Hin) as [Hp _]. now apply Hout.
Qed.

(** The three-page document with the highlight of page 7 cannot be
    saved. *)
Lemma export_completes_iff_witness :
  let s := run lib_ok initial trace_stale_highlight in
  pdfBytes s = Some otherBytes
  /\ map h_pageNumber (highlights s) = [7%Z]
  /\ savePDF lib_ok s = toast (toast_error "Failed to save PDF") s
  /\ downloads (savePDF lib_ok s) = [].
Proof.
  intros s.
  destruct (export_completes_iff lib_ok (highlights s) (blankPages 3)) as [_ H].
  destruct (nth_error (highlights s) 0) as [h|] eqn:Hk;
    [|vm_compute in Hk; discriminate].
  assert (Hb : pdfBytes s = Some otherBytes) by (vm_compute; reflexivity).
  assert (Hl : PDFDocument_load lib_ok otherBytes = Some (blankPages 3))
    by (vm_compute; reflexivity).
  assert (Hout : ~ (1 <= h_pageNumber h <= Z.of_nat (List.length (blankPages 3)))%Z).
  { assert (P : option_map h_pageNumber (nth_error (highlights s) 0) = Some 7%Z)
      by (vm_compute; reflexivity).
    rewrite Hk in P. simpl in P. injection P as ->.
    vm_compute. intros [_ L]. apply L. reflexivity. }
  assert (E : savePDF lib_ok s = toast (toast_error "Failed to save PDF") s)
    by (apply (H s otherBytes h eq_refl Hb Hl (nth_error_In _ _ Hk) Hout)).
  split; [exact Hb|]. split; [vm_compute; reflexivity|]. split; [exact E|].
  vm_compute. reflexivity.
Defined.

(** ** Export: the colour of a highlight *)

Lemma parseInt16_two_hex (c1 c2 : ascii) (d1 d2 : Z) :
  JS.hexDigit c1 = Some d1 -> JS.hexDigit c2 = Some d2 ->
  JS.parseInt16 (String c1 (String c2 "")) = Some (16 * d1 + d2)%Z
  /\ (0 <= 16 * d1 + d2 <= 255)%Z.
Proof.
  intros H1 H2.
  destruct c1 as [[] [] [] [] [] [] [] []]; cbv in H1; try discriminate;
    injection H1 as <-;
    destruct c2 as [[] [] [] [] [] [] [] []]; cbv in H2; try discriminate;
    injection H2 as <-; (split; [reflexivity | lia]).
Qed.

Lemma channel_two_hex (c1 c2 : ascii) :
  isHexDigit c1 = true -> isHexDigit c2 = true ->
  channel (String c1 (String c2 "")) 0 = Some (inject_Z (hexByte c1 c2) / 255)
  /\ (0 <= hexByte c1 c2 <= 255)%Z.
Proof.
  unfold isHexDigit, hexByte, channel. intros H1 H2.
  destruct (JS.hexDigit c1) as [d1|] eqn:E1; [|discriminate].
  destruct (JS.hexDigit c2) as [d2|] eqn:E2; [|discriminate].
  destruct (parseInt16_two_hex c1 c2 d1 d2 E1 E2) as [P B].
  change (JS.substr 0 2 (String c1 (String c2 ""))) with (String c1 (String c2 "")).
  now rewrite P.
Qed.

Lemma inUnit_byte (n : Z) :
  (0 <= n <= 255)%Z -> inUnit (Some (inject_Z n / 255)) = true.
Proof.
  intros [H0 H255]. unfold inUnit.
  assert (A : inject_Z 0 <= inject_Z n) by (rewrite <- Zle_Qle; lia).
  assert (B : inject_Z n <= inject_Z 255) by (rewrite <- Zle_Qle; lia).
  change (inject_Z 0) with 0 in A. change (inject_Z 255) with 255 in B.
  apply andb_true_iff. split; apply Qle_bool_iff;
    unfold Qdiv; change (/ 255) with (1 # 255); lra.
Qed.

(** X10.  For a colour string of the form [#RRGGBB] with six hexadecimal
    digits, as the colour input produces, the conversion of the export
    never throws: the three channels are the three bytes divided by 255,
    each between 0 and 1. *)
Theorem hex_colour_converts (c1 c2 c3 c4 c5 c6 : ascii) :
  forallb isHexDigit [c1; c2; c3; c4; c5; c6] = true ->
  let hexColor := JS.replace_first "#" (hexColor6 c1 c2 c3 c4 c5 c6) in
  rgb (channel hexColor 0) (channel hexColor 2) (channel hexColor 4)
  = inr (inject_Z (hexByte c1 c2) / 255, inject_Z (hexByte c3 c4) / 255,
         inject_Z (hexByte c5 c6) / 255)
  /\ (0 <= hexByte c1 c2 <= 255)%Z /\ (0 <= hexByte c3 c4 <= 255)%Z
  /\ (0 <= hexByte c5 c6 <= 255)%Z.
Proof.
  simpl forallb. rewrite !andb_true_iff.
  intros (H1 & H2 & H3 & H4 & H5 & H6 & _). intros hexColor.
  destruct (channel_two_hex c1 c2 H1 H2) as [R BR].
  destruct (channel_two_hex c3 c4 H3 H4) as [G BG].
  destruct (channel_two_hex c5 c6 H5 H6) as [B BB].
  assert (ER : channel hexColor 0 = Some (inject_Z (hexByte c1 c2) / 255)) by exact R.
  assert (EG : channel hexColor 2 = Some (inject_Z (hexByte c3 c4) / 255)) by exact G.
  assert (EB : channel hexColor 4 = Some (inject_Z (hexByte c5 c6) / 255)) by exact B.
  rewrite ER, EG, EB. unfold rgb.
  rewrite !inUnit_byte by assumption. simpl. auto.
Qed.

(** The colour a fresh component highlights with, yellow. *)
Lemma hex_colour_converts_witness :
  highlightColor initial = hexColor6 "F" "F" "F" "F" "0" "0"
  /\ rgb (channel (JS.replace_first "#" (highlightColor initial)) 0)
         (channel (JS.replace_first "#" (highlightColor initial)) 2)
         (channel (JS.replace_first "#" (highlightColor initial)) 4)
     = inr (inject_Z 255 / 255, inject_Z 255 / 255, inject_Z 0 / 255).
Proof.
  split; [reflexivity|].
  apply (hex_colour_converts "F" "F" "F" "F" "0" "0"). reflexivity.
Defined.

(** ** Export: what it leaves on the pages *)

Lemma substring0_length (n : nat) : forall s,
  String.length (JS.substring0 n s) = Nat.min n (String.length s).
Proof.
  unfold JS.substring0.
  induction n as [|n IH]; intros s; destruct s as [|c r]; simpl; auto.
Qed.

Lemma substring0_prefix (n : nat) : forall s,
  String.prefix (JS.substring0 n s) s = true.
Proof.
  unfold JS.substring0.
  induction n as [|n IH]; intros s; destruct s as [|c r]; simpl; auto.
  destruct (ascii_dec c c) as [_ | Hne]; [apply IH | now contradiction Hne].
Qed.

Lemma substring0_short (n : nat) : forall s,
  (String.length s <= n)%nat -> JS.substring0 n s = s.
Proof.
  unfold JS.substring0.
  induction n as [|n IH]; intros s Hl; destruct s as [|c r]; simpl in *; auto.
  - lia.
  - f_equal. apply IH. lia.
Qed.

Lemma labelsOf_app (a b : list DrawOp) :
  labelsOf (a ++ b) = (labelsOf a ++ labelsOf b)%list.
Proof. unfold labelsOf. apply flat_map_app. Qed.

(** The labels the completed loop leaves on every page: those the page
    held, then the label of each highlight of that page, in the order
    of the loop. *)
Lemma drawHighlights_page_labels lib all : forall todo doc doc',
  drawHighlights lib all todo doc = inr doc' ->
  forall i page, nth_error doc i = Some page ->
    exists page',
      nth_error doc' i = Some page'
      /\ labelsOf (page_ops page')
         = (labelsOf (page_ops page)
            ++ map (fun h => JS.substring0 50 (text h)) (highlightsOfIndex i todo))%list.
Proof.
  induction todo as [|h rest IH]; intros doc doc' Hd i page Hi; simpl in Hd.
  - injection Hd as <-. exists page. split; [exact Hi|]. simpl. now rewrite app_nil_r.
  - destruct (drawHighlight lib all doc h) as [e|doc1] eqn:H1; [discriminate|].
    simpl in Hd.
    destruct (drawHighlight_pages _ _ _ _ _ H1) as [H0 Hpages].
    specialize (Hpages i page Hi).
    destruct (IH doc1 doc' Hd i _ Hpages) as (page' & Hn & Hl).
    exists page'. split; [exact Hn|]. rewrite Hl.
    unfold highlightsOfIndex. simpl.
    destruct (Nat.eqb i (Z.to_nat (h_pageNumber h - 1))) eqn:E.
    + apply Nat.eqb_eq in E.
      assert (Ez : (h_pageNumber h - 1 =? Z.of_nat i)%Z = true)
        by (apply Z.eqb_eq; lia).
      rewrite Ez. simpl. rewrite labelsOf_app. simpl. now rewrite <- app_assoc.
    + apply Nat.eqb_neq in E.
      assert (Ez : (h_pageNumber h - 1 =? Z.of_nat i)%Z = false)
        by (apply Z.eqb_neq; lia).
      now rewrite Ez.
Qed.

(** X11.  The text [drawText] receives for a highlight is the first 50
    characters of the highlight's text.  After a completed export every
    page carries the labels it held followed by these prefixes, one for
    each highlight of the page and in store order; the label of every
    highlight is on the page the highlight points at; and that label is a
    prefix of the text, as long as the text up to 50 characters, and the
    whole text when it has at most 50. *)
Theorem export_labels_truncated
    (lib : PdfLib) (hs : list Highlight) (doc doc' : PDFDoc) :
  drawHighlights lib hs hs doc = inr doc' ->
  (forall i page, nth_error doc i = Some page ->
     exists page',
       nth_error doc' i = Some page'
       /\ labelsOf (page_ops page')
          = (labelsOf (page_ops page)
             ++ map (fun h => JS.substring0 50 (text h)) (highlightsOfIndex i hs))%list)
  /\ (forall h, In h hs ->
        (exists page',
           getPage doc' (h_pageNumber h - 1) = inr page'
           /\ In (JS.substring0 50 (text h)) (labelsOf (page_ops page')))
        /\ String.length (JS.substring0 50 (text h))
           = Nat.min 50 (String.length (text h))
        /\ String.prefix (JS.substring0 50 (text h)) (text h) = true
        /\ ((String.length (text h) <= 50)%nat -> JS.substring0 50 (text h) = text h)).
Proof.
  intros Hd.
  pose proof (drawHighlights_page_labels lib hs hs doc doc' Hd) as Hpages.
  split; [exact Hpages|].
  intros h Hin.
  split; [|split; [apply substring0_length|
                   split; [apply substring0_prefix | apply substring0_short]]].
  assert (Hok : Forall (iterationOk lib doc) hs).
  { apply (proj1 (drawHighlights_completes lib hs hs doc)). now exists doc'. }
  rewrite Forall_forall in Hok. destruct (Hok h Hin) as [[Hlo Hhi] _].
  destruct (nth_error doc (Z.to_nat (h_pageNumber h - 1))) as [page|] eqn:Hp.
  2:{ apply nth_error_None in Hp. lia. }
  destruct (Hpages _ _ Hp) as (page' & Hn & Hl).
  exists page'. split; [apply getPage_inr; split; [lia | exact Hn]|].
  rewrite Hl. apply in_or_app. right.
  apply in_map_iff. exists h. split; [reflexivity|].
  unfold highlightsOfIndex. apply filter_In. split; [exact Hin|].
  apply Z.eqb_eq. lia.
Qed.

(** Two highlights on page 1, of 14 and of 62 characters: the page
    receives the first text whole and the first 50 characters of the
    second. *)
Lemma export_labels_truncated_witness :
  let hs := highlights (run lib_ok initial trace_long_text) in
  map (fun h => String.length (text h)) hs = [14%nat; 62%nat]
  /\ exists doc' page',
       drawHighlights lib_ok hs hs twoPages = inr doc'
       /\ nth_error doc' 0 = Some page'
       /\ labelsOf (page_ops page')
          = ["annual results"; "the quarterly figures are restated in the appendix"].
Proof.
  intros hs. split; [vm_compute; reflexivity|].
  destruct (drawHighlights lib_ok hs hs twoPages) as [e|doc'] eqn:Hd;
    [vm_compute in Hd; discriminate|].
  destruct (export_labels_truncated lib_ok hs twoPages doc' Hd) as [Hpages _].
  destruct (Hpages 0%nat (mkPDFPage 600 800 []) eq_refl) as (page' & Hn & Hl).
  exists doc', page'. split; [reflexivity|]. split; [exact Hn|].
  rewrite Hl. vm_compute. reflexivity.
Defined.

Lemma drawHighlights_frame lib all : forall todo doc doc',
  drawHighlights lib all todo doc = inr doc' ->
  forall i page, nth_error doc i = Some page ->
    exists added,
      nth_error doc' i
      = Some (mkPDFPage (page_width page) (page_height page) (page_ops page ++ added))
      /\ ((forall h, In h todo -> (h_pageNumber h - 1)%Z <> Z.of_nat i) -> added = []).
Proof.
  induction todo as [|h rest IH]; intros doc doc' Hd i page Hi; simpl in Hd.
  - injection Hd as <-. exists []. rewrite app_nil_r. split; [now destruct page | auto].
  - destruct (drawHighlight lib all doc h) as [e|doc1] eqn:H1; [discriminate|].
    simpl in Hd.
    destruct (drawHighlight_pages _ _ _ _ _ H1) as [H0 Hpages].
    specialize (Hpages i page Hi).
    destruct (IH doc1 doc' Hd i _ Hpages) as (added & Hn & Hnone).
    destruct (Nat.eqb i (Z.to_nat (h_pageNumber h - 1))) eqn:E.
    + simpl in Hn. rewrite <- app_assoc in Hn. eexists. split; [exact Hn|].
      intros Hno. exfalso. apply Nat.eqb_eq in E.
      apply (Hno h); [now left | lia].
    + exists added. split; [exact Hn|].
      intros Hno. apply Hnone. intros h' Hin. apply Hno. now right.
Qed.

Lemma drawHighlights_length lib all : forall todo doc doc',
  drawHighlights lib all todo doc = inr doc' -> List.length doc' = List.length doc.
Proof.
  induction todo as [|h rest IH]; intros doc doc' Hd; simpl in Hd.
  - now injection Hd as <-.
  - destruct (drawHighlight lib all doc h) as [e|doc1] eqn:H1; [discriminate|].
    simpl in Hd. rewrite (IH _ _ Hd). now apply drawHighlight_length in H1.
Qed.

(** X12.  A completed export only appends: the document keeps its number
    of pages, every page keeps its width, its height and, in front of
    what was added, the operations it held; and a page no highlight
    points at is left exactly as it was. *)
Theorem export_only_appends (lib : PdfLib) (hs : list Highlight) (doc doc' : PDFDoc) :
  drawHighlights lib hs hs doc = inr doc' ->
  List.length doc' = List.length doc
  /\ forall i page, nth_error doc i = Some page ->
       exists added,
         nth_error doc' i
         = Some (mkPDFPage (page_width page) (page_height page) (page_ops page ++ added))
         /\ ((forall h, In h hs -> h_pageNumber h <> (Z.of_nat i + 1)%Z) ->
             nth_error doc' i = Some page).
Proof.
  intros Hd. split; [now apply drawHighlights_length in Hd|].
  intros i page Hi.
  destruct (drawHighlights_frame lib hs hs doc doc' Hd i page Hi) as (added & Hn & Hnone).
  exists added. split; [exact Hn|].
  intros Hno. rewrite Hn, Hnone.
  - rewrite app_nil_r. now destruct page.
  - intros h Hin E. apply (Hno h Hin). lia.
Qed.

(** One highlight on page 1 of two pages: page 2 is untouched. *)
Lemma export_only_appends_witness :
  let s := run lib_ok initial
             [EFileChange (Some samplePdf); EReaderLoad sampleBytes;
              EDocumentLoadSuccess 2; EToggleHighlightMode; ETextSelect envA] in
  exists doc',
    drawHighlights lib_ok (highlights s) (highlights s) twoPages = inr doc'
    /\ List.length doc' = 2%nat
    /\ nth_error doc' 1 = Some (mkPDFPage 600 800 []).
Proof.
  intros s.
  destruct (drawHighlights lib_ok (highlights s) (highlights s) twoPages)
    as [e|doc'] eqn:Hd; [vm_compute in Hd; discriminate|].
  exists doc'. split; [reflexivity|].
  destruct (export_only_appends lib_ok (highlights s) twoPages doc' Hd) as [Hlen Hpages].
  split; [exact Hlen|].
  destruct (Hpages 1%nat (mkPDFPage 600 800 []) eq_refl) as (added & _ & Hsame).
  apply Hsame. intros h Hin E.
  assert (B : forallb (fun h => negb (h_pageNumber h =? 2)%Z) (highlights s) = true)
    by (vm_compute; reflexivity).
  rewrite forallb_forall in B. specialize (B h Hin).
  rewrite E in B. discriminate.
Defined.

(** ** What is offered for download *)

Lemma step_downloads lib s e :
  downloads (step lib s e) = downloads s
  \/ (e = ESavePDF
      /\ exists b out,
           pdfBytes s = Some b /\ exportBytes lib b (highlights s) = inr out
           /\ downloads (step lib s e)
              = (downloads s ++ [("edited_document.pdf", OfBytes out)])%list)
  \/ (e = EDownloadPDF
      /\ exists f, file s = Some f
                   /\ downloads (step lib s e)
                      = (downloads s ++ [(file_name f, OfFile f)])%list).
Proof.
  destruct e; simpl; try (now left).
  - left. unfold onFileChange. destruct selectedFile as [f|]; [|reflexivity].
    now destruct (String.eqb _ _).
  - left. unfold handleTextSelect. now destruct (captureGuards env s) as [[[t r] c]|].
  - left. unfold toggleHighlightMode. now destruct (isSelecting s).
  - unfold savePDF. destruct (pdfBytes s) as [b|] eqn:Hb; [|now left].
    destruct (exportBytes lib b (highlights s)) as [err|out] eqn:He; [now left|].
    right. left. split; [reflexivity|]. now exists b, out.
  - unfold downloadPDF. destruct (file s) as [f|] eqn:E; [|now left].
    right. right. split; [reflexivity|]. now exists f.
  - left. now destruct (nth_error (highlights s) k).
  - left. destruct (nth_error (highlights s) k); [|reflexivity].
    unfold navigateToHighlight. now destruct anchor.
Qed.

Lemma run_no_file_no_download lib es : forall s,
  valid_trace lib s es = true ->
  (file s = None -> downloads s = []) ->
  file (run lib s es) = None -> downloads (run lib s es) = [].
Proof.
  induction es as [|e es IH]; intros s Hv H; simpl; [exact H|].
  simpl in Hv. apply andb_true_iff in Hv as [He Hv].
  apply IH; [exact Hv|]. intros Hnone.
  assert (Hs : file s = None).
  { destruct (step_file lib s e) as [E | (f & _ & _ & E)]; congruence. }
  destruct (step_downloads lib s e) as [E | [[-> _] | [-> _]]].
  - rewrite E. now apply H.
  - simpl in He. rewrite Hs in He. discriminate.
  - simpl in He. rewrite Hs in He. discriminate.
Qed.

Lemma run_snoc lib s es e : run lib s (es ++ [e]) = step lib (run lib s es) e.
Proof. unfold run. now rewrite fold_left_app. Qed.

Lemma step_pdfBytes lib s e :
  pdfBytes (step lib s e) = pdfBytes s
  \/ exists b, e = EReaderLoad b /\ pdfBytes (step lib s e) = Some b.
Proof.
  destruct e; simpl; try (now left).
  - left. unfold onFileChange. destruct selectedFile as [f|]; [|reflexivity].
    now destruct (String.eqb _ _).
  - right. now exists result.
  - left. unfold handleTextSelect. now destruct (captureGuards env s) as [[[t r] c]|].
  - left. unfold toggleHighlightMode. now destruct (isSelecting s).
  - left. unfold savePDF. destruct (pdfBytes s) eqn:E; [|simpl; now rewrite E].
    destruct (exportBytes lib _ _); simpl; now rewrite E.
  - left. unfold downloadPDF. now destruct (file s).
  - left. now destruct (nth_error (highlights s) k).
  - left. destruct (nth_error (highlights s) k); [|reflexivity].
    unfold navigateToHighlight. now destruct anchor.
Qed.

(** The file held was picked in the session, and the bytes held were
    delivered by the reader in the session. *)
Lemma run_file_picked lib es :
  forall f, file (run lib initial es) = Some f -> pickedIn es f.
Proof.
  induction es as [|e es IH] using rev_ind; intros f Hf; [discriminate|].
  rewrite run_snoc in Hf. unfold pickedIn.
  destruct (step_file lib (run lib initial es) e) as [E | (f' & -> & Ht & E)].
  - rewrite E in Hf. destruct (IH f Hf) as [Hin Ht].
    split; [apply in_or_app; now left | exact Ht].
  - rewrite E in Hf. injection Hf as <-.
    split; [apply in_or_app; right; now left | exact Ht].
Qed.

Lemma run_bytes_read lib es :
  forall b, pdfBytes (run lib initial es) = Some b -> In (EReaderLoad b) es.
Proof.
  induction es as [|e es IH] using rev_ind; intros b Hb; [discriminate|].
  rewrite run_snoc in Hb.
  destruct (step_pdfBytes lib (run lib initial es) e) as [E | (b' & -> & E)].
  - rewrite E in Hb. apply in_or_app. left. now apply IH.
  - rewrite E in Hb. injection Hb as <-. apply in_or_app. right. now left.
Qed.

(** What a session has offered, a longer session has offered. *)
Lemma offeredIn_snoc lib es e d : offeredIn lib es d -> offeredIn lib (es ++ [e]) d.
Proof.
  intros [(f & [Hin Ht] & ->) | (out & (es1 & es2 & b & -> & Hr & Hb & Hy) & ->)].
  - left. exists f. split; [|reflexivity].
    split; [apply in_or_app; now left | exact Ht].
  - right. exists out. split; [|reflexivity].
    exists es1, (es2 ++ [e])%list, b.
    split; [now rewrite <- app_assoc | auto].
Qed.

Lemma run_downloads_offered lib es :
  Forall (offeredIn lib es) (downloads (run lib initial es)).
Proof.
  induction es as [|e es IH] using rev_ind; [constructor|].
  rewrite run_snoc.
  assert (IH' : Forall (offeredIn lib (es ++ [e])) (downloads (run lib initial es))).
  { eapply Forall_impl; [|exact IH]. intros d. apply offeredIn_snoc. }
  destruct (step_downloads lib (run lib initial es) e)
    as [E | [(-> & b & out & Hb & He & E) | (-> & f & Hf & E)]]; rewrite E.
  - exact IH'.
  - apply Forall_app. split; [exact IH'|]. constructor; [|constructor].
    right. exists out. split; [|reflexivity].
    exists es, [], b. split; [reflexivity|].
    split; [now apply (run_bytes_read lib)|]. split; [exact Hb|].
    now apply exportBytes_inr.
  - apply Forall_app. split; [exact IH'|]. constructor; [|constructor].
    left. exists f. split; [|reflexivity].
    destruct (run_file_picked lib es f Hf) as [Hin Ht].
    split; [apply in_or_app; now left | exact Ht].
Qed.

(** X13.  Whatever the session, everything the component has offered for
    download is either a PDF file that was picked in the session, as it
    was picked and under its own name, or, under the name
    'edited_document.pdf', the bytes returned by a save of the session
    that completed: the export, over bytes the reader had delivered, of
    the highlights stored when the save was asked for.  A save that fails
    offers nothing, the bytes it was given included.  The original is
    what [downloadPDF] offers, with no trace of the highlights.  Through
    the user interface nothing is offered before a file has been picked. *)
Theorem downloads_are_original_or_saved (lib : PdfLib) (es : list Event) :
  Forall (offeredIn lib es) (downloads (run lib initial es))
  /\ (forall s b, pdfBytes s = Some b -> exportFails lib b (highlights s) ->
        downloads (savePDF lib s) = downloads s)
  /\ (forall s f, file s = Some f ->
        downloads (downloadPDF s) = (downloads s ++ [(file_name f, OfFile f)])%list
        /\ highlights (downloadPDF s) = highlights s)
  /\ (forall s, file s = None -> downloads (downloadPDF s) = downloads s
                                 /\ toasts (downloadPDF s)
                                    = (toasts s ++ [toast_error "No PDF loaded"])%list)
  /\ (valid_trace lib initial es = true ->
      file (run lib initial es) = None -> downloads (run lib initial es) = []).
Proof.
  split; [apply run_downloads_offered|].
  split; [|split; [|split]].
  - intros s b Hb Hf. apply exportBytes_inl in Hf as [e He].
    unfold savePDF. now rewrite Hb, He.
  - intros s f Hf. unfold downloadPDF. now rewrite Hf.
  - intros s Hf. unfold downloadPDF. now rewrite Hf.
  - intros Hv. now apply run_no_file_no_download.
Qed.

(** The two-page session followed by a save and a download of the
    original: the saved bytes and the picked file are offered, in that
    order, and each is accounted for by the session. *)
Lemma downloads_are_original_or_saved_witness :
  let es := (trace_two_pages ++ [ESavePDF; EDownloadPDF])%list in
  let es0 := [EToggleHighlightMode; ETextSelect envA; EZoomIn] in
  downloads (run lib_ok initial es)
  = [("edited_document.pdf", OfBytes savedBytes); ("report.pdf", OfFile samplePdf)]
  /\ Forall (offeredIn lib_ok es) (downloads (run lib_ok initial es))
  /\ downloads (run lib_ok initial es0) = [].
Proof.
  intros es es0. split; [vm_compute; reflexivity|].
  split; [apply (downloads_are_original_or_saved lib_ok es)|].
  destruct (downloads_are_original_or_saved lib_ok es0) as (_ & _ & _ & _ & H).
  apply H; vm_compute; reflexivity.
Defined.

(** ** The mount effect *)

Lemma getElementById_app (i : string) (d1 d2 : list Element) :
  getElementById i (d1 ++ d2)
  = match getElementById i d1 with
    | Some e => Some e
    | None => getElementById i d2
    end.
Proof.
  unfold getElementById. induction d1 as [|e d1 IH]; simpl; [reflexivity|].
  now destruct (String.eqb (el_id e) i).
Qed.

(** X14.  The mount effect leaves the elements of the document in place
    and adds the text-layer style element behind them unless an element
    with its id is there; afterwards such an element is there, so running
    the effect again (a second mount) adds nothing. *)
Theorem style_injection_once (document : list Element) :
  injectTextLayerStyles (injectTextLayerStyles document) = injectTextLayerStyles document
  /\ getElementById styleId (injectTextLayerStyles document) <> None
  /\ (getElementById styleId document <> None ->
      injectTextLayerStyles document = document)
  /\ (getElementById styleId document = None ->
      injectTextLayerStyles document
      = (document ++ [mkElement "style" styleId textLayerCss])%list).
Proof.
  assert (Hin : getElementById styleId (injectTextLayerStyles document) <> None).
  { unfold injectTextLayerStyles.
    destruct (getElementById styleId document) as [e|] eqn:E.
    - rewrite E. discriminate.
    - rewrite getElementById_app, E. discriminate. }
  split; [|split; [exact Hin|split]].
  - unfold injectTextLayerStyles at 1.
    destruct (getElementById styleId (injectTextLayerStyles document));
      [reflexivity | now contradiction Hin].
  - intros H. unfold injectTextLayerStyles.
    destruct (getElementById styleId document); [reflexivity | now contradiction H].
  - intros H. unfold injectTextLayerStyles. now rewrite H.
Qed.

(** A document with a root element: the effect run twice. *)
Lemma style_injection_once_witness :
  let document := [mkElement "div" "root" ""] in
  injectTextLayerStyles document
  = [mkElement "div" "root" ""; mkElement "style" styleId textLayerCss]
  /\ injectTextLayerStyles (injectTextLayerStyles document)
     = injectTextLayerStyles document.
Proof.
  intros document.
  destruct (style_injection_once document) as (Hi & _ & _ & Hn).
  split; [apply Hn; vm_compute; reflexivity | exact Hi].
Defined.

(** ** The current page before a document and under the page buttons *)

(** Once a page count is known, one stays known. *)
Lemma run_numPages_known lib es : forall s,
  numPages s <> None -> numPages (run lib s es) <> None.
Proof.
  induction es as [|e es IH]; intros s H; simpl; [exact H|].
  apply IH. destruct (step_numPages lib s e) as [E | (m & _ & E)]; rewrite E;
    [exact H | discriminate].
Qed.

Lemma run_page_inv_before_load lib es : forall s,
  valid_trace lib s es = true -> page_inv s ->
  numPages (run lib s es) = None -> page_inv (run lib s es).
Proof.
  induction es as [|e es IH]; intros s Hv Hinv Hnone; simpl in *; [exact Hinv|].
  apply andb_true_iff in Hv as [He Hv].
  destruct (step_numPages lib s e) as [E | (m & -> & E)].
  - apply IH; [exact Hv | | exact Hnone].
    apply step_page_inv; [exact He | | exact Hinv].
    destruct e; try reflexivity. simpl in E.
    exfalso. apply (run_numPages_known lib es (step lib s (EDocumentLoadSuccess n)));
      [simpl; discriminate | exact Hnone].
  - exfalso. apply (run_numPages_known lib es (step lib s (EDocumentLoadSuccess m)));
      [rewrite E; discriminate | exact Hnone].
Qed.

(** X15.  Without a page count the clamp of [changePage] has 0 as its
    upper bound and sends the current page to 0 whatever the offset.  The
    user interface never gets there: the page buttons are not rendered
    until a document has reported its pages, so as long as none has, the
    current page is 1, every stored highlight carries page 1 and no page
    is rendered. *)
Theorem page_before_document (lib : PdfLib) (es : list Event) :
  (forall s offset, numPages s = None -> pageNumber (changePage offset s) = 0%Z)
  /\ (forall s, numPages s = None ->
        enabled s EPreviousPage = false /\ enabled s ENextPage = false)
  /\ (valid_trace lib initial es = true ->
      numPages (run lib initial es) = None ->
      pageNumber (run lib initial es) = 1%Z
      /\ Forall (fun h => h_pageNumber h = 1%Z) (highlights (run lib initial es))
      /\ pageIndices (run lib initial es) = []).
Proof.
  split; [|split].
  - intros s offset Hn. rewrite pageNumber_changePage, Hn. simpl. lia.
  - intros s Hn. simpl. now rewrite Hn.
  - intros Hv Hn.
    assert (Hinv : page_inv (run lib initial es)).
    { apply run_page_inv_before_load; [exact Hv | | exact Hn].
      split; [reflexivity | constructor]. }
    unfold page_inv in Hinv. rewrite Hn in Hinv. destruct Hinv as [Hp Hh].
    split; [exact Hp|]. split; [exact Hh|].
    unfold pageIndices. now rewrite Hn.
Qed.

(** A text of the empty viewer highlighted before any file is opened. *)
Lemma page_before_document_witness :
  let es := [EToggleHighlightMode; ETextSelect envA; EZoomIn; ENavigate 0 false] in
  List.length (highlights (run lib_ok initial es)) = 1%nat
  /\ pageNumber (run lib_ok initial es) = 1%Z
  /\ Forall (fun h => h_pageNumber h = 1%Z) (highlights (run lib_ok initial es))
  /\ pageIndices (run lib_ok initial es) = []
  /\ pageNumber (changePage 1 (run lib_ok initial es)) = 0%Z.
Proof.
  intros es.
  destruct (page_before_document lib_ok es) as (Hzero & _ & H).
  assert (Hv : valid_trace lib_ok initial es = true) by (vm_compute; reflexivity).
  assert (Hn : numPages (run lib_ok initial es) = None) by (vm_compute; reflexivity).
  destruct (H Hv Hn) as (Hp & Hh & Hi).
  split; [vm_compute; reflexivity|]. split; [exact Hp|]. split; [exact Hh|].
  split; [exact Hi|]. now apply Hzero.
Defined.

(** X16.  With a document of [n] pages and the current page in [1, n]:
    the previous-page button is enabled exactly off the first page and
    the next-page button exactly off the last; an enabled button moves
    the current page by exactly one, so the clamp of [changePage] is never
    the one to decide; and each button takes back the other. *)
Theorem page_buttons (s : State) (n : Z) :
  numPages s = Some n ->
  inPageRange n (pageNumber s) ->
  (enabled s EPreviousPage = true <-> (1 < pageNumber s)%Z)
  /\ (enabled s ENextPage = true <-> (pageNumber s < n)%Z)
  /\ (enabled s EPreviousPage = true ->
      pageNumber (previousPage s) = (pageNumber s - 1)%Z
      /\ pageNumber (nextPage (previousPage s)) = pageNumber s)
  /\ (enabled s ENextPage = true ->
      pageNumber (nextPage s) = (pageNumber s + 1)%Z
      /\ pageNumber (previousPage (nextPage s)) = pageNumber s).
Proof.
  intros Hn [H1 Hle].
  assert (Ep : enabled s EPreviousPage = true <-> (1 < pageNumber s)%Z).
  { simpl. rewrite Hn, andb_true_iff, !negb_true_iff, Z.eqb_neq, Z.leb_gt. lia. }
  assert (En : enabled s ENextPage = true <-> (pageNumber s < n)%Z).
  { simpl. rewrite Hn, andb_true_iff, !negb_true_iff, Z.eqb_neq, Z.leb_gt. lia. }
  split; [exact Ep|]. split; [exact En|]. split.
  - intros H. apply Ep in H.
    unfold nextPage, previousPage. rewrite !pageNumber_changePage.
    change (numPages (changePage (-1) s)) with (numPages s). rewrite Hn.
    unfold JS.ToNumberZ. lia.
  - intros H. apply En in H.
    unfold nextPage, previousPage. rewrite !pageNumber_changePage.
    change (numPages (changePage 1 s)) with (numPages s). rewrite Hn.
    unfold JS.ToNumberZ. lia.
Qed.

(** Page 1 of five pages: only the next-page button is enabled. *)
Lemma page_buttons_witness :
  let s := run lib_ok initial
             [EFileChange (Some fivePdf); EReaderLoad fiveBytes;
              EDocumentLoadSuccess 5] in
  enabled s EPreviousPage = false
  /\ enabled s ENextPage = true
  /\ pageNumber (nextPage s) = (pageNumber s + 1)%Z
  /\ pageNumber (previousPage (nextPage s)) = pageNumber s.
Proof.
  intros s.
  assert (Hn : numPages s = Some 5%Z) by (vm_compute; reflexivity).
  assert (Hr : inPageRange 5 (pageNumber s)) by (vm_compute; split; discriminate).
  destruct (page_buttons s 5 Hn Hr) as (_ & En & _ & Hnext).
  assert (E : enabled s ENextPage = true) by (vm_compute; reflexivity).
  destruct (Hnext E) as [A B].
  split; [vm_compute; reflexivity|]. split; [exact E|]. split; [exact A | exact B].
Defined.

(** ** The store keeps creation order and never edits a record *)

Lemma step_next_obj lib s e : (next_obj s <= next_obj (step lib s e))%nat.
Proof.
  destruct e; simpl; try apply Nat.le_refl.
  - unfold onFileChange. destruct selectedFile; [|apply Nat.le_refl].
    destruct (String.eqb _ _); apply Nat.le_refl.
  - unfold handleTextSelect. destruct (captureGuards env s) as [[[t r] c]|]; simpl; lia.
  - unfold toggleHighlightMode. destruct (isSelecting s); apply Nat.le_refl.
  - unfold savePDF. destruct (pdfBytes s); [|apply Nat.le_refl].
    destruct (exportBytes lib _ _); apply Nat.le_refl.
  - unfold downloadPDF. destruct (file s); apply Nat.le_refl.
  - destruct (nth_error _ k); apply Nat.le_refl.
  - destruct (nth_error _ k); [|apply Nat.le_refl].
    unfold navigateToHighlight. destruct anchor; apply Nat.le_refl.
Qed.

Lemma sorted_snoc (l : list nat) (a : nat) :
  StronglySorted lt l -> Forall (fun b => (b < a)%nat) l -> StronglySorted lt (l ++ [a]).
Proof.
  induction l as [|b l IH]; intros Hs Hlt; simpl.
  - constructor; constructor.
  - inversion Hs as [|b' l' Hs' Hb]; subst. inversion Hlt as [|b' l' Hba Hlt']; subst.
    constructor; [now apply IH|].
    apply Forall_app. split; [exact Hb | now constructor].
Qed.

Lemma sorted_filter_obj (f : Highlight -> bool) (hs : list Highlight) :
  StronglySorted lt (map obj hs) -> StronglySorted lt (map obj (filter f hs)).
Proof.
  induction hs as [|h rest IH]; simpl; intros Hs; [constructor|].
  inversion Hs as [|b l Hs' Hb]; subst.
  destruct (f h); simpl; [|now apply IH].
  constructor; [now apply IH|].
  rewrite Forall_forall in *. intros o Ho.
  apply Hb. apply in_map_iff in Ho as (h' & <- & Hin).
  apply in_map. now apply filter_In in Hin.
Qed.

Lemma step_creation_order lib s e :
  StronglySorted lt (map obj (highlights s))
  /\ Forall (fun h => (obj h < next_obj s)%nat) (highlights s) ->
  StronglySorted lt (map obj (highlights (step lib s e)))
  /\ Forall (fun h => (obj h < next_obj (step lib s e))%nat) (highlights (step lib s e)).
Proof.
  intros [Hs Hlt].
  pose proof (step_next_obj lib s e) as Hmono.
  destruct (step_store_change lib s e) as [E | i E | env t rect c He G E]; rewrite E.
  - split; [exact Hs|]. eapply Forall_impl; [|exact Hlt]. simpl. intros; lia.
  - split; [now apply sorted_filter_obj|].
    rewrite Forall_forall in *. intros h Hin. apply filter_In in Hin as [Hin _].
    specialize (Hlt h Hin). lia.
  - subst e. simpl in Hmono |- *.
    assert (Hn : next_obj (handleTextSelect env s) = S (next_obj s)).
    { unfold handleTextSelect. now rewrite G. }
    rewrite Hn. split.
    + rewrite map_app. simpl. apply sorted_snoc; [exact Hs|].
      rewrite Forall_forall in *. intros o Ho.
      apply in_map_iff in Ho as (h & <- & Hin). now apply Hlt.
    + apply Forall_app. split.
      * eapply Forall_impl; [|exact Hlt]. simpl. intros; lia.
      * constructor; [simpl; lia | constructor].
Qed.

Lemma run_creation_order lib es : forall s,
  StronglySorted lt (map obj (highlights s))
  /\ Forall (fun h => (obj h < next_obj s)%nat) (highlights s) ->
  StronglySorted lt (map obj (highlights (run lib s es)))
  /\ Forall (fun h => (obj h < next_obj (run lib s es))%nat) (highlights (run lib s es)).
Proof.
  induction es as [|e es IH]; intros s H; simpl; [exact H|].
  apply IH. now apply step_creation_order.
Qed.

(** A highlight of a later state was in the earlier state, or was
    allocated since. *)
Lemma run_store_origin lib es : forall s h,
  In h (highlights (run lib s es)) ->
  In h (highlights s) \/ (next_obj s <= obj h)%nat.
Proof.
  induction es as [|e es IH]; intros s h Hin; simpl in Hin; [now left|].
  pose proof (step_next_obj lib s e) as Hmono.
  destruct (IH _ _ Hin) as [Hs | Hge]; [|right; lia].
  destruct (step_store_change lib s e) as [E | i E | env t rect c He G E];
    rewrite E in Hs.
  - now left.
  - left. now apply filter_In in Hs.
  - apply in_app_iff in Hs as [Hs | [<- | []]]; [now left | right; simpl; lia].
Qed.

Lemma sorted_obj_injective (hs : list Highlight) :
  StronglySorted lt (map obj hs) ->
  forall h h', In h hs -> In h' hs -> obj h = obj h' -> h = h'.
Proof.
  induction hs as [|h0 rest IH]; simpl; intros Hs h h' Hin Hin' Ho; [destruct Hin|].
  inversion Hs as [|b l Hs' Hb]; subst. rewrite Forall_forall in Hb.
  destruct Hin as [<- | Hin]; destruct Hin' as [<- | Hin'].
  - reflexivity.
  - exfalso. assert (obj h0 < obj h')%nat by (apply Hb; now apply in_map). lia.
  - exfalso. assert (obj h0 < obj h)%nat by (apply Hb; now apply in_map). lia.
  - now apply IH.
Qed.

(** X17.  In every state the store lists its highlights in the order
    they were created, and a highlight object is never edited: whatever
    happens between two states of a session, if an object of the earlier
    store is still in the later store it is there with the same id, text,
    page number, colour and position, and the objects both stores hold
    are in the same order. *)
Theorem store_creation_order_immutable (lib : PdfLib) (es es' : list Event) :
  StronglySorted lt (map obj (highlights (run lib initial es)))
  /\ (forall h h',
        In h (highlights (run lib initial es)) ->
        In h' (highlights (run lib (run lib initial es) es')) ->
        obj h = obj h' -> h = h')
  /\ (forall h',
        In h' (highlights (run lib (run lib initial es) es')) ->
        In h' (highlights (run lib initial es))
        \/ (next_obj (run lib initial es) <= obj h')%nat).
Proof.
  assert (H0 : StronglySorted lt (map obj (highlights initial))
               /\ Forall (fun h => (obj h < next_obj initial)%nat) (highlights initial))
    by (split; constructor).
  destruct (run_creation_order lib es initial H0) as [Hs Hlt].
  split; [exact Hs|]. split; [|intros h'; apply run_store_origin].
  intros h h' Hin Hin' Ho.
  destruct (run_store_origin lib es' _ h' Hin') as [Hold | Hnew].
  - now apply (sorted_obj_injective _ Hs).
  - rewrite Forall_forall in Hlt. specialize (Hlt h Hin). lia.
Qed.

(** The two-page session, then a removal of the first highlight and a
    new capture. *)
Lemma store_creation_order_immutable_witness :
  let s := run lib_ok initial trace_two_pages in
  let s' := run lib_ok s [ERemoveHighlight 0; ETextSelect envA] in
  map obj (highlights s) = [0%nat; 1%nat]
  /\ map obj (highlights s') = [1%nat; 2%nat]
  /\ nth_error (highlights s') 0 = nth_error (highlights s) 1.
Proof.
  intros s s'.
  assert (A : map obj (highlights s) = [0%nat; 1%nat]) by (vm_compute; reflexivity).
  assert (B : map obj (highlights s') = [1%nat; 2%nat]) by (vm_compute; reflexivity).
  split; [exact A|]. split; [exact B|].
  destruct (nth_error (highlights s) 1) as [h|] eqn:Hk; [|vm_compute in Hk; discriminate].
  destruct (nth_error (highlights s') 0) as [h'|] eqn:Hk';
    [|vm_compute in Hk'; discriminate].
  destruct (store_creation_order_immutable lib_ok trace_two_pages
              [ERemoveHighlight 0; ETextSelect envA]) as (_ & Hsame & _).
  f_equal. symmetry. apply (Hsame h h').
  - eapply nth_error_In; exact Hk.
  - eapply nth_error_In; exact Hk'.
  - assert (O : option_map obj (nth_error (highlights s) 1)
                = option_map obj (nth_error (highlights s') 0))
      by (vm_compute; reflexivity).
    rewrite Hk, Hk' in O. simpl in O. now injection O.
Defined.
